(** * LIBERT: the DeBERTa extension of nlp-architect

    A shallow embedding of [nlp_architect/models/libert/deberta_model.py]:
    the configuration extension, the disentangled self-attention with its
    pivot-phrase and mark terms, the encoder and model wrappers, and the
    token-classification head with virtual adversarial training.

    Tensors are index functions paired with their shape; element types are
    kept abstract through the [Scalar] class, so every statement holds for
    any number system (floats included) that interprets the operations.
    Python control flow lives in a small monad that can raise and that
    counts the matrix products and the refinement steps performed. *)

From Stdlib Require Import ZArith QArith Qcanon Lia.
From stdpp Require Import base list strings pretty gmap.

Local Open Scope nat_scope.

(** ** Python exceptions and the evaluation monad *)

Inductive exn : Type :=
| ValueError (msg : string)
| NameError (name : string)
| UnboundLocalError (name : string)
| TypeError (msg : string)
| AttributeError (msg : string)
| AssertionError (msg : string)
| IndexError (msg : string)
| ZeroDivisionError.

Inductive result (A : Type) : Type :=
| Ok (a : A)
| Raise (e : exn).
Arguments Ok {A} a.
Arguments Raise {A} e.

(** What an execution has done so far: the matrix products performed and
    the iterations of the post-stack refinement loop of the model. *)
Record counters : Type := Counters {
  matmuls : nat;
  refinement_steps : nat;
}.

(** A computation reads the counters and returns its outcome with the
    updated counters. *)
Definition M (A : Type) : Type := counters -> result A * counters.

Definition ret {A} (a : A) : M A := fun s => (Ok a, s).

Definition raise {A} (e : exn) : M A := fun s => (Raise e, s).

Definition bind {A B} (c : M A) (k : A -> M B) : M B :=
  fun s => match c s with
           | (Ok a, s') => k a s'
           | (Raise e, s') => (Raise e, s')
           end.

Definition tick : M unit :=
  fun s => (Ok tt, Counters (S (matmuls s)) (refinement_steps s)).

Definition tick_refinement : M unit :=
  fun s => (Ok tt, Counters (matmuls s) (S (refinement_steps s))).

Notation "'do' x <- c ; k" := (bind c (fun x => k))
  (at level 10, x name, c at level 100, k at level 200).
Notation "'do' ' p <- c ; k" := (bind c (fun x => match x with p => k end))
  (at level 10, p pattern, c at level 100, k at level 200).
Notation "'run' c ; k" := (bind c (fun _ => k))
  (at level 10, c at level 100, k at level 200).

(** Reading a local variable that no executed statement has bound. *)
Definition read_local {A} (name : string) (v : option A) : M A :=
  match v with
  | Some a => ret a
  | None => raise (UnboundLocalError name)
  end.

(** Reading a module-level name; [None] stands for a name that the module
    neither defines nor imports. *)
Definition read_global {A} (name : string) (v : option A) : M A :=
  match v with
  | Some a => ret a
  | None => raise (NameError name)
  end.

(** Using [None] where an object is required. *)
Definition not_none {A} (what : string) (v : option A) : M A :=
  match v with
  | Some a => ret a
  | None => raise (TypeError what)
  end.

(** ** Scalars *)

Class Scalar (R : Type) : Type := {
  f0 : R;
  f1 : R;
  fadd : R -> R -> R;
  fmul : R -> R -> R;
  fdiv : R -> R -> R;
  fsqrt : R -> R;
  of_Z : Z -> R;
  feqb : R -> R -> bool;
}.

(** The three sums of indicator values that the aspect mask relies on. *)
Class ScalarLaws (R : Type) `{Scalar R} : Prop := {
  fadd_0_0 : fadd f0 f0 = f0;
  fadd_1_0 : fadd f1 f0 = f1;
  fadd_0_1 : fadd f0 f1 = f1;
}.

Definition of_bool `{Scalar R} (b : bool) : R := if b then f1 else f0.

(** ** Tensors

    The operations on tensors are total functions: the shape errors of the
    tensor library ([RuntimeError]) are not modelled, so a statement that a
    call returns is made under the shapes that the library accepts. *)

Record tensor (A : Type) : Type := Tensor {
  shape : list nat;
  get : list nat -> A;
}.
Arguments Tensor {A} shape get.
Arguments shape {A} t.
Arguments get {A} t idx.

Definition prod_list (s : list nat) : nat := foldr Nat.mul 1 s.

(** [Tensor.dim()] *)
Definition dim {A} (t : tensor A) : nat := length (shape t).

(** [Tensor.size(k)] for [0 <= k] *)
Definition size_at {A} (t : tensor A) (k : nat) : nat := nth k (shape t) 0.

(** [Tensor.size(-k)] for [1 <= k] *)
Definition size_neg {A} (t : tensor A) (k : nat) : nat :=
  if k <=? dim t then nth (dim t - k) (shape t) 0 else 0.

(** Row-major offset of an index, and its inverse. *)
Fixpoint ravel (s idx : list nat) : nat :=
  match s, idx with
  | _ :: s', i :: idx' => i * prod_list s' + ravel s' idx'
  | _, _ => 0
  end.

Fixpoint unravel (s : list nat) (p : nat) : list nat :=
  match s with
  | [] => []
  | _ :: s' => (p / prod_list s') :: unravel s' (p mod prod_list s')
  end.

(** [Tensor.view] and [torch.reshape] onto the shape [s] *)
Definition view {A} (t : tensor A) (s : list nat) : tensor A :=
  Tensor s (fun idx => get t (unravel (shape t) (ravel s idx))).

(** [Tensor.view(-1)] *)
Definition flatten {A} (t : tensor A) : tensor A :=
  view t [prod_list (shape t)].

(** [Tensor.unsqueeze(k)] *)
Definition unsqueeze {A} (k : nat) (t : tensor A) : tensor A :=
  Tensor (take k (shape t) ++ 1 :: drop k (shape t))
         (fun idx => get t (take k idx ++ drop (S k) idx)).

(** Index into an operand of shape [s] from an index of the broadcast
    result: align on the right, and pin every axis of extent one. *)
Definition bidx (s idx : list nat) : list nat :=
  zip_with (fun d i => if d =? 1 then 0 else i) s
           (drop (length idx - length s) idx).

Definition bget {A} (t : tensor A) (idx : list nat) : A :=
  get t (bidx (shape t) idx).

Definition pad_left (n : nat) (s : list nat) : list nat :=
  replicate (n - length s) 1 ++ s.

Definition bshape (s1 s2 : list nat) : list nat :=
  let n := length s1 `max` length s2 in
  zip_with (fun a b => if a =? 1 then b else a) (pad_left n s1) (pad_left n s2).

(** [Tensor.expand(s)] *)
Definition expand {A} (t : tensor A) (s : list nat) : tensor A :=
  Tensor s (fun idx => bget t idx).

Definition tmap {A B} (f : A -> B) (t : tensor A) : tensor B :=
  Tensor (shape t) (fun idx => f (get t idx)).

Definition tmap2 {A B C} (f : A -> B -> C) (a : tensor A) (b : tensor B) : tensor C :=
  Tensor (bshape (shape a) (shape b)) (fun idx => f (bget a idx) (bget b idx)).

(** [torch.where(c, a, b)] *)
Definition where_ {A} (c : tensor bool) (a b : tensor A) : tensor A :=
  Tensor (bshape (shape c) (bshape (shape a) (shape b)))
         (fun idx => if bget c idx then bget a idx else bget b idx).

(** [t == z] on an integer tensor *)
Definition eq_scalar (t : tensor Z) (z : Z) : tensor bool :=
  tmap (fun x => Z.eqb x z) t.

(** [torch.clamp(t, lo, hi)] *)
Definition clamp (t : tensor Z) (lo hi : Z) : tensor Z :=
  tmap (fun x => Z.min (Z.max x lo) hi) t.

Definition set_last (idx : list nat) (v : nat) : list nat :=
  take (length idx - 1) idx ++ [v].

Definition set_last2 (idx : list nat) (v : nat) : list nat :=
  take (length idx - 2) idx ++ v :: drop (length idx - 1) idx.

(** [torch.gather(input, dim=-1, index)] *)
Definition gather_last {A} (input : tensor A) (index : tensor Z) : tensor A :=
  Tensor (shape index)
         (fun idx => get input (set_last idx (Z.to_nat (get index idx)))).

(** [torch.gather(input, dim=-2, index)] *)
Definition gather_last2 {A} (input : tensor A) (index : tensor Z) : tensor A :=
  Tensor (shape index)
         (fun idx => get input (set_last2 idx (Z.to_nat (get index idx)))).

Definition swap_last2 {X} (l : list X) : list X :=
  match reverse l with
  | a :: b :: r => reverse r ++ [a; b]
  | _ => l
  end.

(** [Tensor.transpose(-1, -2)] *)
Definition transpose_last2 {A} (t : tensor A) : tensor A :=
  Tensor (swap_last2 (shape t)) (fun idx => get t (swap_last2 idx)).

Definition swap_12 {X} (l : list X) : list X :=
  match l with
  | a :: b :: c :: r => a :: c :: b :: r
  | _ => l
  end.

(** [Tensor.permute(0, 2, 1, 3)] *)
Definition permute_0213 {A} (t : tensor A) : tensor A :=
  Tensor (swap_12 (shape t)) (fun idx => get t (swap_12 idx)).

(** [t[lo:hi, :]] on a tensor of rank two or more: the rows [lo] to [hi]
    of the first axis, the other axes as they are *)
Definition slice_rows {A} (t : tensor A) (lo hi : nat) : tensor A :=
  Tensor ((Nat.min hi (size_at t 0) - lo) :: drop 1 (shape t))
         (fun idx => match idx with
                     | i :: r => get t (lo + i :: r)
                     | [] => get t []
                     end).

(** [Tensor.squeeze(k)]: drop axis [k] when its extent is one *)
Definition squeeze {A} (k : nat) (t : tensor A) : tensor A :=
  if size_at t k =? 1
  then Tensor (take k (shape t) ++ drop (S k) (shape t))
              (fun idx => get t (take k idx ++ 0 :: drop k idx))
  else t.

(** [t[..., k]]: select position [k] on the last axis *)
Definition select_last {A} (t : tensor A) (k : nat) : tensor A :=
  Tensor (take (dim t - 1) (shape t)) (fun idx => get t (idx ++ [k])).

(** The [i]-th of [n] equal chunks along the last axis, [t.chunk(n, dim=-1)[i]] *)
Definition chunk_last {A} (t : tensor A) (n i : nat) : tensor A :=
  let w := size_neg t 1 / n in
  Tensor (take (dim t - 1) (shape t) ++ [w])
         (fun idx => get t (set_last idx (i * w + List.last idx 0))).

Section Numeric.
Context {R : Type} `{Scalar R}.

Definition tadd (a b : tensor R) : tensor R := tmap2 fadd a b.
Definition tmul (a b : tensor R) : tensor R := tmap2 fmul a b.
Definition tscale (a : tensor R) (c : R) : tensor R := tmap (fun x => fmul x c) a.
Definition tdiv_scalar (a : tensor R) (c : R) : tensor R := tmap (fun x => fdiv x c) a.

(** Left-to-right sum of [f 0 .. f (n-1)]. *)
Definition sum_upto (n : nat) (f : nat -> R) : R :=
  foldl (fun acc k => fadd acc (f k)) f0 (seq 0 n).

Definition batch_of (s : list nat) : list nat := take (length s - 2) s.

Definition matmul_value (a b : tensor R) : tensor R :=
  Tensor (bshape (batch_of (shape a)) (batch_of (shape b)) ++ [size_neg a 2; size_neg b 1])
         (fun idx =>
            let bi := take (length idx - 2) idx in
            let i := nth (length idx - 2) idx 0 in
            let j := nth (length idx - 1) idx 0 in
            sum_upto (size_neg a 1) (fun k =>
              fmul (get a (bidx (batch_of (shape a)) bi ++ [i; k]))
                   (get b (bidx (batch_of (shape b)) bi ++ [k; j])))).

(** [torch.matmul]: one more matrix product on the counter. *)
Definition matmul (a b : tensor R) : M (tensor R) :=
  run tick; ret (matmul_value a b).

(** [torch.nn.Linear]: [weight] is [out x in], [bias] may be absent. *)
Record Linear : Type := {
  weight : tensor R;
  bias : option (tensor R);
}.

Definition linear_value (l : Linear) (x : tensor R) : tensor R :=
  Tensor (take (dim x - 1) (shape x) ++ [size_at (weight l) 0])
         (fun idx =>
            let o := List.last idx 0 in
            let pre := take (length idx - 1) idx in
            let y := sum_upto (size_neg x 1) (fun k =>
                       fmul (get x (pre ++ [k])) (get (weight l) [o; k])) in
            match bias l with
            | Some b => fadd y (get b [o])
            | None => y
            end).

Definition apply_linear (l : Linear) (x : tensor R) : M (tensor R) :=
  run tick; ret (linear_value l x).

End Numeric.
Arguments Linear R : clear implicits.

(** ** Python values, attribute dictionaries and the configuration *)

Inductive pyval (R : Type) : Type :=
| PNone
| PBool (b : bool)
| PInt (z : Z)
| PFloat (r : R)
| PStr (s : string).
Arguments PNone {R}.
Arguments PBool {R} b.
Arguments PInt {R} z.
Arguments PFloat {R} r.
Arguments PStr {R} s.

(** The part of a [DebertaConfig] that the module reads with plain
    attribute access, and the instance dictionary [extra] behind every
    [getattr(config, name, default)] and [hasattr(config, name)]. *)
Record config (R : Type) : Type := Config {
  hidden_size : Z;
  num_attention_heads : Z;
  num_hidden_layers : nat;
  max_position_embeddings : Z;
  pos_att_type : option (list string);
  cfg_output_attentions : bool;
  cfg_output_hidden_states : bool;
  use_return_dict : bool;
  extra : gmap string (pyval R);
}.
Arguments Config {R}.
Arguments hidden_size {R} c.
Arguments num_attention_heads {R} c.
Arguments num_hidden_layers {R} c.
Arguments max_position_embeddings {R} c.
Arguments pos_att_type {R} c.
Arguments cfg_output_attentions {R} c.
Arguments cfg_output_hidden_states {R} c.
Arguments use_return_dict {R} c.
Arguments extra {R} c.

Section Python.
Context {R : Type} `{Scalar R}.

(** Truth value of an object in a condition. *)
Definition truthy (v : pyval R) : bool :=
  match v with
  | PNone => false
  | PBool b => b
  | PInt z => negb (Z.eqb z 0)
  | PFloat r => negb (feqb r f0)
  | PStr s => negb (String.eqb s "")
  end.

Definition py_or (a b : pyval R) : pyval R := if truthy a then a else b.
Definition py_and (a b : pyval R) : pyval R := if truthy a then b else a.
Definition py_not (a : pyval R) : bool := negb (truthy a).

(** [getattr(obj, name, default)] on an attribute dictionary *)
Definition getattr (d : gmap string (pyval R)) (name : string) (dflt : pyval R) : pyval R :=
  default dflt (d !! name).

(** [hasattr(obj, name)] *)
Definition hasattr (d : gmap string (pyval R)) (name : string) : bool :=
  bool_decide (is_Some (d !! name)).

(** [obj.name] *)
Definition attr (d : gmap string (pyval R)) (name : string) : M (pyval R) :=
  match d !! name with
  | Some v => ret v
  | None => raise (AttributeError name)
  end.

Definition set_extra (c : config R) (name : string) (v : pyval R) : config R :=
  Config (hidden_size c) (num_attention_heads c) (num_hidden_layers c)
         (max_position_embeddings c) (pos_att_type c) (cfg_output_attentions c)
         (cfg_output_hidden_states c) (use_return_dict c) (<[name := v]> (extra c)).

Definition set_pos_att_type (c : config R) (l : list string) : config R :=
  Config (hidden_size c) (num_attention_heads c) (num_hidden_layers c)
         (max_position_embeddings c) (Some l) (cfg_output_attentions c)
         (cfg_output_hidden_states c) (use_return_dict c) (extra c).

(** An object used as an integer. *)
Definition as_int (v : pyval R) : M Z :=
  match v with
  | PInt z => ret z
  | PBool b => ret (if b then 1%Z else 0%Z)
  | _ => raise (TypeError "an integer is required")
  end.

(** An object used as a factor of a tensor. *)
Definition as_scalar (v : pyval R) : M R :=
  match v with
  | PInt z => ret (of_Z z)
  | PBool b => ret (of_bool b)
  | PFloat r => ret r
  | _ => raise (TypeError "unsupported operand type")
  end.

(** *** [CustomDebertaConfig.add_extra_args] *)
Definition add_extra_args (self : config R) (hparams : gmap string (pyval R)) : M (config R) :=
  let self := set_extra self "gamma"
                (getattr hparams "gamma" (PFloat (fdiv (of_Z 1) (of_Z 10000)))) in
  let self := set_extra self "lr_adv" (getattr hparams "lr_adv" (PInt 10)) in
  let self := set_extra self "pivot_phrase_embeddings"
                (getattr hparams "pivot_phrase_embeddings" (PBool false)) in
  let self := set_extra self "c2p_att_pp_enabled" (getattr hparams "c2p_att_pp" (PBool false)) in
  let self := set_extra self "p2c_att_pp_enabled" (getattr hparams "p2c_att_pp" (PBool false)) in
  let self := set_extra self "mark_embeddings" (getattr hparams "mark_embeddings" PNone) in
  let self := set_extra self "c2m" (getattr hparams "c2m" (PBool false)) in
  let self := set_extra self "m2c" (getattr hparams "m2c" (PBool false)) in
  let self := set_extra self "c2m_scalar" (getattr hparams "c2m_scalar" (PInt 1)) in
  let self := set_extra self "m2c_scalar" (getattr hparams "m2c_scalar" (PInt 1)) in
  let self := set_extra self "mark_enhanced_classifier"
                (getattr hparams "mark_enhanced_classifier" (PBool false)) in
  let get name := getattr (extra self) name PNone in
  if py_not (py_and (py_or (get "c2m") (get "m2c"))
                    (py_or (get "c2p_att_pp_enabled") (get "p2c_att_pp_enabled")))
  then ret self
  else raise (AssertionError "Can't have both marks and pivot phrase enabled.").

End Python.

(** ** Names visible in the module *)

(** Every name bound at module level: the imports at the head of the file,
    then the classes and the function it defines. *)
Definition module_globals : list string :=
  [ "math"; "Sequence"; "nn"; "torch"; "CrossEntropyLoss";
    "DebertaConfig"; "DebertaPreTrainedModel"; "DebertaModel"; "ContextPooler";
    "StableDropout"; "DebertaSelfOutput"; "DebertaIntermediate"; "DebertaOutput";
    "DebertaLayerNorm"; "DebertaAttention"; "DebertaLayer";
    "DisentangledSelfAttention"; "DebertaEmbeddings"; "DebertaEncoder";
    "c2p_dynamic_expand"; "p2c_dynamic_expand"; "pos_dynamic_expand"; "XSoftmax";
    "BaseModelOutput"; "log";
    "CustomDebertaConfig"; "CustomDebertaAttention"; "CustomDebertaLayer";
    "CustomDisentangledSelfAttention"; "CustomDebertaEmbeddings";
    "CustomDebertaEncoder"; "CustomDebertaModel"; "DebertaForTokenClassification";
    "CustomDebertaForTokenClassification";
    "DifferentCustomDebertaForTokenClassification"; "log_tensor_stats" ].

(** Calling [name(...)]: the name is looked up first. *)
Definition global_call {A} (name : string) (body : M A) : M A :=
  if bool_decide (name ∈ module_globals) then body else raise (NameError name).

(** Writing [t[i0][i1]...] in an f-string: the elements are formatted
    whatever the log level, so the indices must be in range. *)
Definition subscript {A} (t : tensor A) (idx : list nat) : M unit :=
  if bool_decide (Forall2 lt idx (take (length idx) (shape t)))
  then ret tt
  else raise (IndexError "index out of bounds").

(** ** Helpers of the transformers library used by the attention *)

(** [build_relative_position(query_size, key_size, device)] *)
Definition build_relative_position (query_size key_size : nat) : tensor Z :=
  Tensor [1; query_size; key_size]
         (fun idx => Z.sub (Z.of_nat (nth 1 idx 0)) (Z.of_nat (nth 2 idx 0))).

(** [c2p_dynamic_expand(c2p_pos, query_layer, relative_pos)] *)
Definition c2p_dynamic_expand {A} (c2p_pos : tensor Z) (query_layer : tensor A)
    (relative_pos : tensor Z) : tensor Z :=
  expand c2p_pos [size_at query_layer 0; size_at query_layer 1;
                  size_at query_layer 2; size_neg relative_pos 1].

(** [p2c_dynamic_expand(c2p_pos, query_layer, key_layer)] *)
Definition p2c_dynamic_expand {A} (c2p_pos : tensor Z) (query_layer key_layer : tensor A)
    : tensor Z :=
  expand c2p_pos [size_at query_layer 0; size_at query_layer 1;
                  size_neg key_layer 2; size_neg key_layer 2].

(** [pos_dynamic_expand(pos_index, p2c_att, key_layer)] *)
Definition pos_dynamic_expand {A} (pos_index : tensor Z) (p2c_att key_layer : tensor A)
    : tensor Z :=
  expand pos_index [size_at p2c_att 0; size_at p2c_att 1;
                    size_neg pos_index 2; size_neg key_layer 2].

(** ** [CustomDisentangledSelfAttention] *)

Section Attention.
Context {R : Type} `{Scalar R}.

(** A tuple element or a dictionary value: [None], a number or a tensor. *)
Inductive tval : Type :=
| VNone
| VInt (z : Z)
| VT (t : tensor R).

(** The running [score]: the integer it starts from, then a tensor. *)
Inductive score_t : Type :=
| SInt (z : Z)
| ST (t : tensor R).

Definition score_val (s : score_t) : tval :=
  match s with
  | SInt z => VInt z
  | ST t => VT t
  end.

(** [score += t] *)
Definition iadd_score (s : score_t) (t : tensor R) : score_t :=
  match s with
  | SInt z => ST (tmap (fun x => fadd (of_Z z) x) t)
  | ST u => ST (tadd u t)
  end.

(** [StableDropout]: the identity unless training with a positive rate;
    then the entries that the random mask selects for the input are zeroed
    and the others scaled. *)
Record StableDropout : Type := {
  drop_active : bool;
  drop_mask : tensor R -> list nat -> bool;
  drop_scale : R;
}.

Definition drop_apply (d : StableDropout) (t : tensor R) : tensor R :=
  Tensor (shape t)
         (fun idx => if drop_mask d t idx then f0 else fmul (get t idx) (drop_scale d)).

Definition apply_dropout (d : StableDropout) (x : option (tensor R)) : M (option (tensor R)) :=
  if drop_active d
  then do t <- not_none "empty_like(): argument 'input' must be Tensor" x;
       ret (Some (drop_apply d t))
  else ret x.

Record SelfAttention : Type := {
  sa_num_attention_heads : nat;
  sa_attention_head_size : nat;
  sa_all_head_size : nat;
  sa_in_proj : Linear R;
  sa_q_bias : tensor R;
  sa_v_bias : tensor R;
  sa_pos_att_type : list string;
  sa_relative_attention : bool;
  sa_talking_head : bool;
  sa_mark_proj : option (Linear R);
  sa_mark_q_proj : option (Linear R);
  sa_c2m_scalar : pyval R;
  sa_m2c_scalar : pyval R;
  sa_head_logits_proj : option (Linear R);
  sa_head_weights_proj : option (Linear R);
  sa_max_relative_positions : option Z;
  sa_pos_dropout : option StableDropout;
  sa_pos_proj : option (Linear R);
  sa_pos_q_proj : option (Linear R);
  sa_dropout : StableDropout;
}.

(** [self.name] for an attribute that [__init__] sets on some paths only. *)
Definition self_attr {A} (name : string) (v : option A) : M A :=
  match v with
  | Some a => ret a
  | None => raise (AttributeError name)
  end.

(** What the base class and [torch.nn] hand to [__init__]: the outcome of
    [super().__init__(config)] and the freshly created submodules. *)
Record AttentionParts : Type := {
  super_init : M unit;
  new_in_proj : Linear R;
  new_mark_proj : Linear R;
  new_mark_q_proj : Linear R;
  new_head_logits_proj : Linear R;
  new_head_weights_proj : Linear R;
  new_pos_proj : Linear R;
  new_pos_q_proj : Linear R;
  new_pos_dropout : StableDropout;
  new_dropout : StableDropout;
}.

Definition mem (x : string) (l : list string) : bool := bool_decide (x ∈ l).

(** [if x not in l: l += [x]] *)
Definition add_once (x : string) (l : list string) : list string :=
  if mem x l then l else l ++ [x].

(** The check [config.hidden_size % config.num_attention_heads != 0]. *)
Definition check_heads (cfg : config R) : M unit :=
  if Z.eqb (num_attention_heads cfg) 0 then raise ZeroDivisionError
  else if negb (Z.eqb (hidden_size cfg mod num_attention_heads cfg) 0)
  then raise (ValueError ("The hidden size (" +:+ pretty (hidden_size cfg)
                +:+ ") is not a multiple of the number of attention heads ("
                +:+ pretty (num_attention_heads cfg) +:+ ")"))
  else ret tt.

(** [CustomDisentangledSelfAttention.__init__]. The list held by
    [config.pos_att_type] is extended in place, so the configuration comes
    back with it. The module counts its heads and their size in [nat]: the
    sizes are those of the source for a positive number of heads. (A
    negative number that divides the hidden size passes the check of the
    source as well, and leaves negative sizes there.) *)
Definition attention_init (cfg : config R) (parts : AttentionParts)
    : M (SelfAttention * config R) :=
  run super_init parts;
  run check_heads cfg;
  let heads := Z.to_nat (num_attention_heads cfg) in
  let head_size := Z.to_nat (hidden_size cfg ÷ num_attention_heads cfg) in
  let all := heads * head_size in
  let flag name := truthy (getattr (extra cfg) name (PBool false)) in
  let pat := default [] (pos_att_type cfg) in
  let pat := if flag "c2p_att_pp_enabled" then add_once "c2p_pp" pat else pat in
  let pat := if flag "p2c_att_pp_enabled" then add_once "p2c_pp" pat else pat in
  let pat := if flag "c2m" then add_once "c2m" pat else pat in
  let pat := if flag "m2c" then add_once "m2c" pat else pat in
  let relative := flag "relative_attention" in
  do max_rel <-
     (if relative then
        do m <- as_int (getattr (extra cfg) "max_relative_positions" (PInt (-1)));
        ret (Some (if (m <? 1)%Z then max_position_embeddings cfg else m))
      else ret None);
  let pos_needed x := relative && (mem x pat || mem "p2p" pat) in
  ret ({| sa_num_attention_heads := heads;
          sa_attention_head_size := head_size;
          sa_all_head_size := all;
          sa_in_proj := new_in_proj parts;
          sa_q_bias := Tensor [all] (fun _ => f0);
          sa_v_bias := Tensor [all] (fun _ => f0);
          sa_pos_att_type := pat;
          sa_relative_attention := relative;
          sa_talking_head := flag "talking_head";
          sa_mark_proj := if flag "c2m" then Some (new_mark_proj parts) else None;
          sa_mark_q_proj := if flag "m2c" then Some (new_mark_q_proj parts) else None;
          sa_c2m_scalar := getattr (extra cfg) "c2m_scalar" (PInt 1);
          sa_m2c_scalar := getattr (extra cfg) "m2c_scalar" (PInt 1);
          sa_head_logits_proj :=
            if flag "talking_head" then Some (new_head_logits_proj parts) else None;
          sa_head_weights_proj :=
            if flag "talking_head" then Some (new_head_weights_proj parts) else None;
          sa_max_relative_positions := max_rel;
          sa_pos_dropout := if relative then Some (new_pos_dropout parts) else None;
          sa_pos_proj := if pos_needed "c2p" then Some (new_pos_proj parts) else None;
          sa_pos_q_proj := if pos_needed "p2c" then Some (new_pos_q_proj parts) else None;
          sa_dropout := new_dropout parts |},
       match pos_att_type cfg with
       | Some _ => set_pos_att_type cfg pat
       | None => cfg
       end).

(** [transpose_for_scores] *)
Definition transpose_for_scores (self : SelfAttention) (x : tensor R) : tensor R :=
  let h := sa_num_attention_heads self in
  permute_0213 (view x (take (dim x - 1) (shape x) ++ [h; size_neg x 1 / h])).

End Attention.
Arguments tval R : clear implicits.
Arguments score_t R : clear implicits.
Arguments StableDropout R : clear implicits.
Arguments SelfAttention R : clear implicits.
Arguments AttentionParts R : clear implicits.

Section AttentionBias.
Context {R : Type} `{Scalar R}.

(** [relative_pos[:, :, :, 0].unsqueeze(-1)] *)
Definition first_key_column (relative_pos : tensor Z) : tensor Z :=
  unsqueeze 3 (select_last relative_pos 0).

(** [math.sqrt(t.size(-1) * scale_factor)] *)
Definition sqrt_scale (t : tensor R) (scale_factor : nat) : R :=
  fsqrt (of_Z (Z.of_nat (size_neg t 1 * scale_factor))).

(** Lines 333-339: bring [relative_pos] to rank four, or refuse it. *)
Definition normalize_relative_pos (relative_pos : tensor Z) : M (tensor Z) :=
  if dim relative_pos =? 2 then ret (unsqueeze 0 (unsqueeze 0 relative_pos))
  else if dim relative_pos =? 3 then ret (unsqueeze 1 relative_pos)
  else if negb (dim relative_pos =? 4)
  then raise (ValueError ("Relative position ids must be of dim 2 or 3 or 4. "
                          +:+ pretty (dim relative_pos)))
  else ret relative_pos.

(** [CustomDisentangledSelfAttention.disentangled_att_bias]. A local that
    only some branches bind is an [option]; reading it goes through
    [read_local]. *)
Definition disentangled_att_bias (self : SelfAttention R)
    (query_layer key_layer : tensor R) (relative_pos : option (tensor Z))
    (rel_embeddings : option (tensor R)) (scale_factor : nat)
    (mark_embeddings : option (tensor R)) (marks : option (tensor Z))
    : M (list (tval R)) :=
  let pat := sa_pos_att_type self in
  do relative_pos <-
     match relative_pos with
     | None =>
         global_call "build_relative_position"
           (ret (build_relative_position (size_neg query_layer 2) (size_neg key_layer 2)))
     | Some r => ret r
     end;
  do relative_pos <- normalize_relative_pos relative_pos;
  do max_rel <- self_attr "max_relative_positions" (sa_max_relative_positions self);
  let att_span :=
    Z.min (Z.max (Z.of_nat (size_neg query_layer 2)) (Z.of_nat (size_neg key_layer 2)))
          max_rel in
  let span_rows (t : tensor R) :=
    unsqueeze 0 (slice_rows t (Z.to_nat (max_rel - att_span)) (Z.to_nat (max_rel + att_span))) in
  do rel_embeddings <- not_none "'NoneType' object is not subscriptable" rel_embeddings;
  let rel_embeddings := span_rows rel_embeddings in
  do mark_embeddings <-
     (if mem "c2p_pp" pat || mem "p2c_pp" pat
      then do m <- not_none "'NoneType' object is not subscriptable" mark_embeddings;
           ret (Some (span_rows m))
      else ret mark_embeddings);
  do pos_key_layer <-
     (if mem "c2p" pat || mem "p2p" pat
      then do proj <- self_attr "pos_proj" (sa_pos_proj self);
           do x <- apply_linear proj rel_embeddings;
           ret (Some (transpose_for_scores self x))
      else ret None);
  do pos_query_layer <-
     (if mem "p2c" pat || mem "p2p" pat
      then do proj <- self_attr "pos_q_proj" (sa_pos_q_proj self);
           do x <- apply_linear proj rel_embeddings;
           ret (Some (transpose_for_scores self x))
      else ret None);
  (* Pivot phrase scheme (gen 1) - modifying position embeddings *)
  do pp_key_layer <-
     (if mem "c2p_pp" pat
      then do proj <- self_attr "pos_proj" (sa_pos_proj self);
           do m <- not_none "linear(): argument 'input' must be Tensor" mark_embeddings;
           do x <- apply_linear proj m;
           ret (Some (transpose_for_scores self x))
      else ret None);
  do pp_query_layer <-
     (if mem "p2c_pp" pat
      then do proj <- self_attr "pos_q_proj" (sa_pos_q_proj self);
           do m <- not_none "linear(): argument 'input' must be Tensor" mark_embeddings;
           do x <- apply_linear proj m;
           ret (Some (transpose_for_scores self x))
      else ret None);
  (* Pivot phrase scheme (gen 2) - new att components *)
  do mark_query_layer <-
     (if mem "m2c" pat
      then do proj <- self_attr "mark_q_proj" (sa_mark_q_proj self);
           do m <- not_none "linear(): argument 'input' must be Tensor" mark_embeddings;
           do x <- apply_linear proj m;
           ret (Some (transpose_for_scores self x))
      else ret None);
  do mark_key_layer <-
     (if mem "c2m" pat
      then do proj <- self_attr "mark_proj" (sa_mark_proj self);
           do m <- not_none "linear(): argument 'input' must be Tensor" mark_embeddings;
           do x <- apply_linear proj m;
           ret (Some (transpose_for_scores self x))
      else ret None);
  let score := SInt 0 in
  (* content->position *)
  do '(score, c2p_att_orig, c2p_att_pp) <-
     (if mem "c2p" pat
      then
        do pos_key_layer <- read_local "pos_key_layer" pos_key_layer;
        do c2p_att <- matmul query_layer (transpose_last2 pos_key_layer);
        let c2p_pos := clamp (tmap (fun x => (x + att_span)%Z) relative_pos)
                             0 (att_span * 2 - 1) in
        let c2p_att :=
          gather_last c2p_att (c2p_dynamic_expand c2p_pos query_layer relative_pos) in
        let c2p_att_orig := c2p_att in
        do '(c2p_att, c2p_att_pp) <-
           match mark_embeddings, marks with
           | Some _, Some marks =>
               if mem "c2p_pp" pat
               then
                 let c2p_pivot_phrase_marks :=
                   view marks [size_at marks 0; 1; 1; size_at marks 1] in
                 do pp_key_layer <- read_local "pp_key_layer" pp_key_layer;
                 do c2p_att_pp <- matmul query_layer (transpose_last2 pp_key_layer);
                 let c2p_att_pp :=
                   gather_last c2p_att_pp
                     (c2p_dynamic_expand c2p_pos query_layer relative_pos) in
                 let c2p_att :=
                   where_ (eq_scalar c2p_pivot_phrase_marks 1) c2p_att_pp c2p_att in
                 run subscript c2p_pivot_phrase_marks [0; 0; 0];
                 run subscript c2p_att [0; 0];
                 run subscript c2p_att [0; 0];
                 run subscript c2p_pivot_phrase_marks [1; 0; 0];
                 run subscript c2p_att [1; 0];
                 run subscript c2p_att [1; 0];
                 ret (c2p_att, VT c2p_att_pp)
               else ret (c2p_att, VNone)
           | _, _ => ret (c2p_att, VNone)
           end;
        ret (iadd_score score c2p_att, Some (VT c2p_att_orig), Some c2p_att_pp)
      else ret (score, None, None));
  (* position->content *)
  let lengths_differ := negb (size_neg query_layer 2 =? size_neg key_layer 2) in
  do '(pos_query_layer, p2c_pos, pos_index) <-
     (if mem "p2c" pat || mem "p2p" pat
      then
        do pql <- read_local "pos_query_layer" pos_query_layer;
        let pql := tdiv_scalar pql (sqrt_scale pql scale_factor) in
        do r_pos <-
           (if lengths_differ
            then global_call "build_relative_position"
                   (ret (build_relative_position (size_neg key_layer 2) (size_neg key_layer 2)))
            else ret relative_pos);
        let p2c_pos := clamp (tmap (fun x => (- x + att_span)%Z) r_pos)
                             0 (att_span * 2 - 1) in
        ret (Some pql, Some p2c_pos,
             if lengths_differ then Some (first_key_column relative_pos) else None)
      else ret (pos_query_layer, None, None));
  do '(score, p2c_att_orig, p2c_att_pp) <-
     (if mem "p2c" pat
      then
        do pos_query_layer <- read_local "pos_query_layer" pos_query_layer;
        do p2c_pos <- read_local "p2c_pos" p2c_pos;
        do p2c_att <- matmul key_layer (transpose_last2 pos_query_layer);
        let p2c_att :=
          transpose_last2
            (gather_last p2c_att (p2c_dynamic_expand p2c_pos query_layer key_layer)) in
        do p2c_att <-
           (if lengths_differ
            then do pos_index <- read_local "pos_index" pos_index;
                 ret (gather_last2 p2c_att (pos_dynamic_expand pos_index p2c_att key_layer))
            else ret p2c_att);
        let p2c_att_orig := p2c_att in
        run subscript p2c_att [0; 0];
        run subscript p2c_att [0; 0];
        run subscript p2c_att [1; 0];
        run subscript p2c_att [1; 0];
        do '(p2c_att, p2c_att_pp) <-
           match mark_embeddings, marks with
           | Some _, Some marks =>
               if mem "p2c_pp" pat
               then
                 let p2c_pivot_phrase_marks :=
                   view marks [size_at marks 0; 1; size_at marks 1; 1] in
                 do pp_query_layer <- read_local "pp_query_layer" pp_query_layer;
                 do p2c_att_pp <- matmul key_layer (transpose_last2 pp_query_layer);
                 let p2c_att_pp :=
                   gather_last p2c_att_pp
                     (p2c_dynamic_expand p2c_pos query_layer key_layer) in
                 let p2c_att :=
                   where_ (eq_scalar p2c_pivot_phrase_marks 1) p2c_att_pp p2c_att in
                 run subscript p2c_pivot_phrase_marks [0; 0];
                 run subscript p2c_att [0; 0];
                 run subscript p2c_att [0; 0];
                 run subscript p2c_pivot_phrase_marks [1; 0];
                 run subscript p2c_att [1; 0];
                 run subscript p2c_att [1; 0];
                 ret (p2c_att, VT p2c_att_pp)
               else ret (p2c_att, VNone)
           | _, _ => ret (p2c_att, VNone)
           end;
        ret (iadd_score score p2c_att, Some (VT p2c_att_orig), Some p2c_att_pp)
      else ret (score, None, None));
  (* content->mark *)
  do '(score, c2m_att) <-
     (if mem "c2m" pat
      then
        do mark_key_layer <- read_local "mark_key_layer" mark_key_layer;
        do c2m_att <- matmul query_layer (transpose_last2 mark_key_layer);
        do c <- as_scalar (sa_c2m_scalar self);
        let c2m_att := tscale c2m_att c in
        ret (iadd_score score c2m_att, VT c2m_att)
      else ret (score, VNone));
  (* mark->content *)
  do '(score, m2c_att) <-
     (if mem "m2c" pat
      then
        do mark_query_layer <- read_local "mark_query_layer" mark_query_layer;
        do m2c_att <- matmul mark_query_layer (transpose_last2 key_layer);
        do c <- as_scalar (sa_m2c_scalar self);
        let m2c_att := tscale m2c_att c in
        ret (iadd_score score m2c_att, VT m2c_att)
      else ret (score, VNone));
  do c2p_att_orig <- read_local "c2p_att_orig" c2p_att_orig;
  do p2c_att_orig <- read_local "p2c_att_orig" p2c_att_orig;
  let output := [score_val score; c2p_att_orig; p2c_att_orig] in
  do output <-
     (if mem "c2p_pp" pat || mem "p2c_pp" pat
      then do a <- read_local "c2p_att_pp" c2p_att_pp;
           do b <- read_local "p2c_att_pp" p2c_att_pp;
           ret (output ++ [a; b])
      else ret output);
  do output <-
     (if mem "c2m" pat || mem "m2c" pat
      then ret (output ++ [c2m_att; m2c_att])
      else ret output);
  ret output.

End AttentionBias.

(** ** The terms of the bias as tensors

    The tensors that [disentangled_att_bias] and [forward] bind on their
    way, each written as the expression of its source lines, for a
    relative-position tensor of rank four and query and key layers of one
    length. The statements about the returned tuple name them. *)

Section BiasTerms.
Context {R : Type} `{Scalar R}.

(** Line 341: [att_span] *)
Definition att_span_value (query_layer key_layer : tensor R) (max_rel : Z) : Z :=
  Z.min (Z.max (Z.of_nat (size_neg query_layer 2)) (Z.of_nat (size_neg key_layer 2)))
        max_rel.

(** Lines 343-349: [table[max_rel - att_span : max_rel + att_span, :].unsqueeze(0)] *)
Definition span_rows (table : tensor R) (max_rel att_span : Z) : tensor R :=
  unsqueeze 0 (slice_rows table (Z.to_nat (max_rel - att_span))
                          (Z.to_nat (max_rel + att_span))).

(** Lines 352-353, 356-357, 361-362 and 364-365: the rows of a table in
    reach, through a projection, split into heads. *)
Definition pos_layer (self : SelfAttention R) (proj : Linear R) (table : tensor R)
    (query_layer key_layer : tensor R) (max_rel : Z) : tensor R :=
  transpose_for_scores self
    (linear_value proj
       (span_rows table max_rel (att_span_value query_layer key_layer max_rel))).

(** Lines 378-380, [c2p_att]: the query against the projected table, gathered
    at the clamped relative position of each (query, key) pair. With the
    pivot-phrase table for [table] these are lines 387-388, [c2p_att_pp]. *)
Definition c2p_att_value (self : SelfAttention R) (proj : Linear R) (table : tensor R)
    (query_layer key_layer : tensor R) (relative_pos : tensor Z) (max_rel : Z)
    : tensor R :=
  let att_span := att_span_value query_layer key_layer max_rel in
  let c2p_pos := clamp (tmap (fun x => (x + att_span)%Z) relative_pos)
                       0 (att_span * 2 - 1) in
  gather_last
    (matmul_value query_layer
       (transpose_last2 (pos_layer self proj table query_layer key_layer max_rel)))
    (c2p_dynamic_expand c2p_pos query_layer relative_pos).

(** Lines 403-416, [p2c_att]: the key against the projected table divided by
    [sqrt(size * scale_factor)], gathered at the clamped opposite position,
    then transposed. *)
Definition p2c_att_value (self : SelfAttention R) (proj : Linear R) (table : tensor R)
    (query_layer key_layer : tensor R) (relative_pos : tensor Z) (max_rel : Z)
    (scale_factor : nat) : tensor R :=
  let att_span := att_span_value query_layer key_layer max_rel in
  let pos_query_layer := pos_layer self proj table query_layer key_layer max_rel in
  let pos_query_layer :=
    tdiv_scalar pos_query_layer (sqrt_scale pos_query_layer scale_factor) in
  let p2c_pos := clamp (tmap (fun x => (- x + att_span)%Z) relative_pos)
                       0 (att_span * 2 - 1) in
  transpose_last2
    (gather_last (matmul_value key_layer (transpose_last2 pos_query_layer))
                 (p2c_dynamic_expand p2c_pos query_layer key_layer)).

(** Lines 429-430, [p2c_att_pp]: the key against the projected pivot-phrase
    table, gathered like [p2c_att]; the source neither divides this
    projection nor transposes the result. *)
Definition p2c_att_pp_value (self : SelfAttention R) (proj : Linear R) (table : tensor R)
    (query_layer key_layer : tensor R) (relative_pos : tensor Z) (max_rel : Z)
    : tensor R :=
  let att_span := att_span_value query_layer key_layer max_rel in
  let p2c_pos := clamp (tmap (fun x => (- x + att_span)%Z) relative_pos)
                       0 (att_span * 2 - 1) in
  gather_last
    (matmul_value key_layer
       (transpose_last2 (pos_layer self proj table query_layer key_layer max_rel)))
    (p2c_dynamic_expand p2c_pos query_layer key_layer).






End BiasTerms.

Fixpoint index_of (k : nat) (p : list nat) : nat :=
  match p with
  | [] => 0
  | x :: r => if x =? k then 0 else S (index_of k r)
  end.

(** [Tensor.permute] with the axis order [p] *)
Definition permute {A} (p : list nat) (t : tensor A) : tensor A :=
  Tensor (map (fun k => nth k (shape t) 0) p)
         (fun idx => get t (map (fun k => nth (index_of k p) idx 0) (seq 0 (length p)))).

Section AttentionForward.
Context {R : Type} `{Scalar R}.

(** [XSoftmax.apply(scores, mask, -1)], supplied by the transformers library. *)
Variable xsoftmax : tensor R -> tensor Z -> tensor R.

(** The local state of [forward] once the raw scores are complete (line 302). *)
Record ScoreState : Type := {
  st_attention_scores : tensor R;
  st_value_layer : tensor R;
  st_c2c_att : tensor R;
  st_attns : option (list (tval R));
}.

(** [torch.cat([ws[i * 3 + k] for i in range(heads)], dim=0)] over the
    [heads * 3] row chunks [ws] of the input projection. *)
Definition qkv_weight (self : SelfAttention R) (k : nat) : tensor R :=
  let w := weight (sa_in_proj self) in
  let h := sa_num_attention_heads self in
  let cs := size_at w 0 / (h * 3) in
  Tensor [h * cs; size_at w 1]
         (fun idx => get w [((nth 0 idx 0 / cs) * 3 + k) * cs + nth 0 idx 0 mod cs;
                            nth 1 idx 0]).

(** [attns[-2:]] *)
Definition last_two (l : list (tval R)) : list (tval R) := drop (length l - 2) l.

(** Lines 261-281 of [forward]: the query, key and value layers. *)
Definition qkv_projection (self : SelfAttention R) (hidden_states : tensor R)
    (query_states : option (tensor R)) : M (tensor R * tensor R * tensor R) :=
  do '(query_layer, key_layer, value_layer) <-
     match query_states with
     | None =>
         do qp <- apply_linear (sa_in_proj self) hidden_states;
         let qp := transpose_for_scores self qp in
         ret (chunk_last qp 3 0, chunk_last qp 3 1, chunk_last qp 3 2)
     | Some query_states =>
         do q <- matmul query_states (transpose_last2 (qkv_weight self 0));
         do k <- matmul hidden_states (transpose_last2 (qkv_weight self 1));
         do v <- matmul hidden_states (transpose_last2 (qkv_weight self 2));
         ret (transpose_for_scores self q, transpose_for_scores self k,
              transpose_for_scores self v)
     end;
  let query_layer :=
    tadd query_layer (transpose_for_scores self (unsqueeze 0 (unsqueeze 0 (sa_q_bias self)))) in
  let value_layer :=
    tadd value_layer (transpose_for_scores self (unsqueeze 0 (unsqueeze 0 (sa_v_bias self)))) in
  ret (query_layer, key_layer, value_layer).

(** [attention_scores = attention_scores + rel_att], for the first entry
    [rel_att] of the tuple that [disentangled_att_bias] returned. *)
Definition add_rel_att (attention_scores : tensor R) (attns : option (list (tval R)))
    : M (tensor R) :=
  match attns with
  | Some (VT rel_att :: _) => ret (tadd attention_scores rel_att)
  | Some (VInt z :: _) => ret (tmap (fun x => fadd x (of_Z z)) attention_scores)
  | Some (VNone :: _) => ret attention_scores
  | Some [] => raise (ValueError "not enough values to unpack")
  | None => ret attention_scores
  end.

(** Lines 283-302 of [forward]: the content-to-content product and the
    accumulation of the relative bias into the raw scores. *)
Definition raw_attention_scores (self : SelfAttention R)
    (query_layer key_layer value_layer : tensor R) (relative_pos : option (tensor Z))
    (rel_embeddings mark_embeddings : option (tensor R)) (marks : option (tensor Z))
    : M ScoreState :=
  let scale_factor := 1 + length (sa_pos_att_type self) in
  let scale := sqrt_scale query_layer scale_factor in
  let query_layer := tdiv_scalar query_layer scale in
  do attention_scores <- matmul query_layer (transpose_last2 key_layer);
  let c2c_att := attention_scores in
  do attns <-
     (if sa_relative_attention self
      then
        do pos_dropout <- self_attr "pos_dropout" (sa_pos_dropout self);
        do rel_embeddings <- apply_dropout pos_dropout rel_embeddings;
        do mark_embeddings <- apply_dropout pos_dropout mark_embeddings;
        do attns <- disentangled_att_bias self query_layer key_layer relative_pos
                      rel_embeddings scale_factor mark_embeddings marks;
        ret (Some attns)
      else ret None);
  do attention_scores <- add_rel_att attention_scores attns;
  ret {| st_attention_scores := attention_scores;
         st_value_layer := value_layer;
         st_c2c_att := c2c_att;
         st_attns := attns |}.

(** Lines 261-302 of [forward]. *)
Definition attention_scores (self : SelfAttention R) (hidden_states : tensor R)
    (query_states : option (tensor R)) (relative_pos : option (tensor Z))
    (rel_embeddings mark_embeddings : option (tensor R)) (marks : option (tensor Z))
    : M ScoreState :=
  do '(query_layer, key_layer, value_layer) <-
     qkv_projection self hidden_states query_states;
  raw_attention_scores self query_layer key_layer value_layer relative_pos
    rel_embeddings mark_embeddings marks.

(** [CustomDisentangledSelfAttention.forward]: the context layer, and with
    [return_att] the dictionary of score components. *)
Definition attention_forward (self : SelfAttention R) (hidden_states : tensor R)
    (attention_mask : tensor Z) (return_att : bool)
    (query_states : option (tensor R)) (relative_pos : option (tensor Z))
    (rel_embeddings mark_embeddings : option (tensor R)) (marks : option (tensor Z))
    : M (tensor R * option (gmap string (tval R))) :=
  let pat := sa_pos_att_type self in
  do st <- attention_scores self hidden_states query_states relative_pos
             rel_embeddings mark_embeddings marks;
  let attention_scores := st_attention_scores st in
  do attention_scores <-
     (if sa_talking_head self
      then do proj <- self_attr "head_logits_proj" (sa_head_logits_proj self);
           do x <- apply_linear proj (permute [0; 2; 3; 1] attention_scores);
           ret (permute [0; 3; 1; 2] x)
      else ret attention_scores);
  let attention_probs := xsoftmax attention_scores attention_mask in
  do attention_probs <- apply_dropout (sa_dropout self) (Some attention_probs);
  do attention_probs <- not_none "attention_probs" attention_probs;
  do attention_probs <-
     (if sa_talking_head self
      then do proj <- self_attr "head_weights_proj" (sa_head_weights_proj self);
           do x <- apply_linear proj (permute [0; 2; 3; 1] attention_probs);
           ret (permute [0; 3; 1; 2] x)
      else ret attention_probs);
  do context_layer <- matmul attention_probs (st_value_layer st);
  let context_layer := permute_0213 context_layer in
  let context_layer :=
    view context_layer (take (dim context_layer - 2) (shape context_layer)
                        ++ [size_neg context_layer 2 * size_neg context_layer 1]) in
  if return_att
  then
    do attns <- read_local "p2c_att" (st_attns st);
    let d : gmap string (tval R) :=
      {[ "attention_probs" := VT attention_probs;
         "c2c" := VT (st_c2c_att st);
         "p2c" := nth 2 attns VNone;
         "c2p" := nth 1 attns VNone ]} in
    let d :=
      if mem "c2p_pp" pat || mem "p2c_pp" pat
      then <["c2p_pp" := nth 0 (last_two attns) VNone]>
             (<["p2c_pp" := nth 1 (last_two attns) VNone]> d)
      else if mem "c2m" pat || mem "m2c" pat
      then <["c2m" := nth 0 (last_two attns) VNone]>
             (<["m2c" := nth 1 (last_two attns) VNone]> d)
      else d in
    ret (context_layer, Some d)
  else ret (context_layer, None).

End AttentionForward.

(** ** The standard two-term score, for comparison

    The reference for the refinement statement: the disentangled attention
    score as the specification describes it for the two standard terms.
    Each term projects the relative embedding table through its own linear
    map, takes dot products against the query (c2p) or the key (p2c),
    gathers along the clamped relative-position index, and is accumulated
    into the running score; when query and key lengths differ, p2c builds
    its own relative positions over the key length and gathers again along
    the first key column. *)

Section Standard.
Context {R : Type} `{Scalar R}.

Definition standard_att_bias (self : SelfAttention R)
    (query_layer key_layer : tensor R) (relative_pos : option (tensor Z))
    (rel_embeddings : option (tensor R)) (scale_factor : nat) : M (score_t R) :=
  let pat := sa_pos_att_type self in
  let relative_pos :=
    match relative_pos with
    | None => build_relative_position (size_neg query_layer 2) (size_neg key_layer 2)
    | Some r => r
    end in
  do relative_pos <- normalize_relative_pos relative_pos;
  do max_rel <- self_attr "max_relative_positions" (sa_max_relative_positions self);
  let att_span :=
    Z.min (Z.max (Z.of_nat (size_neg query_layer 2)) (Z.of_nat (size_neg key_layer 2)))
          max_rel in
  do rel_embeddings <- not_none "'NoneType' object is not subscriptable" rel_embeddings;
  let rel_embeddings :=
    unsqueeze 0 (slice_rows rel_embeddings (Z.to_nat (max_rel - att_span))
                            (Z.to_nat (max_rel + att_span))) in
  let score := SInt 0 in
  (* content->position *)
  do score <-
     (if mem "c2p" pat
      then
        do proj <- self_attr "pos_proj" (sa_pos_proj self);
        do x <- apply_linear proj rel_embeddings;
        let pos_key_layer := transpose_for_scores self x in
        do c2p_att <- matmul query_layer (transpose_last2 pos_key_layer);
        let c2p_pos := clamp (tmap (fun x => (x + att_span)%Z) relative_pos)
                             0 (att_span * 2 - 1) in
        ret (iadd_score score
               (gather_last c2p_att (c2p_dynamic_expand c2p_pos query_layer relative_pos)))
      else ret score);
  (* position->content *)
  do score <-
     (if mem "p2c" pat
      then
        do proj <- self_attr "pos_q_proj" (sa_pos_q_proj self);
        do x <- apply_linear proj rel_embeddings;
        let pos_query_layer := transpose_for_scores self x in
        let pos_query_layer :=
          tdiv_scalar pos_query_layer (sqrt_scale pos_query_layer scale_factor) in
        let lengths_differ := negb (size_neg query_layer 2 =? size_neg key_layer 2) in
        let r_pos :=
          if lengths_differ
          then build_relative_position (size_neg key_layer 2) (size_neg key_layer 2)
          else relative_pos in
        let p2c_pos := clamp (tmap (fun x => (- x + att_span)%Z) r_pos)
                             0 (att_span * 2 - 1) in
        do p2c_att <- matmul key_layer (transpose_last2 pos_query_layer);
        let p2c_att :=
          transpose_last2
            (gather_last p2c_att (p2c_dynamic_expand p2c_pos query_layer key_layer)) in
        let p2c_att :=
          if lengths_differ
          then gather_last2 p2c_att
                 (pos_dynamic_expand (first_key_column relative_pos) p2c_att key_layer)
          else p2c_att in
        ret (iadd_score score p2c_att)
      else ret score);
  ret score.

End Standard.

(** ** [CustomDebertaAttention] and [CustomDebertaLayer] *)

Section Layers.
Context {R : Type} `{Scalar R}.
Variable xsoftmax : tensor R -> tensor Z -> tensor R.

(** [DebertaSelfOutput], [DebertaIntermediate] and [DebertaOutput] come from
    the transformers library; a layer holds them as functions. *)
Record Attention : Type := {
  att_self : SelfAttention R;
  att_output : tensor R -> tensor R -> tensor R;
}.

Record Layer : Type := {
  layer_attention : Attention;
  layer_intermediate : tensor R -> tensor R;
  layer_output : tensor R -> tensor R -> tensor R;
}.

(** What the library hands to the constructors of one layer. *)
Record LayerParts : Type := {
  lp_attention : AttentionParts R;
  lp_self_output : tensor R -> tensor R -> tensor R;
  lp_intermediate : tensor R -> tensor R;
  lp_output : tensor R -> tensor R -> tensor R;
}.

(** [CustomDebertaLayer.__init__], through [CustomDebertaAttention.__init__] *)
Definition layer_init (cfg : config R) (parts : LayerParts) : M (Layer * config R) :=
  do '(sa, cfg) <- attention_init cfg (lp_attention parts);
  ret ({| layer_attention := {| att_self := sa; att_output := lp_self_output parts |};
          layer_intermediate := lp_intermediate parts;
          layer_output := lp_output parts |}, cfg).

(** [[CustomDebertaLayer(config) for _ in range(config.num_hidden_layers)]] *)
Fixpoint layers_init (cfg : config R) (parts : list LayerParts) : M (list Layer * config R) :=
  match parts with
  | [] => ret ([], cfg)
  | p :: rest =>
      do '(l, cfg) <- layer_init cfg p;
      do '(ls, cfg) <- layers_init cfg rest;
      ret (l :: ls, cfg)
  end.

(** [CustomDebertaAttention.forward] *)
Definition custom_attention_forward (self : Attention) (hidden_states : tensor R)
    (attention_mask : tensor Z) (return_att : bool)
    (query_states : option (tensor R)) (relative_pos : option (tensor Z))
    (rel_embeddings mark_embeddings : option (tensor R)) (marks : option (tensor Z))
    : M (tensor R * option (gmap string (tval R))) :=
  do '(self_output, att_matrix) <-
     attention_forward xsoftmax (att_self self) hidden_states attention_mask return_att
       query_states relative_pos rel_embeddings mark_embeddings marks;
  let query_states := default hidden_states query_states in
  let attention_output := att_output self self_output query_states in
  ret (attention_output, att_matrix).

(** [CustomDebertaLayer.forward] *)
Definition layer_forward (self : Layer) (hidden_states : tensor R)
    (attention_mask : tensor Z) (return_att : bool)
    (query_states : option (tensor R)) (relative_pos : option (tensor Z))
    (rel_embeddings mark_embeddings : option (tensor R)) (marks : option (tensor Z))
    : M (tensor R * option (gmap string (tval R))) :=
  do '(attention_output, att_matrix) <-
     custom_attention_forward (layer_attention self) hidden_states attention_mask
       return_att query_states relative_pos rel_embeddings mark_embeddings marks;
  let intermediate_output := layer_intermediate self attention_output in
  let layer_output := layer_output self intermediate_output attention_output in
  ret (layer_output, att_matrix).

End Layers.
Arguments Attention R : clear implicits.
Arguments Layer R : clear implicits.
Arguments LayerParts R : clear implicits.

(** ** [CustomDebertaEmbeddings] *)

(** [table(ids)] for an [nn.Embedding]: one row per index, for indices
    within the table; the library's [IndexError] on an index outside it is
    not modelled. *)
Definition embedding_lookup {A} (table : tensor A) (ids : tensor Z) : tensor A :=
  Tensor (shape ids ++ [size_at table 1])
         (fun idx => get table [Z.to_nat (get ids (take (length idx - 1) idx));
                                List.last idx 0]).

Section Embeddings.
Context {R : Type} `{Scalar R}.

Record Embeddings : Type := {
  emb_embedding_size : Z;
  emb_word_embeddings : tensor R;
  emb_position_biased_input : bool;
  emb_position_embeddings : option (tensor R);
  emb_token_type_embeddings : option (tensor R);
  emb_embed_proj : option (Linear R);
  emb_LayerNorm : tensor R -> tensor R;
  emb_dropout : StableDropout R;
  emb_type_vocab_size : Z;
  emb_hidden_size : Z;
  emb_position_ids : tensor Z;
}.

(** [CustomDebertaEmbeddings.forward]. [embeddings += ...] works in place on
    [inputs_embeds] when the caller supplied it, so the caller's tensor
    comes back as the second component. *)
Definition embeddings_forward (self : Embeddings)
    (input_ids token_type_ids position_ids : option (tensor Z))
    (mask : option (tensor Z)) (inputs_embeds : option (tensor R))
    : M (tensor R * option (tensor R)) :=
  do input_shape <-
     match input_ids, inputs_embeds with
     | Some ids, _ => ret (shape ids)
     | None, Some e => ret (take (dim e - 1) (shape e))
     | None, None => raise (AttributeError "'NoneType' object has no attribute 'size'")
     end;
  do seq_length <-
     match input_shape !! 1 with
     | Some n => ret n
     | None => raise (IndexError "tuple index out of range")
     end;
  let position_ids :=
    default (Tensor [1; seq_length] (fun idx => get (emb_position_ids self) idx))
            position_ids in
  let token_type_ids := default (Tensor input_shape (fun _ => 0%Z)) token_type_ids in
  let fresh := match inputs_embeds with None => true | Some _ => false end in
  do inputs_embeds <-
     match inputs_embeds, input_ids with
     | Some e, _ => ret e
     | None, Some ids => ret (embedding_lookup (emb_word_embeddings self) ids)
     | None, None => raise (TypeError "embedding(): argument 'indices' must be Tensor")
     end;
  let position_embeddings :=
    match emb_position_embeddings self with
    | Some table => embedding_lookup table position_ids
    | None => Tensor (shape inputs_embeds) (fun _ => f0)
    end in
  let embeddings := inputs_embeds in
  let embeddings :=
    if emb_position_biased_input self then tadd embeddings position_embeddings
    else embeddings in
  do embeddings <-
     (if (0 <? emb_type_vocab_size self)%Z
      then do table <- self_attr "token_type_embeddings" (emb_token_type_embeddings self);
           ret (tadd embeddings (embedding_lookup table token_type_ids))
      else ret embeddings);
  let caller_embeds := if fresh then None else Some embeddings in
  do embeddings <-
     (if negb (emb_embedding_size self =? emb_hidden_size self)%Z
      then do proj <- self_attr "embed_proj" (emb_embed_proj self);
           apply_linear proj embeddings
      else ret embeddings);
  let embeddings := emb_LayerNorm self embeddings in
  let embeddings :=
    match mask with
    | Some mask =>
        let mask :=
          if negb (dim mask =? dim embeddings)
          then unsqueeze 2 (if dim mask =? 4 then squeeze 1 (squeeze 1 mask) else mask)
          else mask in
        tmul embeddings (tmap of_Z mask)
    | None => embeddings
    end in
  do embeddings <- apply_dropout (emb_dropout self) (Some embeddings);
  do embeddings <- not_none "embeddings" embeddings;
  ret (embeddings, caller_embeds).

End Embeddings.
Arguments Embeddings R : clear implicits.

(** ** [CustomDebertaEncoder] *)

Section Encoder.
Context {R : Type} `{Scalar R}.
Variable xsoftmax : tensor R -> tensor Z -> tensor R.

(** [get_attention_mask] and [get_rel_pos] are inherited from the
    transformers [DebertaEncoder]; the encoder holds them as functions. *)
Record Encoder : Type := {
  enc_layer : list (Layer R);
  enc_relative_attention : bool;
  enc_max_relative_positions : option Z;
  enc_rel_embeddings : option (tensor R);
  enc_pivot_phrase_embeddings : option (tensor R);
  enc_mark_embeddings : option (tensor R);
  enc_get_attention_mask : tensor Z -> tensor Z;
  enc_get_rel_pos : tensor R -> option (tensor R) -> option (tensor Z) -> option (tensor Z);
}.

Record EncoderParts : Type := {
  ep_layers : list (LayerParts R);
  ep_rel_embeddings : tensor R;
  ep_pivot_phrase_embeddings : tensor R;
  ep_mark_embeddings : tensor R;
  ep_get_attention_mask : tensor Z -> tensor Z;
  ep_get_rel_pos : tensor R -> option (tensor R) -> option (tensor Z) -> option (tensor Z);
}.

(** [CustomDebertaEncoder.__init__] *)
Definition encoder_init (cfg : config R) (parts : EncoderParts) : M (Encoder * config R) :=
  do '(layers, cfg) <- layers_init cfg (take (num_hidden_layers cfg) (ep_layers parts));
  let relative := truthy (getattr (extra cfg) "relative_attention" (PBool false)) in
  do max_rel <-
     (if relative then
        do m <- as_int (getattr (extra cfg) "max_relative_positions" (PInt (-1)));
        ret (Some (if (m <? 1)%Z then max_position_embeddings cfg else m))
      else ret None);
  ret ({| enc_layer := layers;
          enc_relative_attention := relative;
          enc_max_relative_positions := max_rel;
          enc_rel_embeddings := if relative then Some (ep_rel_embeddings parts) else None;
          enc_pivot_phrase_embeddings :=
            if relative && truthy (getattr (extra cfg) "pivot_phrase_embeddings" (PBool false))
            then Some (ep_pivot_phrase_embeddings parts) else None;
          enc_mark_embeddings :=
            if relative && hasattr (extra cfg) "mark_embeddings"
            then Some (ep_mark_embeddings parts) else None;
          enc_get_attention_mask := ep_get_attention_mask parts;
          enc_get_rel_pos := ep_get_rel_pos parts |}, cfg).

(** [get_rel_embedding], [get_pivot_phrase_embedding], [get_mark_embedding] *)
Definition get_rel_embedding (self : Encoder) : option (tensor R) :=
  if enc_relative_attention self then enc_rel_embeddings self else None.

(** Row [i] of a matrix, as [a, b = weight] unpacks it. *)
Definition row {A} (t : tensor A) (i : nat) : tensor A :=
  Tensor (drop 1 (shape t)) (fun idx => get t (i :: idx)).

(** The output of the encoder, before it is packed as a tuple or as a
    [BaseModelOutput]. *)
Record EncoderOutput : Type := {
  eo_hidden_states : tensor R;
  eo_all_hidden_states : option (list (tensor R));
  eo_all_attentions : option (list (gmap string (tval R)));
}.

(** The loop over [self.layer], from the state before a layer to the state
    after the last one. *)
Fixpoint encoder_loop (layers : list (Layer R)) (attention_mask : tensor Z)
    (output_hidden_states output_attentions : bool)
    (relative_pos : option (tensor Z)) (rel_embeddings : option (tensor R))
    (mark_embeddings : option (option (tensor R))) (marks : option (tensor Z))
    (hidden_states next_kv : tensor R) (query_states : option (tensor R))
    (all_hidden_states : list (tensor R))
    (all_attentions : list (gmap string (tval R)))
    : M (tensor R * list (tensor R) * list (gmap string (tval R))) :=
  match layers with
  | [] => ret (hidden_states, all_hidden_states, all_attentions)
  | layer_module :: rest =>
      let all_hidden_states :=
        if output_hidden_states then all_hidden_states ++ [hidden_states]
        else all_hidden_states in
      do mark_embeddings' <- read_local "mark_embeddings" mark_embeddings;
      do '(hidden_states, att_m) <-
         layer_forward xsoftmax layer_module next_kv attention_mask output_attentions
           query_states relative_pos rel_embeddings mark_embeddings' marks;
      let query_states' :=
        match query_states with
        | Some _ => Some hidden_states
        | None => None
        end in
      let next_kv :=
        match query_states with
        | Some _ => next_kv
        | None => hidden_states
        end in
      do all_attentions <-
         (if output_attentions
          then do a <- read_local "att_m" att_m; ret (all_attentions ++ [a])
          else ret all_attentions);
      encoder_loop rest attention_mask output_hidden_states output_attentions
        relative_pos rel_embeddings mark_embeddings marks
        hidden_states next_kv query_states' all_hidden_states all_attentions
  end.

(** [CustomDebertaEncoder.forward] on a tensor of hidden states. *)
Definition encoder_forward (self : Encoder) (hidden_states : tensor R)
    (attention_mask : tensor Z) (output_hidden_states output_attentions : bool)
    (query_states : option (tensor R)) (relative_pos : option (tensor Z))
    (marks : option (tensor Z)) : M EncoderOutput :=
  let attention_mask := enc_get_attention_mask self attention_mask in
  let relative_pos := enc_get_rel_pos self hidden_states query_states relative_pos in
  let next_kv := hidden_states in
  let rel_embeddings := get_rel_embedding self in
  let mark_embeddings : option (option (tensor R)) :=
    match enc_pivot_phrase_embeddings self with
    | Some w => Some (if enc_relative_attention self then Some w else None)
    | None => None
    end in
  do mark_embeddings <-
     match enc_mark_embeddings self with
     | Some w =>
         do w <- (if enc_relative_attention self then ret w
                  else raise (TypeError "cannot unpack non-iterable NoneType object"));
         let mark_embedding_zero := view (row w 0) [1; 1; size_at w 1] in
         let mark_embedding_one := view (row w 1) [1; 1; size_at w 1] in
         do marks <- not_none "unsqueeze(): argument 'input' must be Tensor" marks;
         ret (Some (Some (where_ (eq_scalar (unsqueeze (dim marks) marks) 0)
                                 mark_embedding_zero mark_embedding_one)))
     | None => ret mark_embeddings
     end;
  do '(hidden_states, all_hidden_states, all_attentions) <-
     encoder_loop (enc_layer self) attention_mask output_hidden_states output_attentions
       relative_pos rel_embeddings mark_embeddings marks
       hidden_states next_kv query_states [] [];
  let all_hidden_states :=
    if output_hidden_states then Some (all_hidden_states ++ [hidden_states]) else None in
  ret {| eo_hidden_states := hidden_states;
         eo_all_hidden_states := all_hidden_states;
         eo_all_attentions := if output_attentions then Some all_attentions else None |}.

End Encoder.
Arguments Encoder R : clear implicits.
Arguments EncoderParts R : clear implicits.
Arguments EncoderOutput R : clear implicits.

(** ** [CustomDebertaModel] *)

Section Model.
Context {R : Type} `{Scalar R}.
Variable xsoftmax : tensor R -> tensor Z -> tensor R.

(** An entry of an output tuple. *)
Inductive item : Type :=
| ILoss (loss : R)
| ITensor (t : tensor R)
| IHidden (l : list (tensor R))
| IAttentions (l : list (gmap string (tval R))).

Record Model : Type := {
  m_embeddings : Embeddings R;
  m_encoder : Encoder R;
  m_z_steps : Z;
  m_config : config R;
}.

Record ModelParts : Type := {
  mp_super_init : M unit;
  mp_embeddings : Embeddings R;
  mp_encoder : EncoderParts R;
}.

(** [CustomDebertaModel.__init__]; [mp_embeddings] is the embedding module
    as [self.init_weights()] leaves it. *)
Definition model_init (cfg : config R) (parts : ModelParts) : M Model :=
  run mp_super_init parts;
  let embeddings := mp_embeddings parts in
  do '(encoder, cfg) <- encoder_init cfg (mp_encoder parts);
  ret {| m_embeddings := embeddings;
         m_encoder := encoder;
         m_z_steps := 0;
         m_config := cfg |}.

(** [t[-k]] on a tuple *)
Definition from_end {A} (k : nat) (l : list A) : M A :=
  match (if k <=? length l then l !! (length l - k) else None) with
  | Some a => ret a
  | None => raise (IndexError "tuple index out of range")
  end.

(** [embedding_output += gamma * perturbation] *)
Definition add_perturbation (gamma : R) (perturbation : tval R)
    (embedding_output : tensor R) : M (tensor R) :=
  match perturbation with
  | VT p => ret (tadd embedding_output (tmap (fun x => fmul gamma x) p))
  | VInt z => ret (tmap (fun x => fadd x (fmul gamma (of_Z z))) embedding_output)
  | VNone => raise (TypeError "unsupported operand type(s) for *: 'float' and 'NoneType'")
  end.

(** [CustomDebertaModel.forward]. The result lists the entries of the output
    (a tuple, or a [BaseModelOutput] read through its tuple view), then the
    caller's [inputs_embeds] as the embedding layer left it. *)
Definition model_forward (self : Model)
    (input_ids attention_mask token_type_ids position_ids : option (tensor Z))
    (inputs_embeds : option (tensor R))
    (output_attentions output_hidden_states return_dict : option bool)
    (VAT : bool) (perturbation : tval R) (mode : option string)
    (marks : option (tensor Z)) : M (list item * option (tensor R)) :=
  let output_attentions := default (cfg_output_attentions (m_config self)) output_attentions in
  let output_hidden_states :=
    default (cfg_output_hidden_states (m_config self)) output_hidden_states in
  let return_dict := default (use_return_dict (m_config self)) return_dict in
  do input_shape <-
     match input_ids, inputs_embeds with
     | Some _, Some _ =>
         raise (ValueError "You cannot specify both input_ids and inputs_embeds at the same time")
     | Some ids, None => ret (shape ids)
     | None, Some e => ret (take (dim e - 1) (shape e))
     | None, None => raise (ValueError "You have to specify either input_ids or inputs_embeds")
     end;
  let attention_mask := default (Tensor input_shape (fun _ => 1%Z)) attention_mask in
  let token_type_ids := default (Tensor input_shape (fun _ => 0%Z)) token_type_ids in
  do '(embedding_output, inputs_embeds) <-
     embeddings_forward (m_embeddings self) input_ids (Some token_type_ids) position_ids
       (Some attention_mask) inputs_embeds;
  (* VAT *)
  do embedding_output <-
     (if VAT && bool_decide (mode = Some "train")
      then do g <- attr (extra (m_config self)) "gamma";
           do g <- as_scalar g;
           add_perturbation g perturbation embedding_output
      else ret embedding_output);
  do encoder_outputs <-
     encoder_forward xsoftmax (m_encoder self) embedding_output attention_mask
       true output_attentions None None marks;
  do encoded_layers <- read_local "hidden_states" (eo_all_hidden_states encoder_outputs);
  run (if (1 <? m_z_steps self)%Z
       then
         do hidden_states <- from_end 2 encoded_layers;
         do layer <- from_end 1 (enc_layer (m_encoder self));
         do query_states <- from_end 1 encoded_layers;
         let rel_embeddings := get_rel_embedding (m_encoder self) in
         let attention_mask := enc_get_attention_mask (m_encoder self) attention_mask in
         let rel_pos := enc_get_rel_pos (m_encoder self) embedding_output None None in
         (* the first turn of [for layer in layers[1:]] *)
         run tick_refinement;
         run layer_forward xsoftmax layer hidden_states attention_mask false
               (Some query_states) rel_pos rel_embeddings None None;
         raise (AttributeError "'tuple' object has no attribute 'append'")
       else ret tt);
  do sequence_output <- from_end 1 encoded_layers;
  ret ([ITensor sequence_output]
         ++ (if output_hidden_states then [IHidden encoded_layers] else [])
         ++ match eo_all_attentions encoder_outputs with
            | Some a => [IAttentions a]
            | None => []
            end,
       inputs_embeds).

End Model.
Arguments item R : clear implicits.
Arguments Model R : clear implicits.
Arguments ModelParts R : clear implicits.

(** [Tensor.repeat] with one repetition count per axis *)
Definition trepeat {A} (reps : list nat) (t : tensor A) : tensor A :=
  Tensor (zip_with Nat.mul (shape t) reps)
         (fun idx => get t (zip_with (fun i d => i mod d) idx (shape t))).

(** ** The token-classification head *)

Section Head.
Context {R : Type} `{Scalar R}.
Variable xsoftmax : tensor R -> tensor Z -> tensor R.

(** [-log_softmax(row)[target]], the loss of one position. *)
Variable nll : list R -> Z -> R.

(** Reverse-mode differentiation as the numerical library performs it:
    [autograd f x] is the gradient at [x] of the scalar that [f] computes. *)
Variable autograd : (tensor R -> option R) -> tensor R -> tensor R.

(** [CrossEntropyLoss().ignore_index] *)
Definition ignore_index : Z := (-100)%Z.

Definition row_values (logits : tensor R) (p : nat) : list R :=
  map (fun c => get logits [p; c]) (seq 0 (size_at logits 1)).

Definition target_ok (classes : nat) (t : Z) : bool :=
  (t =? ignore_index)%Z || ((0 <=? t)%Z && (t <? Z.of_nat classes)%Z).

(** [CrossEntropyLoss()(logits, target)] on [P x C] logits and [P] targets:
    the mean, over the targets that are not [ignore_index], of the loss of
    each position. *)
Definition cross_entropy (logits : tensor R) (target : tensor Z) : M R :=
  let positions := seq 0 (size_at logits 0) in
  if forallb (fun p => target_ok (size_at logits 1) (get target [p])) positions
  then
    let kept := filter (fun p => get target [p] ≠ ignore_index) positions in
    ret (fdiv (foldl (fun acc p => fadd acc (nll (row_values logits p) (get target [p])))
                     f0 kept)
              (of_Z (Z.of_nat (length kept))))
  else raise (IndexError "Target out of bounds").

(** The block "Only keep active parts of the loss". *)
Definition classification_loss (num_labels : nat) (logits : tensor R)
    (labels : tensor Z) (attention_mask : option (tensor Z)) : M R :=
  let active_logits := view logits [prod_list (shape logits) / num_labels; num_labels] in
  match attention_mask with
  | Some attention_mask =>
      let active_loss := eq_scalar (flatten attention_mask) 1 in
      let active_labels :=
        where_ active_loss (flatten labels) (Tensor [] (fun _ => ignore_index)) in
      cross_entropy active_logits active_labels
  | None => cross_entropy active_logits (flatten labels)
  end.

Record Head : Type := {
  h_num_labels : nat;
  h_deberta : Model R;
  h_classifier : Linear R;
  h_dropout : StableDropout R;
  h_mark_enhanced_classifier : option (Linear R);
  h_config : config R;
}.

(** [torch.cat((sequence_output, marks.unsqueeze(-1)), dim=-1)] *)
Definition cat_marks (sequence_output : tensor R) (marks : tensor Z) : tensor R :=
  let w := size_neg sequence_output 1 in
  Tensor (take (dim sequence_output - 1) (shape sequence_output) ++ [w + 1])
         (fun idx => if List.last idx 0 <? w then get sequence_output idx
                     else of_Z (get marks (take (length idx - 1) idx))).

(** The aspect mask of the VAT branch: ones where the label is B-ASP or
    I-ASP, repeated along the hidden axis. *)
Definition aspect_mask (hidden : nat) (labels : tensor Z) : tensor R :=
  let B_ASP_LABEL := 1%Z in
  let I_ASP_LABEL := 2%Z in
  let aspect_idx_mask :=
    tadd (tmap of_bool (eq_scalar labels B_ASP_LABEL))
         (tmap of_bool (eq_scalar labels I_ASP_LABEL)) in
  let aspect_idx_mask := unsqueeze 2 aspect_idx_mask in
  trepeat [1; 1; hidden] aspect_idx_mask.

(** The pass [f] run on [x], then [loss.backward()] and a read of [x.grad]:
    the gradient at [x] of the loss that this run of [f] computes. *)
Definition forward_backward {A} (f : tensor R -> M (R * A)) (x : tensor R)
    : M (R * A * tensor R) :=
  fun s => match f x s with
           | (Ok r, s') =>
               (Ok (r, autograd (fun p => match f p s with
                                          | (Ok (l, _), _) => Some l
                                          | (Raise _, _) => None
                                          end) x), s')
           | (Raise e, s') => (Raise e, s')
           end.

(** VAT - FIRST PASS: the loss as computed from the perturbation [p]. *)
Definition first_pass (self : Head)
    (input_ids attention_mask token_type_ids position_ids : option (tensor Z))
    (inputs_embeds : option (tensor R)) (labels : tensor Z)
    (output_attentions output_hidden_states : option bool) (return_dict : bool)
    (VAT : bool) (mode : option string) (marks : option (tensor Z))
    (p : tensor R) : M (R * option (tensor R)) :=
  do '(outputs, inputs_embeds) <-
     model_forward xsoftmax (h_deberta self) input_ids attention_mask token_type_ids
       position_ids inputs_embeds output_attentions output_hidden_states
       (Some return_dict) VAT (VT p) mode marks;
  do sequence_output <-
     match outputs with
     | ITensor t :: _ => ret t
     | _ => raise (TypeError "dropout of a non-tensor")
     end;
  do sequence_output <- apply_dropout (h_dropout self) (Some sequence_output);
  do sequence_output <- not_none "sequence_output" sequence_output;
  do logits <- apply_linear (h_classifier self) sequence_output;
  do loss <- classification_loss (h_num_labels self) logits labels attention_mask;
  ret (loss, inputs_embeds).

(** The perturbation of the second pass, line 927. *)
Definition adversarial_perturbation (aspect_idx_mask r_adv_masked grad : tensor R)
    (lr_adv : R) : tensor R :=
  tmul aspect_idx_mask (tadd r_adv_masked (tmap (fun g => fmul lr_adv g) grad)).

(** Lines 876-928 of [forward]: the perturbation handed to the pass that
    follows, with the caller's [inputs_embeds] as the first pass left it.
    [rand] is the sample that [torch.rand] draws for a given shape. *)
Definition vat_perturbation (self : Head) (rand : list nat -> tensor R)
    (input_ids attention_mask token_type_ids position_ids : option (tensor Z))
    (inputs_embeds : option (tensor R)) (labels : option (tensor Z))
    (output_attentions output_hidden_states : option bool) (return_dict : bool)
    (VAT : bool) (mode : option string) (marks : option (tensor Z))
    : M (tval R * option (tensor R)) :=
  let perturbation := VInt 0 in
  if VAT && bool_decide (mode = Some "train")
  then
    do labels <-
       match labels with
       | Some l => ret l
       | None => raise (AttributeError "'bool' object has no attribute 'to'")
       end;
    let aspect_idx_mask := aspect_mask (Z.to_nat (hidden_size (h_config self))) labels in
    let r_adv := rand (shape aspect_idx_mask) in
    let r_adv_masked := tmul r_adv aspect_idx_mask in
    let pass := first_pass self input_ids attention_mask token_type_ids position_ids
                  inputs_embeds labels output_attentions output_hidden_states
                  return_dict VAT mode marks in
    (* VAT - FIRST PASS, then: compute new perturbation using gradient *)
    do '(loss, inputs_embeds, grad) <- forward_backward pass r_adv_masked;
    do lr_adv <- attr (extra (h_config self)) "lr_adv";
    do lr_adv <- as_scalar lr_adv;
    ret (VT (adversarial_perturbation aspect_idx_mask r_adv_masked grad lr_adv),
         inputs_embeds)
  else ret (perturbation, inputs_embeds).

(** Lines 930-972 of [forward]: the normal pass, or the second pass of VAT. *)
Definition second_pass (self : Head)
    (input_ids attention_mask token_type_ids position_ids : option (tensor Z))
    (inputs_embeds : option (tensor R)) (labels : option (tensor Z))
    (output_attentions output_hidden_states : option bool) (return_dict : bool)
    (VAT : bool) (mode : option string) (marks : option (tensor Z))
    (perturbation : tval R) : M (list (item R)) :=
  do '(outputs, _) <-
     model_forward xsoftmax (h_deberta self) input_ids attention_mask token_type_ids
       position_ids inputs_embeds output_attentions output_hidden_states
       (Some return_dict) VAT perturbation mode marks;
  do sequence_output <-
     match outputs with
     | ITensor t :: _ => ret t
     | _ => raise (TypeError "dropout of a non-tensor")
     end;
  do sequence_output <- apply_dropout (h_dropout self) (Some sequence_output);
  do sequence_output <- not_none "sequence_output" sequence_output;
  do logits <-
     match h_mark_enhanced_classifier self with
     | Some classifier =>
         do marks <- match marks with
                     | Some m => ret m
                     | None => raise (AttributeError
                                        "'NoneType' object has no attribute 'unsqueeze'")
                     end;
         apply_linear classifier (cat_marks sequence_output marks)
     | None => apply_linear (h_classifier self) sequence_output
     end;
  let outputs := ITensor logits :: drop 1 outputs in
  match labels with
  | Some labels =>
      do loss <- classification_loss (h_num_labels self) logits labels attention_mask;
      ret (ILoss loss :: outputs)
  | None => ret outputs
  end.

(** [CustomDebertaForTokenClassification.forward] *)
Definition head_forward (self : Head) (rand : list nat -> tensor R)
    (input_ids attention_mask token_type_ids position_ids : option (tensor Z))
    (inputs_embeds : option (tensor R)) (labels : option (tensor Z))
    (output_attentions output_hidden_states return_dict : option bool)
    (VAT : bool) (mode : option string) (marks : option (tensor Z))
    : M (list (item R)) :=
  let return_dict := default (use_return_dict (h_config self)) return_dict in
  do '(perturbation, inputs_embeds) <-
     vat_perturbation self rand input_ids attention_mask token_type_ids position_ids
       inputs_embeds labels output_attentions output_hidden_states return_dict
       VAT mode marks;
  second_pass self input_ids attention_mask token_type_ids position_ids inputs_embeds
    labels output_attentions output_hidden_states return_dict VAT mode marks perturbation.

End Head.
Arguments Head R : clear implicits.

(** ** A concrete number system and sample objects *)

(** Rationals in canonical form interpret the scalar operations; the square
    root is taken on three decimals. *)
Definition Qc_sqrt (q : Qc) : Qc :=
  Q2Qc (Z.sqrt (Qnum (this q) * 1000000 / Z.pos (Qden (this q))) # 1000).

#[export] Instance Qc_scalar : Scalar Qc := {|
  f0 := Q2Qc 0;
  f1 := Q2Qc 1;
  fadd := Qcplus;
  fmul := Qcmult;
  fdiv := Qcdiv;
  fsqrt := Qc_sqrt;
  of_Z := fun z => Q2Qc (inject_Z z);
  feqb := Qc_eq_bool;
|}.

Module Sample.

Definition s0 : counters := Counters 0 0.

(** A tensor of the given shape whose entries follow the row-major offset. *)
Definition ramp (s : list nat) (a c : Z) : tensor Qc :=
  Tensor s (fun idx => of_Z (a * Z.of_nat (ravel s idx) + c)).

(** A linear map without bias. *)
Definition lin (o i : nat) (a c : Z) : Linear Qc :=
  {| weight := ramp [o; i] a c; bias := None |}.

Definition no_dropout : StableDropout Qc :=
  {| drop_active := false; drop_mask := fun _ _ => false; drop_scale := f1 |}.

(** An attention module with two heads of size four over hidden size eight
    and twelve relative positions (six on each side). *)
Definition attention (pat : list string) (c2m_scalar m2c_scalar : pyval Qc)
    : SelfAttention Qc :=
  {| sa_num_attention_heads := 2;
     sa_attention_head_size := 4;
     sa_all_head_size := 8;
     sa_in_proj := lin 24 8 1 0;
     sa_q_bias := Tensor [8] (fun _ => f0);
     sa_v_bias := Tensor [8] (fun _ => f0);
     sa_pos_att_type := pat;
     sa_relative_attention := true;
     sa_talking_head := false;
     sa_mark_proj := if mem "c2m" pat then Some (lin 8 8 1 1) else None;
     sa_mark_q_proj := if mem "m2c" pat then Some (lin 8 8 2 1) else None;
     sa_c2m_scalar := c2m_scalar;
     sa_m2c_scalar := m2c_scalar;
     sa_head_logits_proj := None;
     sa_head_weights_proj := None;
     sa_max_relative_positions := Some 6%Z;
     sa_pos_dropout := Some no_dropout;
     sa_pos_proj := Some (lin 8 8 1 2);
     sa_pos_q_proj := Some (lin 8 8 3 1);
     sa_dropout := no_dropout |}.

Definition standard_attention : SelfAttention Qc :=
  attention ["c2p"; "p2c"] (PInt 1) (PInt 1).

Definition pivot_attention : SelfAttention Qc :=
  attention ["c2p"; "p2c"; "c2p_pp"; "p2c_pp"] (PInt 1) (PInt 1).


(** The same two mark terms on a configuration without position terms. *)
Definition mark_only_attention : SelfAttention Qc :=
  attention ["c2m"; "m2c"] (PFloat (Q2Qc (1 # 2))) (PFloat (Q2Qc 2)).

(** Query and key layers for [batch] sentences of four tokens. *)
Definition query_layer (batch : nat) : tensor Qc := ramp [batch; 2; 4; 4] 1 1.
Definition key_layer (batch : nat) : tensor Qc := ramp [batch; 2; 4; 4] 2 3.
Definition value_layer (batch : nat) : tensor Qc := ramp [batch; 2; 4; 4] 1 0.

Definition relative_pos : tensor Z := build_relative_position 4 4.
Definition rel_embeddings : tensor Qc := ramp [12; 8] 1 0.
Definition pivot_embeddings : tensor Qc := ramp [12; 8] 2 5.
Definition mark_embeddings : tensor Qc := ramp [2; 4; 8] 1 0.

(** Marks of two sentences: tokens 1 and 2 of the first, token 0 of the second. *)
Definition marks : tensor Z :=
  Tensor [2; 4] (fun idx => match idx with
                            | [0; 1] | [0; 2] | [1; 0] => 1%Z
                            | _ => 0%Z
                            end).

Definition cfg : config Qc :=
  Config 8%Z 2%Z 1 16%Z (Some ["c2p"; "p2c"]) false false true
         {[ "relative_attention" := PBool true ]}.

(** The same with three heads, which do not divide the hidden size. *)
Definition cfg_three_heads : config Qc :=
  Config 8%Z 3%Z 1 16%Z (Some ["c2p"; "p2c"]) false false true
         {[ "relative_attention" := PBool true ]}.

(** Hyper-parameters that enable the mark terms and the mark-enhanced
    classifier, and ones that enable them with pivot-phrase embeddings. *)
Definition hparams_marks_classifier : gmap string (pyval Qc) :=
  {[ "c2m" := PBool true; "mark_enhanced_classifier" := PBool true ]}.

Definition hparams_marks_pivot_embeddings : gmap string (pyval Qc) :=
  {[ "m2c" := PBool true; "pivot_phrase_embeddings" := PBool true ]}.

Definition hparams_marks_and_pivot : gmap string (pyval Qc) :=
  {[ "c2m" := PBool true; "c2p_att_pp" := PBool true ]}.

(** Stand-ins for the library pieces: a masked "softmax" that zeroes the
    masked scores, a position loss, a gradient of the shape of its argument
    and a random sample. *)
Definition xsoftmax (scores : tensor Qc) (mask : tensor Z) : tensor Qc :=
  Tensor (shape scores)
         (fun idx => if (bget mask idx =? 0)%Z then f0 else get scores idx).

Definition nll (row : list Qc) (target : Z) : Qc :=
  Qcminus (foldr Qcplus f0 row) (nth (Z.to_nat target) row f0).

Definition autograd (f : tensor Qc -> option Qc) (x : tensor Qc) : tensor Qc :=
  Tensor (shape x) (fun idx => match f x with
                               | Some l => fmul l (get x idx)
                               | None => f0
                               end).

Definition rand (sh : list nat) : tensor Qc := ramp sh 1 1.

(** [get_attention_mask] and [get_rel_pos] as the transformers encoder
    defines them for a two-dimensional mask. *)
Definition get_attention_mask (attention_mask : tensor Z) : tensor Z :=
  Tensor [size_at attention_mask 0; 1; size_at attention_mask 1; size_at attention_mask 1]
         (fun idx => Z.mul (get attention_mask [nth 0 idx 0; nth 2 idx 0])
                           (get attention_mask [nth 0 idx 0; nth 3 idx 0])).

Definition get_rel_pos (hidden_states : tensor Qc) (query_states : option (tensor Qc))
    (relative_pos : option (tensor Z)) : option (tensor Z) :=
  match relative_pos with
  | Some r => Some r
  | None =>
      Some (build_relative_position
              (size_neg (default hidden_states query_states) 2)
              (size_neg hidden_states 2))
  end.

Definition embeddings : Embeddings Qc :=
  {| emb_embedding_size := 8;
     emb_word_embeddings := ramp [10; 8] 1 0;
     emb_position_biased_input := false;
     emb_position_embeddings := None;
     emb_token_type_embeddings := None;
     emb_embed_proj := None;
     emb_LayerNorm := fun t => t;
     emb_dropout := no_dropout;
     emb_type_vocab_size := 0;
     emb_hidden_size := 8;
     emb_position_ids := Tensor [1; 16] (fun idx => Z.of_nat (nth 1 idx 0)) |}.

Definition layer : Layer Qc :=
  {| layer_attention := {| att_self := standard_attention;
                           att_output := fun x y => tadd x y |};
     layer_intermediate := fun t => t;
     layer_output := fun x y => tadd x y |}.

Definition encoder : Encoder Qc :=
  {| enc_layer := [layer];
     enc_relative_attention := true;
     enc_max_relative_positions := Some 6%Z;
     enc_rel_embeddings := Some rel_embeddings;
     enc_pivot_phrase_embeddings := None;
     enc_mark_embeddings := Some (ramp [2; 8] 1 0);
     enc_get_attention_mask := get_attention_mask;
     enc_get_rel_pos := get_rel_pos |}.

(** The configuration after [add_extra_args] with default hyper-parameters. *)
Definition vat_cfg : config Qc :=
  Config 8%Z 2%Z 1 16%Z (Some ["c2p"; "p2c"]) false false true
         {[ "relative_attention" := PBool true;
            "gamma" := PFloat (Q2Qc (1 # 10000));
            "lr_adv" := PInt 10;
            "mark_embeddings" := PNone ]}.

Definition model : Model Qc :=
  {| m_embeddings := embeddings; m_encoder := encoder; m_z_steps := 0; m_config := vat_cfg |}.

Definition head : Head Qc :=
  {| h_num_labels := 3;
     h_deberta := model;
     h_classifier := lin 3 8 1 0;
     h_dropout := no_dropout;
     h_mark_enhanced_classifier := None;
     h_config := vat_cfg |}.

(** Two sentences of four tokens; the last token of the second is padding. *)
Definition input_ids : tensor Z :=
  Tensor [2; 4] (fun idx => Z.of_nat (ravel [2; 4] idx)).

Definition attention_mask : tensor Z :=
  Tensor [2; 4] (fun idx => match idx with
                            | [1; 3] => 0%Z
                            | _ => 1%Z
                            end).

Definition labels : tensor Z :=
  Tensor [2; 4] (fun idx => match idx with
                            | [0; 1] | [1; 0] => 1%Z
                            | [0; 2] => 2%Z
                            | _ => 0%Z
                            end).

Definition logits : tensor Qc := ramp [2; 4; 3] 1 0.

(** The same logits, changed at every padding position. *)
Definition logits_changed : tensor Qc :=
  Tensor [2; 4; 3]
         (fun idx => if (get attention_mask (take 2 idx) =? 0)%Z
                     then fadd (get logits idx) f1
                     else get logits idx).

(** What the library hands to the constructors of a one-layer model. *)
Definition attention_parts : AttentionParts Qc :=
  {| super_init := ret tt;
     new_in_proj := lin 24 8 1 0;
     new_mark_proj := lin 8 8 1 1;
     new_mark_q_proj := lin 8 8 2 1;
     new_head_logits_proj := lin 2 2 1 0;
     new_head_weights_proj := lin 2 2 1 0;
     new_pos_proj := lin 8 8 1 2;
     new_pos_q_proj := lin 8 8 3 1;
     new_pos_dropout := no_dropout;
     new_dropout := no_dropout |}.

Definition model_parts : ModelParts Qc :=
  {| mp_super_init := ret tt;
     mp_embeddings := embeddings;
     mp_encoder :=
       {| ep_layers := [ {| lp_attention := attention_parts;
                            lp_self_output := fun x y => tadd x y;
                            lp_intermediate := fun t => t;
                            lp_output := fun x y => tadd x y |} ];
          ep_rel_embeddings := ramp [32; 8] 1 0;
          ep_pivot_phrase_embeddings := ramp [32; 8] 2 5;
          ep_mark_embeddings := ramp [2; 8] 1 0;
          ep_get_attention_mask := get_attention_mask;
          ep_get_rel_pos := get_rel_pos |} |}.

(** Hidden states of two sentences of four tokens. *)
Definition hidden_states : tensor Qc := ramp [2; 4; 8] 1 0.

(** An attention module without relative attention. *)
Definition plain_attention : SelfAttention Qc :=
  {| sa_num_attention_heads := 2;
     sa_attention_head_size := 4;
     sa_all_head_size := 8;
     sa_in_proj := lin 24 8 1 0;
     sa_q_bias := Tensor [8] (fun _ => f0);
     sa_v_bias := Tensor [8] (fun _ => f0);
     sa_pos_att_type := [];
     sa_relative_attention := false;
     sa_talking_head := false;
     sa_mark_proj := None;
     sa_mark_q_proj := None;
     sa_c2m_scalar := PInt 1;
     sa_m2c_scalar := PInt 1;
     sa_head_logits_proj := None;
     sa_head_weights_proj := None;
     sa_max_relative_positions := None;
     sa_pos_dropout := None;
     sa_pos_proj := None;
     sa_pos_q_proj := None;
     sa_dropout := no_dropout |}.

(** A configuration that enables both pivot-phrase terms. *)
Definition pivot_cfg : config Qc :=
  Config 8%Z 2%Z 2 16%Z (Some ["c2p"; "p2c"]) false false true
         {[ "relative_attention" := PBool true;
            "c2p_att_pp_enabled" := PBool true;
            "p2c_att_pp_enabled" := PBool true ]}.

Definition layer_parts : LayerParts Qc :=
  {| lp_attention := attention_parts;
     lp_self_output := fun x y => tadd x y;
     lp_intermediate := fun t => t;
     lp_output := fun x y => tadd x y |}.

(** Labels that differ from the sample labels at the padding position only,
    and labels with a class out of range at the first token. *)
Definition labels_changed : tensor Z :=
  Tensor [2; 4] (fun idx => match idx with
                            | [1; 3] => 2%Z
                            | _ => get labels idx
                            end).

Definition labels_out_of_range : tensor Z :=
  Tensor [2; 4] (fun idx => match idx with
                            | [0; 0] => 7%Z
                            | _ => get labels idx
                            end).

Definition full_mask : tensor Z := Tensor [2; 4] (fun _ => 1%Z).
Definition empty_mask : tensor Z := Tensor [2; 4] (fun _ => 0%Z).

(** An embedding layer with position embeddings, and embeddings supplied by
    the caller. *)
Definition position_embeddings : Embeddings Qc :=
  {| emb_embedding_size := 8;
     emb_word_embeddings := ramp [10; 8] 1 0;
     emb_position_biased_input := true;
     emb_position_embeddings := Some (ramp [16; 8] 1 1);
     emb_token_type_embeddings := None;
     emb_embed_proj := None;
     emb_LayerNorm := fun t => t;
     emb_dropout := no_dropout;
     emb_type_vocab_size := 0;
     emb_hidden_size := 8;
     emb_position_ids := Tensor [1; 16] (fun idx => Z.of_nat (nth 1 idx 0)) |}.

Definition position_head : Head Qc :=
  {| h_num_labels := 3;
     h_deberta := {| m_embeddings := position_embeddings;
                     m_encoder := encoder;
                     m_z_steps := 0;
                     m_config := vat_cfg |};
     h_classifier := lin 3 8 1 0;
     h_dropout := no_dropout;
     h_mark_enhanced_classifier := None;
     h_config := vat_cfg |}.

Definition marks_head : Head Qc :=
  {| h_num_labels := 3;
     h_deberta := model;
     h_classifier := lin 3 8 1 0;
     h_dropout := no_dropout;
     h_mark_enhanced_classifier := Some (lin 3 9 1 0);
     h_config := vat_cfg |}.

(** The sample configuration after [add_extra_args] without hyper-parameters. *)
Definition default_cfg : config Qc :=
  Config 8%Z 2%Z 1 16%Z (Some ["c2p"; "p2c"]) false false true
         {[ "relative_attention" := PBool true;
            "gamma" := PFloat (fdiv (of_Z 1) (of_Z 10000));
            "lr_adv" := PInt 10;
            "pivot_phrase_embeddings" := PBool false;
            "c2p_att_pp_enabled" := PBool false;
            "p2c_att_pp_enabled" := PBool false;
            "mark_embeddings" := PNone;
            "c2m" := PBool false;
            "m2c" := PBool false;
            "c2m_scalar" := PInt 1;
            "m2c_scalar" := PInt 1;
            "mark_enhanced_classifier" := PBool false ]}.

(** Hyper-parameters that ask for a pivot-phrase embedding table, and the
    sample configuration after [add_extra_args] with them. *)
Definition hparams_pivot_table : gmap string (pyval Qc) :=
  {[ "pivot_phrase_embeddings" := PBool true ]}.

Definition pivot_table_cfg : config Qc :=
  Config 8%Z 2%Z 1 16%Z (Some ["c2p"; "p2c"]) false false true
         {[ "relative_attention" := PBool true;
            "gamma" := PFloat (fdiv (of_Z 1) (of_Z 10000));
            "lr_adv" := PInt 10;
            "pivot_phrase_embeddings" := PBool true;
            "c2p_att_pp_enabled" := PBool false;
            "p2c_att_pp_enabled" := PBool false;
            "mark_embeddings" := PNone;
            "c2m" := PBool false;
            "m2c" := PBool false;
            "c2m_scalar" := PInt 1;
            "m2c_scalar" := PInt 1;
            "mark_enhanced_classifier" := PBool false ]}.

End Sample.

(** ** Predicates used by the statements *)

(** [safe E I c]: whatever the counters, running [c] relates them to the
    final ones by [I], and any exception raised satisfies [E]. *)
Definition safe {A} (E : exn -> Prop) (I : counters -> counters -> Prop) (c : M A) : Prop :=
  forall s, I s (snd (c s)) /\ forall e, fst (c s) = Raise e -> E e.

Definition not_value_error (e : exn) : Prop := forall msg, e <> ValueError msg.

Definition same_refinement (s s' : counters) : Prop :=
  refinement_steps s' = refinement_steps s.

(** The program's own test [hidden_size % num_attention_heads == 0]: it holds
    when the remainder exists and is zero. *)
Definition heads_divide {R} (cfg : config R) : Prop :=
  num_attention_heads cfg <> 0%Z /\ (hidden_size cfg mod num_attention_heads cfg = 0)%Z.

(** A hyper-parameter read as a flag, with the default [False]. *)
Definition flag {R} `{Scalar R} (hparams : gmap string (pyval R)) (name : string) : Prop :=
  truthy (getattr hparams name (PBool false)) = true.


(** A bias term under the pivot-phrase scheme: where the variant is enabled
    and the mark is 1, the entry of the pivot-phrase tensor; everywhere else
    the entry of the standard tensor. *)
Definition selected {R} (enabled : bool) (mark : Z) (pivot standard : tensor R)
    (idx : list nat) : R :=
  if enabled && (mark =? 1)%Z then get pivot idx else get standard idx.

(** The row of a table of relative-position embeddings that stands for the
    relative position [rel] when [span] positions on each side are in
    reach: the position is clamped to [-span, span - 1] and counted from
    row [max_rel]. *)
Definition table_row (max_rel span rel : Z) : nat :=
  Z.to_nat (max_rel - span) + Z.to_nat (Z.min (Z.max (rel + span) 0) (span * 2 - 1)).

(** The product of the vector of token [i] in head [h] of sentence [b] with
    the part of a projected row that belongs to that head. *)
Definition head_dot {R} `{Scalar R} (x : tensor R) (b h i d : nat) (row : nat -> R) : R :=
  sum_upto d (fun t => fmul (get x [b; h; i; t]) (row (h * d + t))).

(** The shapes under which the tensor library accepts every operation of
    the bias. The tensor operations of this development are total, their
    shape errors are not modelled; a statement that a call returns is made
    for shapes that fit.

    A linear map from [inp] to [out] features. *)
Definition linear_fits {R} (l : Linear R) (out inp : nat) : Prop :=
  shape (weight l) = [out; inp]
  /\ match bias l with
     | Some b => shape b = [out]
     | None => True
     end.

(** Relative positions for [B] sentences of [N] tokens and [Hh] heads: one
    [N x N] matrix for all, or one per sentence, or one per sentence and
    head. *)
Definition relative_pos_fits (r : tensor Z) (B Hh N : nat) : Prop :=
  shape r = [N; N] \/ shape r = [1; N; N] \/ shape r = [B; N; N]
  \/ shape r = [B; Hh; N; N].

(** Whether a computation returns from the given counters. *)
Definition returns {A} (c : M A) (s : counters) : bool :=
  match fst (c s) with
  | Ok _ => true
  | Raise _ => false
  end.


(** The outcome of a computation seen through [f]. *)
Definition result_map {A B} (f : A -> B) (r : result A) : result B :=
  match r with
  | Ok a => Ok (f a)
  | Raise e => Raise e
  end.

(** A call that cannot return: from any counters it raises. *)
Definition always_raises {A} (c : M A) : Prop :=
  forall s, exists e, fst (c s) = Raise e.

(** The list that [CustomDisentangledSelfAttention.__init__] leaves in
    [pos_att_type] (lines 176-192), from the list it found and the
    attributes of the configuration. *)
Definition extended_pos_att_type {R} `{Scalar R} (attrs : gmap string (pyval R))
    (pat : list string) : list string :=
  let flag name := truthy (getattr attrs name (PBool false)) in
  let pat := if flag "c2p_att_pp_enabled" then add_once "c2p_pp" pat else pat in
  let pat := if flag "p2c_att_pp_enabled" then add_once "p2c_pp" pat else pat in
  let pat := if flag "c2m" then add_once "c2m" pat else pat in
  if flag "m2c" then add_once "m2c" pat else pat.

(** The loop of [CustomDebertaEncoder.forward] and the packing of its
    outputs (lines 606-640), from the mark embeddings that lines 598-604
    have bound, if any. *)
Definition encoder_layers {R} `{Scalar R} (xsoftmax : tensor R -> tensor Z -> tensor R)
    (self : Encoder R) (mark_embeddings : option (option (tensor R)))
    (hidden_states : tensor R) (attention_mask : tensor Z)
    (output_hidden_states output_attentions : bool) (query_states : option (tensor R))
    (relative_pos : option (tensor Z)) (marks : option (tensor Z)) : M (EncoderOutput R) :=
  do '(last, all_hidden_states, all_attentions) <-
     encoder_loop xsoftmax (enc_layer self) (enc_get_attention_mask self attention_mask)
       output_hidden_states output_attentions
       (enc_get_rel_pos self hidden_states query_states relative_pos)
       (get_rel_embedding self) mark_embeddings marks
       hidden_states hidden_states query_states [] [];
  ret {| eo_hidden_states := last;
         eo_all_hidden_states :=
           if output_hidden_states then Some (all_hidden_states ++ [last]) else None;
         eo_all_attentions := if output_attentions then Some all_attentions else None |}.

(** * Properties *)

(** ** The evaluation monad *)

Lemma bind_ok {A B} (c : M A) (k : A -> M B) s a s' :
  c s = (Ok a, s') -> bind c k s = k a s'.
Proof. intros Hc. unfold bind. now rewrite Hc. Qed.

Lemma bind_raise {A B} (c : M A) (k : A -> M B) s e s' :
  c s = (Raise e, s') -> bind c k s = (Raise e, s').
Proof. intros Hc. unfold bind. now rewrite Hc. Qed.

Section Safe.
Context (E : exn -> Prop) (I : counters -> counters -> Prop).
Hypothesis I_refl : forall s, I s s.
Hypothesis I_trans : forall a b c, I a b -> I b c -> I a c.
Hypothesis I_tick : forall s, I s (Counters (S (matmuls s)) (refinement_steps s)).

Lemma safe_ret {A} (a : A) : safe E I (ret a).
Proof. intros s. split; [apply I_refl | discriminate]. Qed.

Lemma safe_raise {A} (e : exn) : E e -> safe E I (@raise A e).
Proof. intros He s. split; [apply I_refl | now intros e' [= <-]]. Qed.

Lemma safe_bind {A B} (c : M A) (k : A -> M B) :
  safe E I c -> (forall a, safe E I (k a)) -> safe E I (bind c k).
Proof.
  intros Hc Hk s. unfold bind.
  destruct (Hc s) as [Hi He]. destruct (c s) as [[a | e] s1]; cbn in *.
  - destruct (Hk a s1) as [Hi' He']. split; [eauto | exact He'].
  - split; [exact Hi |]. intros e0 [= <-]. now apply He.
Qed.

Lemma safe_tick : safe E I tick.
Proof. intros s. split; [apply I_tick | discriminate]. Qed.

Lemma safe_matmul {R} `{Scalar R} (a b : tensor R) : safe E I (matmul a b).
Proof. apply safe_bind; [apply safe_tick | intros; apply safe_ret]. Qed.

Lemma safe_apply_linear {R} `{Scalar R} (l : Linear R) (x : tensor R) :
  safe E I (apply_linear l x).
Proof. apply safe_bind; [apply safe_tick | intros; apply safe_ret]. Qed.

End Safe.

(** ** C9: the divisibility check of the constructor *)

Lemma check_heads_ok {R} (cfg : config R) s :
  heads_divide cfg -> check_heads cfg s = (Ok tt, s).
Proof.
  intros [Hnz Hmod]. unfold check_heads.
  destruct (Z.eqb_spec (num_attention_heads cfg) 0); [contradiction |].
  rewrite Hmod. reflexivity.
Qed.

Lemma check_heads_raises {R} (cfg : config R) s :
  ~ heads_divide cfg -> exists e, check_heads cfg s = (Raise e, s).
Proof.
  intros Hn. unfold check_heads.
  destruct (Z.eqb_spec (num_attention_heads cfg) 0) as [Hz | Hnz]; [eauto |].
  destruct (Z.eqb_spec (hidden_size cfg mod num_attention_heads cfg) 0) as [Hm | Hm];
    cbn; [| eauto].
  exfalso. apply Hn. now split.
Qed.

(** C9. Constructing the self-attention module raises whenever
    [hidden_size % num_attention_heads == 0] does not hold (a zero head
    count included), whatever the base-class constructor did before; when it
    holds, the check lets the construction go on with the counters untouched. *)
Theorem attention_init_checks_heads {R} `{Scalar R} (cfg : config R)
    (parts : AttentionParts R) (s : counters) :
  (~ heads_divide cfg -> exists e, fst (attention_init cfg parts s) = Raise e)
  /\ (heads_divide cfg -> check_heads cfg s = (Ok tt, s)).
Proof.
  split; [| apply check_heads_ok].
  intros Hn. unfold attention_init.
  destruct (super_init parts s) as [[[] | e] s1] eqn:Hsuper.
  - rewrite (bind_ok _ _ _ _ _ Hsuper).
    destruct (check_heads_raises cfg s1 Hn) as [e He].
    rewrite (bind_raise _ _ _ _ _ He). eauto.
  - rewrite (bind_raise _ _ _ _ _ Hsuper). eauto.
Qed.

(** Eight hidden units pass the check on two heads and fail it on three. *)
Lemma attention_init_checks_heads_witness :
  check_heads Sample.cfg Sample.s0 = (Ok tt, Sample.s0)
  /\ exists e, fst (attention_init Sample.cfg_three_heads Sample.attention_parts
                      Sample.s0) = Raise e.
Proof.
  split.
  - apply (proj2 (attention_init_checks_heads Sample.cfg Sample.attention_parts
                    Sample.s0)).
    split; [discriminate | reflexivity].
  - apply (proj1 (attention_init_checks_heads Sample.cfg_three_heads
                    Sample.attention_parts Sample.s0)).
    intros [_ Hm]. discriminate Hm.
Defined.

(** ** C7: the assertion of [add_extra_args] *)

Lemma extra_set_extra {R} (c : config R) n v :
  extra (set_extra c n v) = <[n:=v]> (extra c).
Proof. reflexivity. Qed.

Lemma getattr_set_eq {R} (m : gmap string (pyval R)) n v d :
  getattr (<[n:=v]> m) n d = v.
Proof. unfold getattr. now rewrite lookup_insert_eq. Qed.

Lemma getattr_set_ne {R} (m : gmap string (pyval R)) n n' v d :
  n <> n' -> getattr (<[n:=v]> m) n' d = getattr m n' d.
Proof. intros Hne. unfold getattr. now rewrite lookup_insert_ne. Qed.

Lemma truthy_or {R} `{Scalar R} (a b : pyval R) :
  truthy (py_or a b) = truthy a || truthy b.
Proof. unfold py_or. destruct (truthy a) eqn:Ha; [exact Ha | reflexivity]. Qed.

Lemma truthy_and {R} `{Scalar R} (a b : pyval R) :
  truthy (py_and a b) = truthy a && truthy b.
Proof. unfold py_and. destruct (truthy a) eqn:Ha; [reflexivity | exact Ha]. Qed.

(** C7, as amended. [add_extra_args] raises exactly when a mark term ([c2m]
    or [m2c]) is enabled together with a pivot-phrase attention term
    ([c2p_att_pp] or [p2c_att_pp]); no other hyper-parameter takes part in
    the check. *)
Theorem add_extra_args_assertion {R} `{Scalar R} (cfg : config R)
    (hparams : gmap string (pyval R)) (s : counters) :
  (exists e, fst (add_extra_args cfg hparams s) = Raise e) <->
  ((flag hparams "c2m" \/ flag hparams "m2c")
   /\ (flag hparams "c2p_att_pp" \/ flag hparams "p2c_att_pp")).
Proof.
  unfold add_extra_args. cbv zeta. unfold py_not.
  rewrite truthy_and, !truthy_or, !extra_set_extra.
  repeat first [rewrite getattr_set_eq | rewrite getattr_set_ne by done].
  unfold flag.
  destruct (truthy (getattr hparams "c2m" _)), (truthy (getattr hparams "m2c" _)),
    (truthy (getattr hparams "c2p_att_pp" _)), (truthy (getattr hparams "p2c_att_pp" _));
    cbn; split; intros Hx;
    try (destruct Hx as [e He]; discriminate);
    try (destruct Hx as [[Ha | Ha] [Hb | Hb]]; discriminate);
    eauto.
Qed.

(** C7, the claim as stated fails: with the mark-enhanced classifier and a
    mark term both enabled, and with pivot-phrase embeddings and a mark
    term both enabled, the configuration is accepted. *)
Lemma marks_with_classifier_accepted :
  (flag Sample.hparams_marks_classifier "mark_enhanced_classifier"
   /\ flag Sample.hparams_marks_classifier "c2m"
   /\ exists c, fst (add_extra_args Sample.cfg Sample.hparams_marks_classifier Sample.s0)
                = Ok c)
  /\ (flag Sample.hparams_marks_pivot_embeddings "pivot_phrase_embeddings"
      /\ flag Sample.hparams_marks_pivot_embeddings "m2c"
      /\ exists c, fst (add_extra_args Sample.cfg Sample.hparams_marks_pivot_embeddings
                          Sample.s0) = Ok c).
Proof.
  repeat split; try (vm_compute; reflexivity); eexists; vm_compute; reflexivity.
Qed.

(** The assertion does fire on a mark term with a pivot-phrase term. *)
Lemma add_extra_args_assertion_witness :
  exists e, fst (add_extra_args Sample.cfg Sample.hparams_marks_and_pivot Sample.s0)
            = Raise e.
Proof.
  apply (add_extra_args_assertion Sample.cfg Sample.hparams_marks_and_pivot Sample.s0).
  split; left; vm_compute; reflexivity.
Defined.

(** ** How computations fail and what they count *)

Section SafePrimitives.
Context (E : exn -> Prop) (I : counters -> counters -> Prop).
Hypothesis I_refl : forall s, I s s.

Lemma safe_read_local {A} name (v : option A) :
  E (UnboundLocalError name) -> safe E I (read_local name v).
Proof. intros He. destruct v; [apply safe_ret | apply safe_raise]; auto. Qed.

Lemma safe_not_none {A} what (v : option A) :
  E (TypeError what) -> safe E I (not_none what v).
Proof. intros He. destruct v; [apply safe_ret | apply safe_raise]; auto. Qed.

Lemma safe_self_attr {A} name (v : option A) :
  E (AttributeError name) -> safe E I (self_attr name v).
Proof. intros He. destruct v; [apply safe_ret | apply safe_raise]; auto. Qed.

Lemma safe_global_call {A} name (c : M A) :
  E (NameError name) -> safe E I c -> safe E I (global_call name c).
Proof. intros He Hc. unfold global_call. case_bool_decide; [exact Hc | apply safe_raise]; auto. Qed.

Lemma safe_subscript {A} (t : tensor A) idx :
  (forall m, E (IndexError m)) -> safe E I (subscript t idx).
Proof. intros He. unfold subscript. case_bool_decide; [apply safe_ret | apply safe_raise]; auto. Qed.

Lemma safe_as_scalar {R} `{Scalar R} (v : pyval R) :
  (forall m, E (TypeError m)) -> safe E I (as_scalar v).
Proof. intros He. destruct v; first [apply safe_ret | apply safe_raise]; auto. Qed.

Lemma safe_as_int {R} (v : pyval R) :
  (forall m, E (TypeError m)) -> safe E I (as_int v).
Proof. intros He. destruct v; first [apply safe_ret | apply safe_raise]; auto. Qed.

Lemma safe_apply_dropout {R} `{Scalar R} (d : StableDropout R) x :
  (forall m, E (TypeError m)) -> safe E I (apply_dropout d x).
Proof.
  intros He. unfold apply_dropout. destruct (drop_active d); [| now apply safe_ret].
  destruct x; cbn; [| apply safe_raise; auto].
  unfold not_none, bind, ret. intros s. cbn. split; [apply I_refl | discriminate].
Qed.
End SafePrimitives.

Ltac safe_side :=
  try solve [ intros; exact Logic.I
            | unfold same_refinement; intros; cbn in *; congruence ].

Ltac safe_exn :=
  first [ exact Logic.I | intros; exact Logic.I
        | unfold not_value_error; intros; discriminate ].

Ltac safe_step :=
  lazymatch goal with
  | |- safe _ _ (bind _ _) => apply safe_bind; [safe_side.. | | intros ?]
  | |- safe _ _ (ret _) => apply safe_ret; safe_side
  | |- safe _ _ (raise _) => apply safe_raise; [safe_side.. | safe_exn]
  | |- safe _ _ (matmul _ _) => apply safe_matmul; safe_side
  | |- safe _ _ (apply_linear _ _) => apply safe_apply_linear; safe_side
  | |- safe _ _ (read_local _ _) => apply safe_read_local; [safe_side.. | safe_exn]
  | |- safe _ _ (not_none _ _) => apply safe_not_none; [safe_side.. | safe_exn]
  | |- safe _ _ (self_attr _ _) => apply safe_self_attr; [safe_side.. | safe_exn]
  | |- safe _ _ (subscript _ _) => apply safe_subscript; [safe_side.. | safe_exn]
  | |- safe _ _ (as_scalar _) => apply safe_as_scalar; [safe_side.. | safe_exn]
  | |- safe _ _ (as_int _) => apply safe_as_int; [safe_side.. | safe_exn]
  | |- safe _ _ (apply_dropout _ _) => apply safe_apply_dropout; [safe_side.. | safe_exn]
  | |- safe _ _ (global_call _ _) => apply safe_global_call; [safe_side.. | safe_exn | ]
  | |- safe _ _ (if ?b then _ else _) => destruct b
  | |- safe _ _ (match ?x with _ => _ end) => destruct x
  | |- safe _ _ (let x := _ in _) => cbv zeta
  end.

(** ** Indices, shapes and broadcasting *)

Lemma subscript_ok {A} (t : tensor A) idx :
  Forall2 lt idx (take (length idx) (shape t)) -> subscript t idx = ret tt.
Proof. intros Hf. unfold subscript. now rewrite bool_decide_eq_true_2. Qed.

Lemma pin_same (a : nat) : (if a =? 1 then a else a) = a.
Proof. now destruct (a =? 1). Qed.

Lemma pin_lt (d i : nat) : i < d -> (if d =? 1 then 0 else i) = i.
Proof. intros Hlt. destruct (Nat.eqb_spec d 1); lia. Qed.

Lemma bidx_in_range (s idx : list nat) : Forall2 lt idx s -> bidx s idx = idx.
Proof.
  intros Hf. unfold bidx. rewrite (Forall2_length _ _ _ Hf), Nat.sub_diag, drop_0.
  induction Hf as [| i d idx s Hlt _ IH]; [reflexivity |].
  cbn. now rewrite pin_lt, IH.
Qed.

Lemma bshape_same (s : list nat) : bshape s s = s.
Proof.
  unfold bshape, pad_left. rewrite Nat.max_id, Nat.sub_diag. cbn.
  induction s as [| a s IH]; [reflexivity |]. cbn. now rewrite pin_same, IH.
Qed.

Lemma bget_in_range {A} (t : tensor A) (idx : list nat) :
  Forall2 lt idx (shape t) -> bget t idx = get t idx.
Proof. intros Hf. unfold bget. now rewrite bidx_in_range. Qed.

Section TensorFacts.
Context {R : Type} `{Scalar R}.

Lemma shape_tadd (a b : tensor R) s : shape a = s -> shape b = s -> shape (tadd a b) = s.
Proof. intros Ha Hb. unfold tadd, tmap2. cbn. rewrite Ha, Hb. apply bshape_same. Qed.

Lemma get_tadd (a b : tensor R) s idx :
  shape a = s -> shape b = s -> Forall2 lt idx s ->
  get (tadd a b) idx = fadd (get a idx) (get b idx).
Proof.
  intros Ha Hb Hf. unfold tadd, tmap2. cbn.
  rewrite !bget_in_range; [reflexivity | now rewrite Hb | now rewrite Ha].
Qed.

End TensorFacts.

Lemma div_row (N b j : nat) : j < N -> (b * N + j) / N = b.
Proof. intros Hj. symmetry. apply (Nat.div_unique _ _ _ j); lia. Qed.

Lemma mod_row (N b j : nat) : j < N -> (b * N + j) mod N = j.
Proof. intros Hj. symmetry. apply (Nat.mod_unique _ _ b); lia. Qed.

Lemma unravel_marks_key (B N b j : nat) :
  j < N -> unravel [B; N] (ravel [B; 1; 1; N] [b; 0; 0; j]) = [b; j].
Proof.
  intros Hj. unfold unravel, ravel, prod_list. cbn [foldr].
  replace (b * (1 * (1 * (N * 1))) + (0 * (1 * (N * 1)) + (0 * (N * 1) + (j * 1 + 0))))
    with (b * N + j) by lia.
  rewrite Nat.mul_1_r, Nat.div_1_r, div_row, mod_row by lia. reflexivity.
Qed.

Lemma unravel_marks_query (B N b i : nat) :
  i < N -> unravel [B; N] (ravel [B; 1; N; 1] [b; 0; i; 0]) = [b; i].
Proof.
  intros Hi. unfold unravel, ravel, prod_list. cbn [foldr].
  replace (b * (1 * (N * (1 * 1))) + (0 * (N * (1 * 1)) + (i * (1 * 1) + (0 * 1 + 0))))
    with (b * N + i) by lia.
  rewrite Nat.mul_1_r, Nat.div_1_r, div_row, mod_row by lia. reflexivity.
Qed.

Section WhereFacts.
Context {R : Type}.

Lemma shape_where_key (mk : tensor Z) (x y : tensor R) (B Hh Q N : nat) :
  shape x = [B; Hh; Q; N] -> shape y = [B; Hh; Q; N] ->
  shape (where_ (eq_scalar (view mk [B; 1; 1; N]) 1) x y) = [B; Hh; Q; N].
Proof.
  intros Hx Hy. unfold where_. cbn [shape]. rewrite Hx, Hy, bshape_same.
  unfold eq_scalar, tmap, view. cbn. now rewrite !pin_same.
Qed.

Lemma get_where_key (mk : tensor Z) (x y : tensor R) (B Hh Q N b h i j : nat) :
  shape mk = [B; N] -> shape x = [B; Hh; Q; N] -> shape y = [B; Hh; Q; N] ->
  b < B -> h < Hh -> i < Q -> j < N ->
  get (where_ (eq_scalar (view mk [B; 1; 1; N]) 1) x y) [b; h; i; j]
  = if (get mk [b; j] =? 1)%Z then get x [b; h; i; j] else get y [b; h; i; j].
Proof.
  intros Hmk Hx Hy Hb Hh' Hi Hj. unfold where_. cbn [get].
  rewrite (bget_in_range x), (bget_in_range y)
    by (rewrite ?Hx, ?Hy; repeat constructor; assumption).
  unfold bget, eq_scalar, tmap, view. cbn [shape get].
  replace (bidx [B; 1; 1; N] [b; h; i; j]) with [b; 0; 0; j]
    by (unfold bidx; cbn; now rewrite !pin_lt).
  now rewrite Hmk, unravel_marks_key.
Qed.

Lemma shape_where_query (mk : tensor Z) (x y : tensor R) (B Hh N K : nat) :
  shape x = [B; Hh; N; K] -> shape y = [B; Hh; N; K] ->
  shape (where_ (eq_scalar (view mk [B; 1; N; 1]) 1) x y) = [B; Hh; N; K].
Proof.
  intros Hx Hy. unfold where_. cbn [shape]. rewrite Hx, Hy, bshape_same.
  unfold eq_scalar, tmap, view. cbn. now rewrite !pin_same.
Qed.

Lemma get_where_query (mk : tensor Z) (x y : tensor R) (B Hh N K b h i j : nat) :
  shape mk = [B; N] -> shape x = [B; Hh; N; K] -> shape y = [B; Hh; N; K] ->
  b < B -> h < Hh -> i < N -> j < K ->
  get (where_ (eq_scalar (view mk [B; 1; N; 1]) 1) x y) [b; h; i; j]
  = if (get mk [b; i] =? 1)%Z then get x [b; h; i; j] else get y [b; h; i; j].
Proof.
  intros Hmk Hx Hy Hb Hh' Hi Hj. unfold where_. cbn [get].
  rewrite (bget_in_range x), (bget_in_range y)
    by (rewrite ?Hx, ?Hy; repeat constructor; assumption).
  unfold bget, eq_scalar, tmap, view. cbn [shape get].
  replace (bidx [B; 1; N; 1] [b; h; i; j]) with [b; 0; i; 0]
    by (unfold bidx; cbn; now rewrite !pin_lt).
  now rewrite Hmk, unravel_marks_query.
Qed.

End WhereFacts.

(** ** Entries of the bias terms *)

Lemma foldl_ext_in {A B} (f g : A -> B -> A) (l : list B) (a : A) :
  (forall x acc, x ∈ l -> f acc x = g acc x) -> foldl f a l = foldl g a l.
Proof.
  revert a. induction l as [| x l IH]; intros a Hfg; [reflexivity |].
  cbn. rewrite (Hfg x a) by constructor.
  apply IH. intros y acc Hy. apply Hfg. now constructor.
Qed.

Lemma sum_upto_ext {R} `{Scalar R} (n : nat) (f g : nat -> R) :
  (forall k, k < n -> f k = g k) -> sum_upto n f = sum_upto n g.
Proof.
  intros Hfg. unfold sum_upto. apply foldl_ext_in.
  intros k acc Hk. apply elem_of_seq in Hk. now rewrite Hfg by lia.
Qed.

Lemma unravel_heads (B N h w b n i t : nat) :
  n < N -> i < h -> t < w ->
  unravel [B; N; h * w] (ravel [B; N; h; w] [b; n; i; t]) = [b; n; i * w + t].
Proof.
  intros Hn Hi Ht. unfold unravel, ravel, prod_list. cbn [foldr].
  rewrite !Nat.mul_1_r, Nat.add_0_r, Nat.div_1_r.
  assert (Hin : i * w + t < h * w) by nia.
  assert (Hrow : n * (h * w) + (i * w + t) < N * (h * w)) by nia.
  rewrite div_row, mod_row by exact Hrow.
  rewrite div_row, mod_row by exact Hin.
  reflexivity.
Qed.

Section Entries.
Context {R : Type} `{Scalar R}.

Lemma transpose_for_scores_get (self : SelfAttention R) (x : tensor R)
    (B N w : nat) :
  let h := sa_num_attention_heads self in
  0 < h ->
  shape x = [B; N; h * w] ->
  shape (transpose_for_scores self x) = [B; h; N; w]
  /\ forall b i n t, n < N -> i < h -> t < w ->
       get (transpose_for_scores self x) [b; i; n; t] = get x [b; n; i * w + t].
Proof.
  intros h Hh Hx. unfold transpose_for_scores, permute_0213, view, size_neg, dim.
  cbn [shape get]. rewrite Hx. cbn [length Nat.leb Nat.sub nth take app swap_12].
  fold h. rewrite (Nat.mul_comm h w), Nat.div_mul by lia. split; [reflexivity |].
  intros b i n t Hn Hi Ht. rewrite (Nat.mul_comm w h). now rewrite unravel_heads.
Qed.

(** A product of two tensors with head axes: the second operand may hold
    one matrix per head for the whole batch. *)
Lemma get_matmul_heads (a b : tensor R) (B B' Hh N M d b0 h i j : nat) :
  shape a = [B; Hh; N; d] -> shape b = [B'; Hh; d; M] ->
  b0 < B -> h < Hh ->
  get (matmul_value a b) [b0; h; i; j]
  = sum_upto d (fun t => fmul (get a [b0; h; i; t])
                              (get b [if B' =? 1 then 0 else b0; h; t; j])).
Proof.
  intros Ha Hb Hb0 Hh1. unfold matmul_value, size_neg, dim, batch_of. cbn [get].
  rewrite Ha, Hb. cbn [length Nat.leb Nat.sub nth take app].
  unfold bidx. cbn [length Nat.sub drop zip_with app].
  rewrite !(pin_lt B b0), !(pin_lt Hh h) by assumption.
  reflexivity.
Qed.

Lemma att_span_bounds (q k : tensor R) (N : nat) (max_rel : Z) :
  size_neg q 2 = N -> size_neg k 2 = N -> 0 < N -> (0 < max_rel)%Z ->
  (0 < att_span_value q k max_rel <= max_rel)%Z.
Proof. intros Hq Hk HN Hm. unfold att_span_value. rewrite Hq, Hk. lia. Qed.

(** The rows of a table in reach, projected and split into heads: the entry
    of head [h] at row [p] is the projection of row [max_rel - span + p] of
    the table. *)
Lemma get_pos_layer (self : SelfAttention R) (proj : Linear R) (table q k : tensor R)
    (Hh N d hid : nat) (max_rel : Z) :
  let span := att_span_value q k max_rel in
  sa_num_attention_heads self = Hh -> 0 < Hh ->
  linear_fits proj (Hh * d) hid ->
  shape table = [Z.to_nat (2 * max_rel); hid] ->
  size_neg q 2 = N -> size_neg k 2 = N -> 0 < N -> (0 < max_rel)%Z ->
  shape (pos_layer self proj table q k max_rel) = [1; Hh; Z.to_nat (2 * span); d]
  /\ forall h p t, h < Hh -> p < Z.to_nat (2 * span) -> t < d ->
       get (pos_layer self proj table q k max_rel) [0; h; p; t]
       = get (linear_value proj table) [Z.to_nat (max_rel - span) + p; h * d + t].
Proof.
  intros span Hheads HH [Hw Hb] Ht Hq Hk HN Hm.
  pose proof (att_span_bounds q k N max_rel Hq Hk HN Hm) as Hspan. fold span in Hspan.
  unfold pos_layer. fold span.
  assert (Hrows : shape (span_rows table max_rel span) = [1; Z.to_nat (2 * span); hid]).
  { unfold span_rows, unsqueeze, slice_rows, size_at. cbn [shape]. rewrite Ht.
    cbn [nth take drop app]. do 2 f_equal. lia. }
  assert (Hlin : shape (linear_value proj (span_rows table max_rel span))
                 = [1; Z.to_nat (2 * span); Hh * d]).
  { unfold linear_value, dim, size_at. cbn [shape]. rewrite Hrows, Hw. reflexivity. }
  destruct (transpose_for_scores_get self (linear_value proj (span_rows table max_rel span))
              1 (Z.to_nat (2 * span)) d) as [Hshape Hget].
  { rewrite Hheads. exact HH. }
  { rewrite Hheads. exact Hlin. }
  rewrite Hheads in Hshape, Hget. split; [exact Hshape |].
  intros h p t Hh' Hp Ht'. rewrite Hget by assumption.
  unfold linear_value, size_neg, dim. cbn [get]. rewrite Hrows, Ht.
  reflexivity.
Qed.

Section Position.
Variables (self : SelfAttention R) (proj : Linear R) (table q k : tensor R)
  (r4 : tensor Z) (B Hh N d hid : nat) (max_rel : Z).
Hypothesis Hheads : sa_num_attention_heads self = Hh.
Hypothesis Hproj : linear_fits proj (Hh * d) hid.
Hypothesis Htable : shape table = [Z.to_nat (2 * max_rel); hid].
Hypothesis Hq : shape q = [B; Hh; N; d].
Hypothesis Hk : shape k = [B; Hh; N; d].
Hypothesis HH : 0 < Hh.
Hypothesis HN : 0 < N.
Hypothesis Hmax : (0 < max_rel)%Z.

Lemma clamped_row (x : Z) :
  Z.to_nat (Z.min (Z.max x 0) (att_span_value q k max_rel * 2 - 1))
  < Z.to_nat (2 * att_span_value q k max_rel).
Proof.
  assert (Hspan : (0 < att_span_value q k max_rel <= max_rel)%Z).
  { apply (att_span_bounds q k N); try assumption;
      unfold size_neg, dim; rewrite ?Hq, ?Hk; reflexivity. }
  lia.
Qed.

Lemma get_c2p_att_value (b h i j : nat) :
  b < B -> h < Hh ->
  get (c2p_att_value self proj table q k r4 max_rel) [b; h; i; j]
  = head_dot q b h i d
      (fun o => get (linear_value proj table)
                    [table_row max_rel (att_span_value q k max_rel) (bget r4 [b; h; i; j]);
                     o]).
Proof.
  intros Hb Hh'.
  destruct (get_pos_layer self proj table q k Hh N d hid max_rel) as [Hshape Hget];
    try assumption; try (unfold size_neg, dim; rewrite ?Hq, ?Hk; reflexivity).
  unfold c2p_att_value, head_dot, table_row. cbv zeta.
  unfold gather_last at 1. cbn [get set_last length Nat.sub take app].
  rewrite (get_matmul_heads _ _ B 1 Hh N (Z.to_nat (2 * att_span_value q k max_rel)) d);
    try assumption.
  2: { unfold transpose_last2. cbn [shape]. rewrite Hshape. reflexivity. }
  apply sum_upto_ext. intros t Ht. f_equal.
  unfold transpose_last2. cbn [get swap_last2 reverse rev_append app Nat.eqb].
  apply Hget; [assumption | apply clamped_row | assumption].
Qed.

Lemma get_p2c_att_pp_value (b h i j : nat) :
  b < B -> h < Hh ->
  get (p2c_att_pp_value self proj table q k r4 max_rel) [b; h; i; j]
  = head_dot k b h i d
      (fun o => get (linear_value proj table)
                    [table_row max_rel (att_span_value q k max_rel)
                       (- bget r4 [b; h; i; j]); o]).
Proof.
  intros Hb Hh'.
  destruct (get_pos_layer self proj table q k Hh N d hid max_rel) as [Hshape Hget];
    try assumption; try (unfold size_neg, dim; rewrite ?Hq, ?Hk; reflexivity).
  unfold p2c_att_pp_value, head_dot, table_row. cbv zeta.
  unfold gather_last at 1. cbn [get set_last length Nat.sub take app].
  rewrite (get_matmul_heads _ _ B 1 Hh N (Z.to_nat (2 * att_span_value q k max_rel)) d);
    try assumption.
  2: { unfold transpose_last2. cbn [shape]. rewrite Hshape. reflexivity. }
  apply sum_upto_ext. intros t Ht. f_equal.
  unfold transpose_last2. cbn [get swap_last2 reverse rev_append app Nat.eqb].
  apply Hget; [assumption | apply clamped_row | assumption].
Qed.

Lemma get_p2c_att_value (sf b h i j : nat) :
  b < B -> h < Hh ->
  get (p2c_att_value self proj table q k r4 max_rel sf) [b; h; i; j]
  = head_dot k b h j d
      (fun o => fdiv (get (linear_value proj table)
                          [table_row max_rel (att_span_value q k max_rel)
                             (- bget r4 [b; h; j; i]); o])
                     (fsqrt (of_Z (Z.of_nat (d * sf))))).
Proof.
  intros Hb Hh'.
  destruct (get_pos_layer self proj table q k Hh N d hid max_rel) as [Hshape Hget];
    try assumption; try (unfold size_neg, dim; rewrite ?Hq, ?Hk; reflexivity).
  unfold p2c_att_value, head_dot, table_row. cbv zeta.
  unfold transpose_last2 at 1. cbn [get swap_last2 reverse rev_append app Nat.eqb].
  unfold gather_last at 1. cbn [get set_last length Nat.sub take app].
  rewrite (get_matmul_heads _ _ B 1 Hh N (Z.to_nat (2 * att_span_value q k max_rel)) d);
    try assumption.
  2: { unfold transpose_last2, tdiv_scalar, tmap. cbn [shape]. rewrite Hshape. reflexivity. }
  apply sum_upto_ext. intros t Ht. f_equal.
  unfold transpose_last2, tdiv_scalar, tmap.
  cbn [get swap_last2 reverse rev_append app Nat.eqb].
  unfold sqrt_scale, size_neg, dim. rewrite Hshape. cbn [length Nat.leb Nat.sub nth].
  f_equal. apply Hget; [assumption | apply clamped_row | assumption].
Qed.

End Position.


Section MarkEntries.
Variables (self : SelfAttention R) (proj : Linear R) (me x : tensor R)
  (B Hh N d hid : nat).
Hypothesis Hheads : sa_num_attention_heads self = Hh.
Hypothesis Hproj : linear_fits proj (Hh * d) hid.
Hypothesis Hme : shape me = [B; N; hid].
Hypothesis Hx : shape x = [B; Hh; N; d].
Hypothesis HH : 0 < Hh.




End MarkEntries.

End Entries.

(** ** The rank check of [disentangled_att_bias] *)

Lemma normalize_ok (r : tensor Z) s :
  dim r = 2 \/ dim r = 3 \/ dim r = 4 ->
  exists r1, normalize_relative_pos r s = (Ok r1, s)
             /\ dim r1 = 4 /\ size_neg r1 1 = size_neg r 1.
Proof.
  unfold normalize_relative_pos, dim, size_neg, dim.
  destruct r as [sh g]. cbn.
  intros [Hd | [Hd | Hd]];
    repeat (destruct sh as [| ? sh]; cbn in Hd; try lia);
    eexists; (split; [reflexivity |]); split; reflexivity.
Qed.

Lemma normalize_no_value_error (r : tensor Z) :
  dim r = 2 \/ dim r = 3 \/ dim r = 4 ->
  safe not_value_error (fun _ _ => True) (normalize_relative_pos r).
Proof.
  intros Hd. unfold normalize_relative_pos.
  destruct (dim r =? 2) eqn:H2; [apply safe_ret; auto |].
  destruct (dim r =? 3) eqn:H3; [apply safe_ret; auto |].
  destruct (dim r =? 4) eqn:H4; cbn; [apply safe_ret; auto |].
  apply Nat.eqb_neq in H2, H3, H4. lia.
Qed.

Lemma att_bias_no_value_error {R} `{Scalar R} (self : SelfAttention R) q k r re sf me mk :
  dim r = 2 \/ dim r = 3 \/ dim r = 4 ->
  safe not_value_error (fun _ _ => True)
       (disentangled_att_bias self q k (Some r) re sf me mk).
Proof.
  intros Hd. unfold disentangled_att_bias.
  cbv zeta.
  match goal with |- safe _ _ (bind (ret ?a) ?k) => change (bind (ret a) k) with (k a); cbv beta end.
  apply safe_bind; [safe_side | now apply normalize_no_value_error | intros r1].
  repeat safe_step.
Qed.

(** The rank check itself is as the claim on it says. For a supplied
    relative-position tensor (and a scale factor that is a natural number,
    as [forward] passes it), [disentangled_att_bias] raises a [ValueError],
    the one of lines 338-339, exactly when the rank is outside {2, 3, 4}; it
    then raises at once, with the counters as they were, so before any
    matrix product. *)
Theorem relative_pos_rank_check {R} `{Scalar R} (self : SelfAttention R)
    (q k : tensor R) (r : tensor Z) (re : option (tensor R)) (sf : nat)
    (me : option (tensor R)) (mk : option (tensor Z)) (s : counters) :
  ((exists msg, fst (disentangled_att_bias self q k (Some r) re sf me mk s)
                = Raise (ValueError msg))
   <-> ~ (dim r = 2 \/ dim r = 3 \/ dim r = 4))
  /\ (~ (dim r = 2 \/ dim r = 3 \/ dim r = 4) ->
      disentangled_att_bias self q k (Some r) re sf me mk s
      = (Raise (ValueError ("Relative position ids must be of dim 2 or 3 or 4. "
                            +:+ pretty (dim r))), s)).
Proof.
  assert (Hraise : ~ (dim r = 2 \/ dim r = 3 \/ dim r = 4) ->
                   disentangled_att_bias self q k (Some r) re sf me mk s
                   = (Raise (ValueError ("Relative position ids must be of dim 2 or 3 or 4. "
                                         +:+ pretty (dim r))), s)).
  { intros Hn. unfold disentangled_att_bias.
    cbv beta iota zeta delta [bind ret]. unfold normalize_relative_pos.
    destruct (Nat.eqb_spec (dim r) 2); [tauto |].
    destruct (Nat.eqb_spec (dim r) 3); [tauto |].
    destruct (Nat.eqb_spec (dim r) 4); [tauto |].
    reflexivity. }
  split; [| exact Hraise]. split.
  - intros [msg Hmsg] Hd.
    destruct (att_bias_no_value_error self q k r re sf me mk Hd s) as [_ He].
    exact (He _ Hmsg msg eq_refl).
  - intros Hn. rewrite (Hraise Hn). eauto.
Qed.

(** A tensor of rank five is refused with no matrix product performed. *)
Lemma relative_pos_rank_check_witness :
  disentangled_att_bias Sample.standard_attention (Sample.query_layer 2)
    (Sample.key_layer 2) (Some (Tensor [1; 1; 1; 4; 4] (fun _ => 0%Z)))
    (Some Sample.rel_embeddings) 3 None None Sample.s0
  = (Raise (ValueError "Relative position ids must be of dim 2 or 3 or 4. 5"), Sample.s0).
Proof.
  apply (relative_pos_rank_check Sample.standard_attention (Sample.query_layer 2)
           (Sample.key_layer 2) (Tensor [1; 1; 1; 4; 4] (fun _ => 0%Z))).
  cbn. lia.
Defined.

(** C8, the code departs from the claim. With a relative-position tensor of
    rank three, which the rank check accepts, the call still raises: on a
    batch of one sentence the debug messages of lines 423-424 format the
    rows of a second sentence ([IndexError]), and without the
    position-to-content term the returned tuple reads [p2c_att_orig], which
    no statement has bound ([UnboundLocalError]). The claim has an error
    only for a rank outside {2, 3, 4}. *)
Theorem valid_rank_still_raises :
  dim Sample.relative_pos = 3
  /\ fst (disentangled_att_bias Sample.standard_attention (Sample.query_layer 1)
            (Sample.key_layer 1) (Some Sample.relative_pos) (Some Sample.rel_embeddings)
            3 None None Sample.s0)
     = Raise (IndexError "index out of bounds")
  /\ fst (disentangled_att_bias (Sample.attention ["c2p"] (PInt 1) (PInt 1))
            (Sample.query_layer 2) (Sample.key_layer 2) (Some Sample.relative_pos)
            (Some Sample.rel_embeddings) 2 None None Sample.s0)
     = Raise (UnboundLocalError "p2c_att_orig").
Proof. repeat split; vm_compute; reflexivity. Qed.

(** ** C2: the bias against the standard two-term score *)

Lemma shape_p2c_att {R} (p2c_att : tensor R) (p2c_pos : tensor Z) (q k : tensor R) :
  shape (transpose_last2 (gather_last p2c_att (p2c_dynamic_expand p2c_pos q k)))
  = [size_at q 0; size_at q 1; size_neg k 2; size_neg k 2].
Proof. reflexivity. Qed.

Lemma subscript_fails {A} (t : tensor A) idx s :
  ~ Forall2 lt idx (take (length idx) (shape t)) ->
  subscript t idx s = (Raise (IndexError "index out of bounds"), s).
Proof. intros Hf. unfold subscript. now rewrite bool_decide_eq_false_2. Qed.

Section MainPath.
Context {R : Type} `{Scalar R}.

(** On the path that the encoder takes (relative positions supplied, query
    and key of one length, at least two sentences and one head) the first
    entry of the returned tuple is the standard score, failures included. *)
Lemma att_bias_matches_standard (self : SelfAttention R) (q k : tensor R)
    (r : tensor Z) (re : option (tensor R)) (sf : nat) me mk s :
  mem "c2p" (sa_pos_att_type self) = true ->
  mem "p2c" (sa_pos_att_type self) = true ->
  mem "c2p_pp" (sa_pos_att_type self) = false ->
  mem "p2c_pp" (sa_pos_att_type self) = false ->
  mem "c2m" (sa_pos_att_type self) = false ->
  mem "m2c" (sa_pos_att_type self) = false ->
  size_neg q 2 = size_neg k 2 ->
  1 < size_at q 0 -> 0 < size_at q 1 ->
  result_map (fun l => nth 0 l VNone)
             (fst (disentangled_att_bias self q k (Some r) re sf me mk s))
  = result_map score_val (fst (standard_att_bias self q k (Some r) re sf s)).
Proof.
  intros Hc2p Hp2c Hc2ppp Hp2cpp Hc2m Hm2c Hlen Hb Hh.
  unfold disentangled_att_bias, standard_att_bias.
  rewrite Hc2p, Hp2c, Hc2ppp, Hp2cpp, Hc2m, Hm2c, Hlen, Nat.eqb_refl.
  cbv beta iota zeta delta [bind ret raise read_local self_attr not_none apply_linear matmul
    tick orb andb negb].
  destruct (normalize_relative_pos r s) as [[r1 | e] s1]; [| reflexivity].
  destruct (sa_max_relative_positions self) as [max_rel |]; [| reflexivity].
  destruct re as [re |]; [| reflexivity].
  destruct (sa_pos_proj self) as [pp |]; [| destruct (sa_pos_q_proj self); reflexivity].
  destruct (sa_pos_q_proj self) as [pq |]; [| reflexivity].
  rewrite !subscript_ok.
  2,3: rewrite shape_p2c_att; cbn; repeat constructor; lia.
  cbv beta iota zeta delta [ret].
  destruct me, mk; reflexivity.
Qed.
End MainPath.

Section SingleBatch.
Context {R : Type} `{Scalar R}.

(** The debug messages format the rows of the second sentence whatever the
    log level: a batch of one sentence cannot get through. *)
Lemma att_bias_single_batch_raises (self : SelfAttention R) (q k : tensor R)
    (r : tensor Z) (re : tensor R) (sf : nat) me mk (max_rel : Z) (pp pq : Linear R) s :
  mem "c2p" (sa_pos_att_type self) = true ->
  mem "p2c" (sa_pos_att_type self) = true ->
  mem "c2p_pp" (sa_pos_att_type self) = false ->
  mem "p2c_pp" (sa_pos_att_type self) = false ->
  mem "c2m" (sa_pos_att_type self) = false ->
  mem "m2c" (sa_pos_att_type self) = false ->
  sa_max_relative_positions self = Some max_rel ->
  sa_pos_proj self = Some pp -> sa_pos_q_proj self = Some pq ->
  (dim r = 2 \/ dim r = 3 \/ dim r = 4) ->
  size_neg q 2 = size_neg k 2 ->
  size_at q 0 = 1 ->
  fst (disentangled_att_bias self q k (Some r) (Some re) sf me mk s)
  = Raise (IndexError "index out of bounds").
Proof.
  intros Hc2p Hp2c Hc2ppp Hp2cpp Hc2m Hm2c Hmax Hpp Hpq Hr Hlen Hb.
  destruct (normalize_ok r s Hr) as (r1 & Hnorm & _ & _).
  unfold disentangled_att_bias.
  rewrite Hc2p, Hp2c, Hc2ppp, Hp2cpp, Hc2m, Hm2c, Hmax, Hpp, Hpq, Hlen, Nat.eqb_refl.
  cbv beta iota zeta delta [bind ret raise read_local self_attr not_none apply_linear matmul
    tick orb andb negb].
  rewrite Hnorm.
  assert (Hcase : forall (X : Type) (a : X),
            match me with Some _ => match mk with Some _ | _ => a end | None => a end = a)
    by (intros X a; destruct me, mk; reflexivity).
  rewrite !Hcase. cbv beta iota zeta delta [ret].
  match goal with
  | |- context [subscript ?t [0; 0] ?s1] =>
      destruct (decide (Forall2 lt [0; 0] (take (length [0; 0]) (shape t)))) as [Hok | Hko];
      [rewrite (subscript_ok t [0; 0] Hok) | now rewrite (subscript_fails t [0; 0] s1 Hko)]
  end.
  cbv beta iota zeta delta [ret].
  match goal with
  | |- context [subscript ?t [1; 0] ?s1] =>
      rewrite (subscript_fails t [1; 0] s1); [reflexivity |]
  end.
  rewrite shape_p2c_att. cbn. rewrite Hb. intros Hf. inversion Hf; subst. lia.
Qed.
End SingleBatch.

(** [build_relative_position] is called but never imported. *)
Lemma att_bias_needs_relative_pos {R} `{Scalar R} (self : SelfAttention R)
    (q k : tensor R) re sf me mk s :
  disentangled_att_bias self q k None re sf me mk s
  = (Raise (NameError "build_relative_position"), s).
Proof. reflexivity. Qed.

(** C2, the code departs from the claim. With every optional term disabled
    and c2p, p2c enabled, [disentangled_att_bias] raises on a batch of one
    sentence ([IndexError], from the debug formatting) and when no relative
    positions are passed ([NameError], from the missing import), where the
    standard two-term score is defined. *)
Theorem att_bias_departs_from_standard :
  (fst (disentangled_att_bias Sample.standard_attention (Sample.query_layer 1)
          (Sample.key_layer 1) (Some Sample.relative_pos) (Some Sample.rel_embeddings)
          3 None None Sample.s0)
   = Raise (IndexError "index out of bounds")
   /\ exists score,
        fst (standard_att_bias Sample.standard_attention (Sample.query_layer 1)
               (Sample.key_layer 1) (Some Sample.relative_pos)
               (Some Sample.rel_embeddings) 3 Sample.s0) = Ok (ST score))
  /\ (fst (disentangled_att_bias Sample.standard_attention (Sample.query_layer 2)
             (Sample.key_layer 2) None (Some Sample.rel_embeddings)
             3 None None Sample.s0)
      = Raise (NameError "build_relative_position")
      /\ exists score,
           fst (standard_att_bias Sample.standard_attention (Sample.query_layer 2)
                  (Sample.key_layer 2) None (Some Sample.rel_embeddings) 3 Sample.s0)
           = Ok (ST score)).
Proof.
  split; split.
  - vm_compute. reflexivity.
  - eexists. reflexivity.
  - reflexivity.
  - eexists. reflexivity.
Qed.

(** ** C1: selection by the marks in the pivot-phrase terms *)

Lemma relative_pos_fits_rank (r : tensor Z) (B Hh N : nat) :
  relative_pos_fits r B Hh N ->
  (dim r = 2 \/ dim r = 3 \/ dim r = 4) /\ size_neg r 1 = N.
Proof.
  unfold relative_pos_fits, dim, size_neg, dim.
  intros [-> | [-> | [-> | ->]]]; cbn; auto.
Qed.

Section PivotPhrase.
Context {R : Type} `{Scalar R}.

(** C1. With at least one pivot-phrase variant enabled ([c2p_pp], [p2c_pp]),
    marks and a pivot-phrase table supplied, and shapes that fit (a batch of
    at least two sentences, the two tables of [2 * max_relative_positions]
    rows), the call returns the tuple of the accumulated bias, the standard
    c2p and p2c tensors and the pivot-phrase c2p and p2c tensors, each the
    product of the query or key layer with the projected table that its
    source lines compute; their entries are spelled out at the end, a
    pivot-phrase entry being the product of the token vector with the
    projection of the pivot-phrase row for the relative position of the
    pair. At every (batch, head, query, key) index the
    accumulated bias is the sum of a c2p term and a p2c term, and the term of
    an enabled variant is a selection: the c2p term is the entry of the
    pivot-phrase tensor where the mark of the key token is 1 and the entry
    of the standard tensor elsewhere (so where it is 0), the p2c term
    likewise on the mark of the query token; it never blends or adds the
    two. The term of a variant that is not enabled is the standard entry. *)
Theorem pivot_phrase_selection (self : SelfAttention R) (q k : tensor R)
    (r : tensor Z) (re me : tensor R) (mk : tensor Z) (sf B Hh N d hid : nat)
    (max_rel : Z) (pp pq : Linear R) (c2p_pp p2c_pp : bool) (s : counters) :
  mem "c2p" (sa_pos_att_type self) = true ->
  mem "p2c" (sa_pos_att_type self) = true ->
  mem "c2p_pp" (sa_pos_att_type self) = c2p_pp ->
  mem "p2c_pp" (sa_pos_att_type self) = p2c_pp ->
  c2p_pp || p2c_pp = true ->
  mem "c2m" (sa_pos_att_type self) = false ->
  mem "m2c" (sa_pos_att_type self) = false ->
  sa_num_attention_heads self = Hh ->
  sa_max_relative_positions self = Some max_rel -> (0 < max_rel)%Z ->
  sa_pos_proj self = Some pp -> linear_fits pp (Hh * d) hid ->
  sa_pos_q_proj self = Some pq -> linear_fits pq (Hh * d) hid ->
  shape q = [B; Hh; N; d] -> shape k = [B; Hh; N; d] ->
  shape re = [Z.to_nat (2 * max_rel); hid] ->
  shape me = [Z.to_nat (2 * max_rel); hid] ->
  shape mk = [B; N] ->
  relative_pos_fits r B Hh N ->
  1 < B -> 0 < Hh -> 0 < N -> 0 < d ->
  exists r4 score,
    normalize_relative_pos r s = (Ok r4, s)
    /\ fst (disentangled_att_bias self q k (Some r) (Some re) sf (Some me) (Some mk) s)
       = Ok [VT score;
             VT (c2p_att_value self pp re q k r4 max_rel);
             VT (p2c_att_value self pq re q k r4 max_rel sf);
             if c2p_pp then VT (c2p_att_value self pp me q k r4 max_rel) else VNone;
             if p2c_pp then VT (p2c_att_pp_value self pq me q k r4 max_rel) else VNone]
    /\ shape score = [B; Hh; N; N]
    /\ forall b h i j, b < B -> h < Hh -> i < N -> j < N ->
       let idx := [b; h; i; j] in
       let span := att_span_value q k max_rel in
       get score idx =
       fadd (fadd (of_Z 0)
                  (selected c2p_pp (get mk [b; j])
                     (c2p_att_value self pp me q k r4 max_rel)
                     (c2p_att_value self pp re q k r4 max_rel) idx))
            (selected p2c_pp (get mk [b; i])
               (p2c_att_pp_value self pq me q k r4 max_rel)
               (p2c_att_value self pq re q k r4 max_rel sf) idx)
       /\ get (c2p_att_value self pp me q k r4 max_rel) idx
          = head_dot q b h i d
              (fun o => get (linear_value pp me)
                            [table_row max_rel span (bget r4 [b; h; i; j]); o])
       /\ get (c2p_att_value self pp re q k r4 max_rel) idx
          = head_dot q b h i d
              (fun o => get (linear_value pp re)
                            [table_row max_rel span (bget r4 [b; h; i; j]); o])
       /\ get (p2c_att_pp_value self pq me q k r4 max_rel) idx
          = head_dot k b h i d
              (fun o => get (linear_value pq me)
                            [table_row max_rel span (- bget r4 [b; h; i; j]); o])
       /\ get (p2c_att_value self pq re q k r4 max_rel sf) idx
          = head_dot k b h j d
              (fun o => fdiv (get (linear_value pq re)
                                  [table_row max_rel span (- bget r4 [b; h; j; i]); o])
                             (fsqrt (of_Z (Z.of_nat (d * sf))))).
Proof.
  intros Hc2p Hp2c Hc2ppp Hp2cpp Hany Hc2m Hm2c Hheads Hmax Hpos Hpp Hppf Hpq Hpqf Hq Hk
    Hre Hme Hmk Hfits HB HH HN Hd.
  destruct (relative_pos_fits_rank r B Hh N Hfits) as [Hr HrN].
  destruct (normalize_ok r s Hr) as (r1 & Hnorm & Hr1 & Hr1N).
  exists r1.
  unfold disentangled_att_bias.
  rewrite Hc2p, Hp2c, Hc2ppp, Hp2cpp, Hc2m, Hm2c, Hmax, Hpp, Hpq.
  assert (Hsq : forall n, size_at q n = nth n [B; Hh; N; d] 0)
    by (intros n; unfold size_at; now rewrite Hq).
  assert (Hq2 : size_neg q 2 = N) by (unfold size_neg, dim; now rewrite Hq).
  assert (Hk2 : size_neg k 2 = N) by (unfold size_neg, dim; now rewrite Hk).
  assert (Hmk0 : size_at mk 0 = B) by (unfold size_at; now rewrite Hmk).
  assert (Hmk1 : size_at mk 1 = N) by (unfold size_at; now rewrite Hmk).
  assert (Hlen : (size_neg q 2 =? size_neg k 2) = true)
    by (rewrite Hq2, Hk2; apply Nat.eqb_refl).
  assert (Hc2p_shape : forall (x : tensor R) (g : tensor Z),
            shape (gather_last x (c2p_dynamic_expand g q r1)) = [B; Hh; N; N])
    by (intros; cbn; rewrite !Hsq; cbn [nth]; congruence).
  assert (Hp2c_shape : forall (x : tensor R) (g : tensor Z),
            shape (gather_last x (p2c_dynamic_expand g q k)) = [B; Hh; N; N])
    by (intros; cbn; rewrite !Hsq, Hk2; cbn [nth]; congruence).
  assert (Hp2ct_shape : forall (x : tensor R) (g : tensor Z),
            shape (transpose_last2 (gather_last x (p2c_dynamic_expand g q k)))
            = [B; Hh; N; N])
    by (intros; cbn; rewrite !Hsq, Hk2; cbn [nth]; congruence).
  destruct c2p_pp, p2c_pp; try discriminate Hany.
  all: cbv beta iota zeta delta [bind ret raise read_local self_attr not_none apply_linear
      matmul tick orb andb negb matmuls refinement_steps].
  all: rewrite Hnorm.
  all: rewrite Hlen.
  all: cbv beta iota zeta delta [negb matmuls refinement_steps].
  all: repeat (rewrite subscript_ok
              by (cbn; rewrite ?Hmk0, ?Hmk1, ?Hsq, ?Hk2; cbn [nth]; rewrite ?pin_same;
                  repeat constructor; lia);
            cbv beta iota zeta delta [ret]).
  all: cbn [fst app].
  all: eexists; split; [reflexivity |]; split; [reflexivity |].
  all: unfold iadd_score; rewrite ?Hmk0, ?Hmk1; cbn [score_val].
  all: split;
    [ apply shape_tadd;
      [ cbn [tmap shape]; first [apply shape_where_key | idtac]
      | first [apply shape_where_query | idtac] ];
      first [apply Hc2p_shape | apply Hp2ct_shape | apply Hp2c_shape]
    | ].
  all: intros b h i j Hb Hh' Hi Hj; cbv zeta.
  all: split;
    [| split; [| split; [| split]];
       [ apply (get_c2p_att_value self pp me q k r1 B Hh N d hid max_rel)
       | apply (get_c2p_att_value self pp re q k r1 B Hh N d hid max_rel)
       | apply (get_p2c_att_pp_value self pq me q k r1 B Hh N d hid max_rel)
       | apply (get_p2c_att_value self pq re q k r1 B Hh N d hid max_rel) ];
       assumption ].
  all: unfold selected; cbn [andb].
  all: assert (Hin : Forall2 lt [b; h; i; j] [B; Hh; N; N])
         by (repeat constructor; assumption).
  all: rewrite (get_tadd _ _ [B; Hh; N; N]);
    [ cbn [tmap get]
    | cbn [tmap shape]; first [apply shape_where_key | idtac];
      first [apply Hc2p_shape | apply Hp2ct_shape | apply Hp2c_shape]
    | first [apply shape_where_query | idtac];
      first [apply Hc2p_shape | apply Hp2ct_shape | apply Hp2c_shape]
    | assumption ].
  all: rewrite ?(get_where_key mk _ _ B Hh N N), ?(get_where_query mk _ _ B Hh N N)
    by first [assumption | apply Hc2p_shape | apply Hp2ct_shape | apply Hp2c_shape].
  all: reflexivity.
Qed.
End PivotPhrase.

(** The statement applies to two sentences of four tokens with both variants. *)
Lemma pivot_phrase_selection_witness :
  exists r4 score,
    normalize_relative_pos Sample.relative_pos Sample.s0 = (Ok r4, Sample.s0)
    /\ fst (disentangled_att_bias Sample.pivot_attention (Sample.query_layer 2)
              (Sample.key_layer 2) (Some Sample.relative_pos) (Some Sample.rel_embeddings)
              5 (Some Sample.pivot_embeddings) (Some Sample.marks) Sample.s0)
       = Ok [VT score;
             VT (c2p_att_value Sample.pivot_attention (Sample.lin 8 8 1 2)
                   Sample.rel_embeddings (Sample.query_layer 2) (Sample.key_layer 2) r4 6);
             VT (p2c_att_value Sample.pivot_attention (Sample.lin 8 8 3 1)
                   Sample.rel_embeddings (Sample.query_layer 2) (Sample.key_layer 2) r4 6 5);
             VT (c2p_att_value Sample.pivot_attention (Sample.lin 8 8 1 2)
                   Sample.pivot_embeddings (Sample.query_layer 2) (Sample.key_layer 2) r4 6);
             VT (p2c_att_pp_value Sample.pivot_attention (Sample.lin 8 8 3 1)
                   Sample.pivot_embeddings (Sample.query_layer 2) (Sample.key_layer 2) r4 6)]
    /\ shape score = [2; 2; 4; 4]
    /\ forall b h i j, b < 2 -> h < 2 -> i < 4 -> j < 4 ->
       let idx := [b; h; i; j] in
       let span := att_span_value (Sample.query_layer 2) (Sample.key_layer 2) 6 in
       get score idx =
       fadd (fadd (of_Z 0)
                  (selected true (get Sample.marks [b; j])
                     (c2p_att_value Sample.pivot_attention (Sample.lin 8 8 1 2)
                        Sample.pivot_embeddings (Sample.query_layer 2)
                        (Sample.key_layer 2) r4 6)
                     (c2p_att_value Sample.pivot_attention (Sample.lin 8 8 1 2)
                        Sample.rel_embeddings (Sample.query_layer 2)
                        (Sample.key_layer 2) r4 6) idx))
            (selected true (get Sample.marks [b; i])
               (p2c_att_pp_value Sample.pivot_attention (Sample.lin 8 8 3 1)
                  Sample.pivot_embeddings (Sample.query_layer 2) (Sample.key_layer 2) r4 6)
               (p2c_att_value Sample.pivot_attention (Sample.lin 8 8 3 1)
                  Sample.rel_embeddings (Sample.query_layer 2) (Sample.key_layer 2) r4 6 5)
               idx)
       /\ get (c2p_att_value Sample.pivot_attention (Sample.lin 8 8 1 2)
                 Sample.pivot_embeddings (Sample.query_layer 2) (Sample.key_layer 2) r4 6)
              idx
          = head_dot (Sample.query_layer 2) b h i 4
              (fun o => get (linear_value (Sample.lin 8 8 1 2) Sample.pivot_embeddings)
                            [table_row 6 span (bget r4 [b; h; i; j]); o])
       /\ get (c2p_att_value Sample.pivot_attention (Sample.lin 8 8 1 2)
                 Sample.rel_embeddings (Sample.query_layer 2) (Sample.key_layer 2) r4 6)
              idx
          = head_dot (Sample.query_layer 2) b h i 4
              (fun o => get (linear_value (Sample.lin 8 8 1 2) Sample.rel_embeddings)
                            [table_row 6 span (bget r4 [b; h; i; j]); o])
       /\ get (p2c_att_pp_value Sample.pivot_attention (Sample.lin 8 8 3 1)
                 Sample.pivot_embeddings (Sample.query_layer 2) (Sample.key_layer 2) r4 6)
              idx
          = head_dot (Sample.key_layer 2) b h i 4
              (fun o => get (linear_value (Sample.lin 8 8 3 1) Sample.pivot_embeddings)
                            [table_row 6 span (- bget r4 [b; h; i; j]); o])
       /\ get (p2c_att_value Sample.pivot_attention (Sample.lin 8 8 3 1)
                 Sample.rel_embeddings (Sample.query_layer 2) (Sample.key_layer 2) r4 6 5)
              idx
          = head_dot (Sample.key_layer 2) b h j 4
              (fun o => fdiv (get (linear_value (Sample.lin 8 8 3 1) Sample.rel_embeddings)
                                  [table_row 6 span (- bget r4 [b; h; j; i]); o])
                             (fsqrt (of_Z (Z.of_nat (4 * 5))))).
Proof.
  apply (pivot_phrase_selection Sample.pivot_attention (Sample.query_layer 2)
           (Sample.key_layer 2) Sample.relative_pos Sample.rel_embeddings
           Sample.pivot_embeddings Sample.marks 5 2 2 4 4 8 6%Z
           (Sample.lin 8 8 1 2) (Sample.lin 8 8 3 1) true true Sample.s0);
    try reflexivity; try (cbn; lia); try (split; [reflexivity | exact Logic.I]).
  right. left. reflexivity.
Defined.

(** ** C6: accumulation of the mark terms *)

Section MarkTerms.
Context {R : Type} `{Scalar R}.





End MarkTerms.



(** Case analysis on the outcome of the first computation of a bind. *)
Ltac bind_case :=
  match goal with
  | |- context [match ?c with (_, _) => _ end] =>
      let a := fresh "a" in let e := fresh "e" in let s := fresh "s" in
      let Hc := fresh "Hc" in
      destruct c as [[a | e] s] eqn:Hc
  end.

(** ** C4: padding positions and the classification loss *)

(** Row-major offsets of a [B x N x C] tensor seen as [(B * N) x C]. *)
Lemma unravel_position (B N C p c : nat) :
  0 < N -> c < C ->
  unravel [B; N; C] (ravel [B * (N * (C * 1)) / C; C] [p; c]) = [p / N; p mod N; c].
Proof.
  intros HN Hc. unfold unravel, ravel, prod_list. cbn [foldr].
  rewrite !Nat.mul_1_r, Nat.add_0_r, Nat.div_1_r.
  assert (Hp : p * C + c = (p / N) * (N * C) + ((p mod N) * C + c)).
  { pose proof (Nat.div_mod_eq p N). nia. }
  assert (Hlt : (p mod N) * C + c < N * C).
  { pose proof (Nat.mod_upper_bound p N). nia. }
  rewrite Hp, div_row, mod_row by exact Hlt.
  rewrite div_row, mod_row by exact Hc. reflexivity.
Qed.

Lemma unravel_flat (B N p : nat) :
  unravel [B; N] (ravel [B * (N * 1)] [p]) = [p / N; p mod N].
Proof.
  unfold unravel, ravel, prod_list. cbn [foldr].
  now rewrite !Nat.mul_1_r, Nat.add_0_r, Nat.div_1_r.
Qed.

Section Loss.
Context {R : Type} `{Scalar R}.
Variable nll : list R -> Z -> R.

(** C4. With labels and an attention mask supplied, the classification loss
    is the same for any two logit tensors that agree wherever the mask is
    not 0: what is predicted at a position of mask 0 never reaches the loss
    (its label is replaced by the ignore index, which the mean skips). *)
Theorem padding_outside_loss (num_labels B N : nat) (logits logits' : tensor R)
    (labels attention_mask : tensor Z) (s : counters) :
  0 < num_labels ->
  shape logits = [B; N; num_labels] -> shape logits' = [B; N; num_labels] ->
  shape labels = [B; N] -> shape attention_mask = [B; N] ->
  (forall b t c, b < B -> t < N -> c < num_labels ->
     get attention_mask [b; t] <> 0%Z ->
     get logits [b; t; c] = get logits' [b; t; c]) ->
  classification_loss nll num_labels logits labels (Some attention_mask) s
  = classification_loss nll num_labels logits' labels (Some attention_mask) s.
Proof.
  intros Hnl Hl Hl' Hlab Hmask Hagree.
  unfold classification_loss, cross_entropy.
  set (target := where_ _ _ _).
  assert (Hsize0 : forall x : tensor R, size_at (view x [B * (N * (num_labels * 1)) / num_labels; num_labels]) 0
            = B * N).
  { intros x. unfold size_at. cbn.
    replace (B * (N * (num_labels * 1))) with ((B * N) * num_labels) by lia.
    now rewrite Nat.div_mul by lia. }
  rewrite Hl, Hl'. unfold prod_list. cbn [foldr].
  rewrite !Hsize0.
  change (size_at (view logits [B * (N * (num_labels * 1)) / num_labels; num_labels]) 1)
    with num_labels.
  change (size_at (view logits' [B * (N * (num_labels * 1)) / num_labels; num_labels]) 1)
    with num_labels.
  destruct (forallb _ _); [| reflexivity].
  unfold ret. do 3 f_equal.
  apply foldl_ext_in. intros p acc Hp.
  apply list_elem_of_filter in Hp as [Hkeep Hp].
  apply elem_of_seq in Hp.
  f_equal. f_equal.
  unfold row_values.
  change (size_at (view logits [B * (N * (num_labels * 1)) / num_labels; num_labels]) 1)
    with num_labels.
  change (size_at (view logits' [B * (N * (num_labels * 1)) / num_labels; num_labels]) 1)
    with num_labels.
  apply map_ext_in. intros c Hc. apply in_seq in Hc.
  assert (HN : 0 < N) by nia.
  unfold view. cbn [get]. rewrite Hl, Hl'.
  rewrite !unravel_position by lia.
  apply Hagree; try lia.
  - apply Nat.Div0.div_lt_upper_bound. lia.
  - now apply Nat.mod_upper_bound, Nat.neq_0_lt_0.
  - intros Hzero. apply Hkeep.
    subst target. unfold where_, bget, eq_scalar, tmap, flatten, view. cbn [get shape].
    rewrite Hmask. unfold prod_list. cbn [foldr].
    replace (bidx [B * (N * 1)] [p]) with [p]
      by (unfold bidx; cbn; rewrite pin_lt by lia; reflexivity).
    now rewrite unravel_flat, Hzero.
Qed.
End Loss.

Section ReturnedLoss.
Context {R : Type} `{Scalar R}.
Variable xsoftmax : tensor R -> tensor Z -> tensor R.
Variable nll : list R -> Z -> R.

(** The loss at the head of the returned tuple is the classification loss of
    the logits that follow it. *)
Lemma second_pass_returns_loss (self : Head R) ids am tt pos ie (labels : tensor Z)
    oa ohs rd VAT mode mk p s out s' :
  second_pass xsoftmax nll self ids am tt pos ie (Some labels) oa ohs rd VAT mode mk p s
  = (Ok out, s') ->
  exists loss logits rest s1,
    out = ILoss loss :: ITensor logits :: rest
    /\ classification_loss nll (h_num_labels self) logits labels am s1 = (Ok loss, s').
Proof.
  unfold second_pass.
  unfold bind at 1. bind_case; [| discriminate]. destruct a as [outputs ie'].
  unfold bind at 1. bind_case; [| discriminate].
  unfold bind at 1. bind_case; [| discriminate].
  unfold bind at 1. bind_case; [| discriminate].
  unfold bind at 1. bind_case; [| discriminate].
  cbv zeta.
  unfold bind at 1. bind_case; [| discriminate].
  intros [= <- <-]. eauto 10.
Qed.
End ReturnedLoss.

(** The logits may change at the padding position of the sample batch. *)
Lemma padding_outside_loss_witness :
  classification_loss Sample.nll 3 Sample.logits Sample.labels
    (Some Sample.attention_mask) Sample.s0
  = classification_loss Sample.nll 3 Sample.logits_changed Sample.labels
      (Some Sample.attention_mask) Sample.s0.
Proof.
  apply (padding_outside_loss Sample.nll 3 2 4); try reflexivity; [lia |].
  intros b t c _ _ _ Hmask. unfold Sample.logits_changed. cbn [get take].
  destruct (Z.eqb_spec (get Sample.attention_mask [b; t]) 0); [contradiction | reflexivity].
Defined.

(** ** C5: the perturbation of the second pass *)

#[export] Instance Qc_scalar_laws : ScalarLaws Qc.
Proof. split; apply Qc_is_canon; reflexivity. Qed.

Section Vat.
Context {R : Type} `{ScalarLaws R}.
Variable xsoftmax : tensor R -> tensor Z -> tensor R.
Variable nll : list R -> Z -> R.
Variable autograd : (tensor R -> option R) -> tensor R -> tensor R.






End Vat.


(** ** C10: the refinement loop of the model *)

Section SafeMore.
Context (E : exn -> Prop) (I : counters -> counters -> Prop).
Hypothesis I_refl : forall s, I s s.

Lemma safe_attr {R} (d : gmap string (pyval R)) name :
  E (AttributeError name) -> safe E I (attr d name).
Proof. intros He. unfold attr. destruct (d !! name); [apply safe_ret | apply safe_raise]; auto. Qed.

Lemma safe_from_end {A} k (l : list A) :
  (forall m, E (IndexError m)) -> safe E I (from_end k l).
Proof.
  intros He. unfold from_end.
  destruct (if k <=? length l then l !! (length l - k) else None);
    [apply safe_ret | apply safe_raise]; auto.
Qed.
End SafeMore.

Ltac safe_more :=
  lazymatch goal with
  | |- safe _ _ (attr _ _) => apply safe_attr; [safe_side.. | safe_exn]
  | |- safe _ _ (from_end _ _) => apply safe_from_end; [safe_side.. | safe_exn]
  | |- safe _ _ (normalize_relative_pos _) => unfold normalize_relative_pos
  | |- safe _ _ (add_rel_att _ _) => unfold add_rel_att
  | |- safe _ _ (add_perturbation _ _ _) => unfold add_perturbation
  | |- _ => safe_step
  end.

Section Frame.
Context {R : Type} `{Scalar R}.
Variable xsoftmax : tensor R -> tensor Z -> tensor R.

Lemma frame_att_bias (self : SelfAttention R) q k r re sf me mk :
  safe (fun _ => True) same_refinement
    (disentangled_att_bias self q k r re sf me mk).
Proof. unfold disentangled_att_bias. cbv zeta. repeat safe_more. Qed.

Lemma frame_attention_forward (self : SelfAttention R) hs am ra qs r re me mk :
  safe (fun _ => True) same_refinement
    (attention_forward xsoftmax self hs am ra qs r re me mk).
Proof.
  unfold attention_forward, attention_scores, qkv_projection, raw_attention_scores.
  cbv zeta. repeat first [apply frame_att_bias | safe_more].
Qed.

Lemma frame_layer_forward (self : Layer R) hs am ra qs r re me mk :
  safe (fun _ => True) same_refinement
    (layer_forward xsoftmax self hs am ra qs r re me mk).
Proof.
  unfold layer_forward, custom_attention_forward.
  cbv zeta. repeat first [apply frame_attention_forward | safe_more].
Qed.

Lemma frame_encoder_loop (layers : list (Layer R)) am ohs oa r re me mk h kv qs ahs aas :
  safe (fun _ => True) same_refinement
    (encoder_loop xsoftmax layers am ohs oa r re me mk h kv qs ahs aas).
Proof.
  revert h kv qs ahs aas. induction layers as [| l layers IH]; intros h kv qs ahs aas.
  - cbn. apply safe_ret. safe_side.
  - cbn [encoder_loop]. cbv zeta.
    repeat first [apply IH | apply frame_layer_forward | safe_more].
Qed.

Lemma frame_encoder_forward (self : Encoder R) h am ohs oa qs r mk :
  safe (fun _ => True) same_refinement
    (encoder_forward xsoftmax self h am ohs oa qs r mk).
Proof.
  unfold encoder_forward. cbv zeta.
  repeat first [apply frame_encoder_loop | safe_more].
Qed.

Lemma frame_embeddings_forward (self : Embeddings R) ids tt pos mask ie :
  safe (fun _ => True) same_refinement
    (embeddings_forward self ids tt pos mask ie).
Proof. unfold embeddings_forward. cbv zeta. repeat safe_more. Qed.

Lemma from_end_last {A} (l : list A) (x : A) : from_end 1 (l ++ [x]) = ret x.
Proof.
  unfold from_end. rewrite length_app. cbn [length].
  replace (1 <=? length l + 1) with true by (symmetry; apply Nat.leb_le; lia).
  replace (length l + 1 - 1) with (length l + 0) by lia.
  now rewrite lookup_app_r, Nat.add_0_r, Nat.sub_diag by lia.
Qed.

Lemma encoder_forward_hidden_states (self : Encoder R) h am oa qs r mk s enc s' :
  encoder_forward xsoftmax self h am true oa qs r mk s = (Ok enc, s') ->
  exists l, eo_all_hidden_states enc = Some (l ++ [eo_hidden_states enc]).
Proof.
  unfold encoder_forward. cbv zeta.
  unfold bind at 1. bind_case; [| discriminate].
  unfold bind at 1. bind_case; [| discriminate].
  destruct a0 as [[h' ahs] aas]. intros [= <- <-]. cbn. eauto.
Qed.

Lemma encoder_loop_last (ls : list (Layer R)) (l : Layer R) am ohs oa r re me mk
    h kv qs ahs aas s h' ahs' aas' s' :
  encoder_loop xsoftmax (ls ++ [l]) am ohs oa r re me mk h kv qs ahs aas s
  = (Ok (h', ahs', aas'), s') ->
  exists kv1 qs1 me1 s1 s2 att,
    layer_forward xsoftmax l kv1 am oa qs1 r re me1 mk s1 = (Ok (h', att), s2).
Proof.
  revert h kv qs ahs aas s.
  induction ls as [| x ls IH]; intros h kv qs ahs aas s; cbn [app encoder_loop]; cbv zeta.
  - unfold bind at 1. bind_case; [| discriminate].
    unfold bind at 1. bind_case; [| discriminate].
    destruct a0 as [h1 att].
    unfold bind at 1. bind_case; [| discriminate].
    cbn [encoder_loop]. intros [= <- <- <- <-]. eauto 10.
  - unfold bind at 1. bind_case; [| discriminate].
    unfold bind at 1. bind_case; [| discriminate].
    destruct a0 as [h1 att].
    unfold bind at 1. bind_case; [| discriminate].
    apply IH.
Qed.

Lemma encoder_forward_last_layer (self : Encoder R) h am ohs oa qs r mk s enc s' ls l :
  encoder_forward xsoftmax self h am ohs oa qs r mk s = (Ok enc, s') ->
  enc_layer self = ls ++ [l] ->
  exists kv qs1 am1 r1 re me s1 s2 att,
    layer_forward xsoftmax l kv am1 oa qs1 r1 re me mk s1
    = (Ok (eo_hidden_states enc, att), s2).
Proof.
  unfold encoder_forward. cbv zeta. intros Hrun Hlayers. rewrite Hlayers in Hrun.
  revert Hrun.
  unfold bind at 1. bind_case; [| discriminate].
  unfold bind at 1. bind_case; [| discriminate].
  destruct a0 as [[h' ahs] aas]. intros [= <- <-]. cbn [eo_hidden_states].
  match goal with
  | Hloop : encoder_loop _ _ _ _ _ _ _ _ _ _ _ _ _ _ _ = _ |- _ =>
      destruct (encoder_loop_last _ _ _ _ _ _ _ _ _ _ _ _ _ _ _ _ _ _ _ Hloop)
        as (kv1 & qs1 & me1 & sa & sb & att & Hlast)
  end.
  eauto 12.
Qed.

Lemma model_init_z_steps (cfg : config R) (parts : ModelParts R) s m s1 :
  model_init cfg parts s = (Ok m, s1) -> m_z_steps m = 0%Z.
Proof.
  unfold model_init.
  unfold bind at 1. bind_case; [| discriminate].
  unfold bind at 1. bind_case; [| discriminate].
  destruct a0 as [encoder cfg']. now intros [= <- <-].
Qed.

Lemma frame_model_forward (m : Model R) ids am tt pos ie oa ohs rd VAT p mode mk :
  m_z_steps m = 0%Z ->
  safe (fun _ => True) same_refinement
    (model_forward xsoftmax m ids am tt pos ie oa ohs rd VAT p mode mk).
Proof.
  intros Hz. unfold model_forward. rewrite Hz. cbv zeta.
  change (1 <? 0)%Z with false. cbv iota.
  repeat first [apply frame_encoder_forward | apply frame_embeddings_forward | safe_more].
Qed.

(** C10. A model built by [__init__] has [z_steps = 0]; every call of its
    [forward] leaves the count of refinement steps as it was, and whenever
    the call returns, the first entry of the result (the last hidden state)
    is the hidden state that the encoder's loop over the layers ended with,
    which is the output of the last layer when there is one. *)
Theorem refinement_loop_never_runs (cfg : config R) (parts : ModelParts R)
    (s0 s1 : counters) (m : Model R) :
  model_init cfg parts s0 = (Ok m, s1) ->
  m_z_steps m = 0%Z
  /\ forall input_ids attention_mask token_type_ids position_ids inputs_embeds
            output_attentions output_hidden_states return_dict VAT perturbation mode
            marks s,
      let outcome := model_forward xsoftmax m input_ids attention_mask token_type_ids
                   position_ids inputs_embeds output_attentions output_hidden_states
                   return_dict VAT perturbation mode marks s in
      refinement_steps (snd outcome) = refinement_steps s
      /\ forall out ie, fst outcome = Ok (out, ie) ->
         exists embedding_output mask oa sa sb enc,
           encoder_forward xsoftmax (m_encoder m) embedding_output mask true oa
             None None marks sa = (Ok enc, sb)
           /\ head out = Some (ITensor (eo_hidden_states enc))
           /\ forall ls l, enc_layer (m_encoder m) = ls ++ [l] ->
                exists kv qs am r re me s2 s3 att,
                  layer_forward xsoftmax l kv am oa qs r re me marks s2
                  = (Ok (eo_hidden_states enc, att), s3).
Proof.
  intros Hinit. pose proof (model_init_z_steps _ _ _ _ _ Hinit) as Hz.
  split; [exact Hz |].
  intros ids am tt pos ie oa ohs rd VAT p mode mk s outcome. split.
  - exact (proj1 (frame_model_forward m ids am tt pos ie oa ohs rd VAT p mode mk Hz s)).
  - subst outcome. unfold model_forward. rewrite Hz. cbv zeta.
    change (1 <? 0)%Z with false. cbv iota.
    intros out ie'.
    unfold bind at 1. bind_case; [| discriminate].
    unfold bind at 1. bind_case; [| discriminate].
    destruct a0 as [embedding_output ie1].
    unfold bind at 1. bind_case; [| discriminate].
    unfold bind at 1. bind_case; [| discriminate].
    match goal with
    | Henc : encoder_forward _ _ ?e ?msk _ ?o _ _ _ ?sa = (Ok ?enc, ?sb) |- _ =>
        destruct (encoder_forward_hidden_states _ _ _ _ _ _ _ _ _ _ Henc) as [l Hl];
        rename Henc into Hrun
    end.
    rewrite Hl. cbn [read_local].
    cbv beta iota zeta delta [bind ret]. rewrite from_end_last.
    cbv beta iota zeta delta [ret]. cbn [fst]. intros [= <- <-].
    do 6 eexists. split; [exact Hrun |]. split; [reflexivity |].
    intros ls lay Hlayers.
    destruct (encoder_forward_last_layer _ _ _ _ _ _ _ _ _ _ _ _ _ Hrun Hlayers)
      as (kv & qs1 & am1 & r1 & re & me & sa & sb & att & Hlast).
    eauto 12.
Qed.

End Frame.

(** A one-layer model built from the sample parts. *)
Lemma refinement_loop_never_runs_witness :
  exists m s1,
    model_init Sample.vat_cfg Sample.model_parts Sample.s0 = (Ok m, s1)
    /\ m_z_steps m = 0%Z
    /\ forall s, refinement_steps
                   (snd (model_forward Sample.xsoftmax m (Some Sample.input_ids)
                           (Some Sample.attention_mask) None None None None None None
                           false (VInt 0) None (Some Sample.marks) s))
                 = refinement_steps s.
Proof.
  eexists. eexists. split; [reflexivity |].
  match goal with
  | |- m_z_steps ?m = _ /\ _ =>
      destruct (refinement_loop_never_runs Sample.xsoftmax Sample.vat_cfg
                  Sample.model_parts Sample.s0 Sample.s0 m eq_refl) as [Hz Hrun]
  end.
  split; [exact Hz |]. intros s.
  exact (proj1 (Hrun (Some Sample.input_ids) (Some Sample.attention_mask) None None None
                  None None None false (VInt 0) None (Some Sample.marks) s)).
Defined.

(** * Further properties of the module *)

(** ** Padding, labels and the classification loss *)

Lemma forallb_ext_elem {A} (f g : A -> bool) (l : list A) :
  (forall x, x ∈ l -> f x = g x) -> forallb f l = forallb g l.
Proof.
  induction l as [| x l IH]; intros Hfg; [reflexivity |].
  cbn. rewrite (Hfg x) by constructor. f_equal.
  apply IH. intros y Hy. apply Hfg. now constructor.
Qed.

Lemma filter_ext_elem {A} (P Q : A -> Prop) `{!forall x, Decision (P x)}
    `{!forall x, Decision (Q x)} (l : list A) :
  (forall x, x ∈ l -> P x <-> Q x) -> filter P l = filter Q l.
Proof.
  induction l as [| x l IH]; intros HPQ; [reflexivity |].
  rewrite !filter_cons.
  rewrite IH by (intros y Hy; apply HPQ; now constructor).
  destruct (decide (P x)) as [HP | HP], (decide (Q x)) as [HQ | HQ]; try reflexivity.
  - exfalso. apply HQ. apply HPQ; [constructor | exact HP].
  - exfalso. apply HP. apply HPQ; [constructor | exact HQ].
Qed.

Section LossLabels.
Context {R : Type} `{Scalar R}.
Variable nll : list R -> Z -> R.

(** The target of position [p] once the mask has been applied. *)
Lemma active_label_get (B N p : nat) (labels attention_mask : tensor Z) :
  shape labels = [B; N] -> shape attention_mask = [B; N] -> p < B * N ->
  get (where_ (eq_scalar (flatten attention_mask) 1) (flatten labels)
         (Tensor [] (fun _ => ignore_index))) [p]
  = if Z.eqb (get attention_mask [p / N; p mod N]) 1
    then get labels [p / N; p mod N] else ignore_index.
Proof.
  intros Hl Hm Hp.
  unfold where_, bget, eq_scalar, tmap, flatten, view. cbn [get shape].
  rewrite Hl, Hm. unfold prod_list. cbn [foldr].
  replace (bidx [B * (N * 1)] [p]) with [p]
    by (unfold bidx; cbn; rewrite pin_lt by lia; reflexivity).
  now rewrite unravel_flat.
Qed.

Lemma flat_label_get (B N p : nat) (labels : tensor Z) :
  shape labels = [B; N] ->
  get (flatten labels) [p] = get labels [p / N; p mod N].
Proof.
  intros Hl. unfold flatten, view. cbn [get]. rewrite Hl. unfold prod_list. cbn [foldr].
  now rewrite unravel_flat.
Qed.

Lemma positions_count (num_labels B N : nat) (logits : tensor R) :
  0 < num_labels -> shape logits = [B; N; num_labels] ->
  size_at (view logits [prod_list (shape logits) / num_labels; num_labels]) 0 = B * N.
Proof.
  intros Hnl Hl. rewrite Hl. unfold size_at, prod_list. cbn.
  replace (B * (N * (num_labels * 1))) with ((B * N) * num_labels) by lia.
  now rewrite Nat.div_mul by lia.
Qed.

Lemma position_split (B N p : nat) : p < B * N -> p / N < B /\ p mod N < N.
Proof.
  intros Hp. assert (0 < N) by nia. split.
  - apply Nat.Div0.div_lt_upper_bound. lia.
  - apply Nat.mod_upper_bound. lia.
Qed.

(** The loss of two target tensors that agree on the positions of the logits. *)
Lemma cross_entropy_ext (logits : tensor R) (t t' : tensor Z) s :
  (forall p, p < size_at logits 0 -> get t [p] = get t' [p]) ->
  cross_entropy nll logits t s = cross_entropy nll logits t' s.
Proof.
  intros Heq. unfold cross_entropy.
  assert (Hall : forallb (fun p => target_ok (size_at logits 1) (get t [p]))
                   (seq 0 (size_at logits 0))
                 = forallb (fun p => target_ok (size_at logits 1) (get t' [p]))
                     (seq 0 (size_at logits 0))).
  { apply forallb_ext_elem. intros p Hp. apply elem_of_seq in Hp. now rewrite Heq by lia. }
  assert (Hkept : filter (fun p => get t [p] ≠ ignore_index) (seq 0 (size_at logits 0))
                  = filter (fun p => get t' [p] ≠ ignore_index) (seq 0 (size_at logits 0))).
  { apply filter_ext_elem. intros p Hp. apply elem_of_seq in Hp. now rewrite Heq by lia. }
  rewrite Hall, Hkept. clear Hall Hkept. destruct (forallb _ _); [| reflexivity].
  unfold ret. do 3 f_equal.
  apply foldl_ext_in. intros p acc Hp.
  apply list_elem_of_filter in Hp as [_ Hp]. apply elem_of_seq in Hp.
  now rewrite Heq by lia.
Qed.

(** X1. With an attention mask, the classification loss is the same for any
    two label tensors that agree wherever the mask is 1: a label at a
    position whose mask is not 1 is never read, the ignore index stands in
    for it. *)
Theorem labels_outside_loss (num_labels B N : nat) (logits : tensor R)
    (labels labels' attention_mask : tensor Z) (s : counters) :
  0 < num_labels ->
  shape logits = [B; N; num_labels] ->
  shape labels = [B; N] -> shape labels' = [B; N] -> shape attention_mask = [B; N] ->
  (forall b t, b < B -> t < N -> get attention_mask [b; t] = 1%Z ->
     get labels [b; t] = get labels' [b; t]) ->
  classification_loss nll num_labels logits labels (Some attention_mask) s
  = classification_loss nll num_labels logits labels' (Some attention_mask) s.
Proof.
  intros Hnl Hlog Hl Hl' Hm Hagree. unfold classification_loss.
  apply cross_entropy_ext. intros p Hp.
  rewrite (positions_count num_labels B N) in Hp by assumption.
  rewrite !(active_label_get B N) by assumption.
  destruct (position_split B N p Hp) as [Hb Ht].
  destruct (Z.eqb_spec (get attention_mask [p / N; p mod N]) 1) as [Hone |]; [| reflexivity].
  now apply Hagree.
Qed.

(** X2. A mask that is 1 everywhere gives the loss that the call computes
    without a mask. *)
Theorem full_mask_is_no_mask (num_labels B N : nat) (logits : tensor R)
    (labels attention_mask : tensor Z) (s : counters) :
  0 < num_labels ->
  shape logits = [B; N; num_labels] ->
  shape labels = [B; N] -> shape attention_mask = [B; N] ->
  (forall b t, b < B -> t < N -> get attention_mask [b; t] = 1%Z) ->
  classification_loss nll num_labels logits labels (Some attention_mask) s
  = classification_loss nll num_labels logits labels None s.
Proof.
  intros Hnl Hlog Hl Hm Hones. unfold classification_loss.
  apply cross_entropy_ext. intros p Hp.
  rewrite (positions_count num_labels B N) in Hp by assumption.
  rewrite (active_label_get B N), (flat_label_get B N) by assumption.
  destruct (position_split B N p Hp) as [Hb Ht].
  now rewrite Hones by assumption.
Qed.

(** X3. When no position has mask 1, the call raises nothing and returns the
    empty sum divided by a count of zero, whatever the logits and the labels
    (a nan in floating point). *)
Theorem all_padding_loss (num_labels B N : nat) (logits : tensor R)
    (labels attention_mask : tensor Z) (s : counters) :
  0 < num_labels ->
  shape logits = [B; N; num_labels] ->
  shape labels = [B; N] -> shape attention_mask = [B; N] ->
  (forall b t, b < B -> t < N -> get attention_mask [b; t] <> 1%Z) ->
  classification_loss nll num_labels logits labels (Some attention_mask) s
  = (Ok (fdiv f0 (of_Z 0)), s).
Proof.
  intros Hnl Hlog Hl Hm Hpad. unfold classification_loss.
  rewrite (cross_entropy_ext _ _ (Tensor [] (fun _ => ignore_index))).
  - unfold cross_entropy. cbn [get].
    assert (Hall : forall l : list nat,
              forallb (fun _ => target_ok (size_at
                (view logits [prod_list (shape logits) / num_labels; num_labels]) 1)
                ignore_index) l = true).
    { induction l as [| x l IH]; [reflexivity | exact IH]. }
    assert (Hkept : forall l : list nat, filter (fun _ : nat => ignore_index ≠ ignore_index) l = []).
    { induction l as [| x l IH]; [reflexivity |].
      rewrite filter_cons_False; [exact IH | intros Hne; now apply Hne]. }
    rewrite Hall, Hkept. reflexivity.
  - intros p Hp.
    rewrite (positions_count num_labels B N) in Hp by assumption.
    rewrite (active_label_get B N) by assumption.
    destruct (position_split B N p Hp) as [Hb Ht].
    destruct (Z.eqb_spec (get attention_mask [p / N; p mod N]) 1) as [Hone |]; [| reflexivity].
    now destruct (Hpad _ _ Hb Ht).
Qed.

Lemma forallb_seq_true (f : nat -> bool) (n : nat) :
  forallb f (seq 0 n) = true <-> forall p, p < n -> f p = true.
Proof.
  rewrite forallb_forall. split.
  - intros Hall p Hp. apply Hall. apply in_seq. lia.
  - intros Hall p Hp. apply in_seq in Hp. apply Hall. lia.
Qed.

(** X4. The loss returns when every label at a position of mask 1 is the
    ignore index or a class below [num_labels], and raises [IndexError] as
    soon as one is not; the labels at the other positions are not checked. *)
Theorem loss_label_bounds (num_labels B N : nat) (logits : tensor R)
    (labels attention_mask : tensor Z) (s : counters) :
  0 < num_labels ->
  shape logits = [B; N; num_labels] ->
  shape labels = [B; N] -> shape attention_mask = [B; N] ->
  let call := classification_loss nll num_labels logits labels (Some attention_mask) s in
  ((forall b t, b < B -> t < N -> get attention_mask [b; t] = 1%Z ->
      target_ok num_labels (get labels [b; t]) = true) ->
   exists loss, call = (Ok loss, s))
  /\ ((exists b t, b < B /\ t < N /\ get attention_mask [b; t] = 1%Z
                   /\ target_ok num_labels (get labels [b; t]) = false) ->
      call = (Raise (IndexError "Target out of bounds"), s)).
Proof.
  intros Hnl Hlog Hl Hm call. subst call. unfold classification_loss, cross_entropy.
  rewrite (positions_count num_labels B N) by assumption.
  change (size_at (view logits [prod_list (shape logits) / num_labels; num_labels]) 1)
    with num_labels.
  split.
  - intros Hok.
    rewrite (proj2 (forallb_seq_true _ _)); [unfold ret; eauto |].
    intros p Hp. rewrite (active_label_get B N) by assumption.
    destruct (position_split B N p Hp) as [Hb Ht].
    destruct (Z.eqb_spec (get attention_mask [p / N; p mod N]) 1) as [Hone |];
      [now apply Hok | reflexivity].
  - intros (b & t & Hb & Ht & Hone & Hbad).
    destruct (forallb _ _) eqn:Hall; [| reflexivity].
    exfalso. rewrite forallb_seq_true in Hall.
    specialize (Hall (b * N + t) ltac:(nia)).
    rewrite (active_label_get B N) in Hall by (try assumption; nia).
    rewrite div_row, mod_row, Hone in Hall by exact Ht. cbn in Hall. congruence.
Qed.

End LossLabels.

Lemma labels_outside_loss_witness :
  classification_loss Sample.nll 3 Sample.logits Sample.labels
    (Some Sample.attention_mask) Sample.s0
  = classification_loss Sample.nll 3 Sample.logits Sample.labels_changed
      (Some Sample.attention_mask) Sample.s0.
Proof.
  apply (labels_outside_loss Sample.nll 3 2 4); try reflexivity; [lia |].
  intros b t Hb Ht Hone.
  destruct b as [| [| b]]; [| | lia];
    (destruct t as [| [| [| [| t]]]]; [| | | | lia]); try reflexivity.
  discriminate Hone.
Defined.

Lemma full_mask_is_no_mask_witness :
  classification_loss Sample.nll 3 Sample.logits Sample.labels
    (Some Sample.full_mask) Sample.s0
  = classification_loss Sample.nll 3 Sample.logits Sample.labels None Sample.s0.
Proof.
  apply (full_mask_is_no_mask Sample.nll 3 2 4); try reflexivity; lia.
Defined.

Lemma all_padding_loss_witness :
  classification_loss Sample.nll 3 Sample.logits Sample.labels
    (Some Sample.empty_mask) Sample.s0
  = (Ok (fdiv f0 (of_Z 0)), Sample.s0).
Proof.
  apply (all_padding_loss Sample.nll 3 2 4); try reflexivity; [lia |].
  intros b t _ _. discriminate.
Defined.

Lemma loss_label_bounds_witness :
  (exists loss, classification_loss Sample.nll 3 Sample.logits Sample.labels
                  (Some Sample.attention_mask) Sample.s0 = (Ok loss, Sample.s0))
  /\ classification_loss Sample.nll 3 Sample.logits Sample.labels_out_of_range
       (Some Sample.attention_mask) Sample.s0
     = (Raise (IndexError "Target out of bounds"), Sample.s0).
Proof.
  split.
  - apply (loss_label_bounds Sample.nll 3 2 4 Sample.logits Sample.labels
             Sample.attention_mask Sample.s0); try reflexivity; [lia |].
    intros b t Hb Ht _.
    destruct b as [| [| b]]; [| | lia];
      (destruct t as [| [| [| [| t]]]]; [| | | | lia]); reflexivity.
  - apply (loss_label_bounds Sample.nll 3 2 4 Sample.logits Sample.labels_out_of_range
             Sample.attention_mask Sample.s0); try reflexivity; [lia |].
    exists 0, 0. repeat split; lia.
Defined.

(** ** Calls that cannot return *)

Lemma always_raises_raise {A} (e : exn) : always_raises (@raise A e).
Proof. intros s. now exists e. Qed.

Lemma always_raises_bind_l {A B} (c : M A) (k : A -> M B) :
  always_raises c -> always_raises (bind c k).
Proof.
  intros Hc s. destruct (Hc s) as [e He]. exists e. unfold bind.
  destruct (c s) as [[a | e'] s1]; cbn in *; congruence.
Qed.

Lemma always_raises_bind_post {A B} (P : A -> Prop) (c : M A) (k : A -> M B) :
  (forall s a s', c s = (Ok a, s') -> P a) ->
  (forall a, P a -> always_raises (k a)) -> always_raises (bind c k).
Proof.
  intros Hc Hk s. unfold bind. destruct (c s) as [[a | e] s1] eqn:Hrun.
  - apply Hk. eauto.
  - now exists e.
Qed.

Lemma always_raises_bind_r {A B} (c : M A) (k : A -> M B) :
  (forall a, always_raises (k a)) -> always_raises (bind c k).
Proof. intros Hk. apply (always_raises_bind_post (fun _ => True)); auto. Qed.

Lemma always_raises_bind_ret {A B} (a : A) (k : A -> M B) :
  always_raises (k a) -> always_raises (bind (ret a) k).
Proof. intros Hk s. exact (Hk s). Qed.

Ltac split_pairs :=
  repeat match goal with
         | x : (_ * _)%type |- _ => destruct x
         end.

Ltac raises_step :=
  lazymatch goal with
  | |- always_raises (bind (ret _) _) => apply always_raises_bind_ret; cbv beta iota
  | |- always_raises (bind (read_local _ None) _) =>
      apply always_raises_bind_l; apply always_raises_raise
  | |- always_raises (bind (raise _) _) =>
      apply always_raises_bind_l; apply always_raises_raise
  | |- always_raises (bind _ _) =>
      apply always_raises_bind_r; intros ?; split_pairs; cbv beta iota
  | |- always_raises (raise _) => apply always_raises_raise
  | |- always_raises (if ?b then _ else _) => destruct b
  | |- always_raises (match ?x with Some _ => _ | None => _ end) => destruct x
  end.

Section BiasNeedsPositionTerms.
Context {R : Type} `{Scalar R}.

(** X5. [disentangled_att_bias] cannot return unless both [c2p] and [p2c] are
    in [pos_att_type]: the tuple it builds reads [c2p_att_orig] and
    [p2c_att_orig], which only those two branches bind. Whatever the
    inputs, the call raises. *)
Theorem att_bias_needs_c2p_and_p2c (self : SelfAttention R) (q k : tensor R)
    (r : option (tensor Z)) (re : option (tensor R)) (sf : nat)
    (me : option (tensor R)) (mk : option (tensor Z)) :
  mem "c2p" (sa_pos_att_type self) = false \/ mem "p2c" (sa_pos_att_type self) = false ->
  always_raises (disentangled_att_bias self q k r re sf me mk).
Proof.
  intros [Hno | Hno]; unfold disentangled_att_bias; rewrite Hno; cbv zeta.
  - repeat raises_step.
  - repeat raises_step.
Qed.
End BiasNeedsPositionTerms.

Lemma att_bias_needs_c2p_and_p2c_witness :
  always_raises (disentangled_att_bias Sample.mark_only_attention (Sample.query_layer 2)
                   (Sample.key_layer 2) (Some Sample.relative_pos)
                   (Some Sample.rel_embeddings) 3 (Some Sample.mark_embeddings)
                   (Some Sample.marks)).
Proof.
  apply (att_bias_needs_c2p_and_p2c Sample.mark_only_attention). left. reflexivity.
Defined.

Section ReturnAtt.
Context {R : Type} `{Scalar R}.
Variable xsoftmax : tensor R -> tensor Z -> tensor R.

Lemma raw_scores_without_relative (self : SelfAttention R) q k v r re me mk s st s' :
  sa_relative_attention self = false ->
  raw_attention_scores self q k v r re me mk s = (Ok st, s') ->
  st_attns st = None /\ st_attention_scores st = st_c2c_att st.
Proof.
  intros Hrel. unfold raw_attention_scores. rewrite Hrel. cbv zeta.
  unfold matmul, bind, tick, ret, add_rel_att. cbn.
  now intros [= <- <-].
Qed.

Lemma scores_without_relative (self : SelfAttention R) h qs r re me mk s st s' :
  sa_relative_attention self = false ->
  attention_scores self h qs r re me mk s = (Ok st, s') ->
  st_attns st = None /\ st_attention_scores st = st_c2c_att st.
Proof.
  intros Hrel. unfold attention_scores.
  unfold bind at 1. bind_case; [| discriminate]. destruct a as [[ql kl] vl].
  now apply raw_scores_without_relative.
Qed.

(** X6. With relative attention disabled, [forward] with [return_att=True]
    raises whatever the inputs: the dictionary it builds reads [p2c_att] and
    [c2p_att], which are bound under relative attention only. *)
Theorem return_att_needs_relative_attention (self : SelfAttention R)
    (hidden_states : tensor R) (attention_mask : tensor Z)
    (query_states : option (tensor R)) (relative_pos : option (tensor Z))
    (rel_embeddings mark_embeddings : option (tensor R)) (marks : option (tensor Z)) :
  sa_relative_attention self = false ->
  always_raises (attention_forward xsoftmax self hidden_states attention_mask true
                   query_states relative_pos rel_embeddings mark_embeddings marks).
Proof.
  intros Hrel. unfold attention_forward. cbv zeta.
  apply (always_raises_bind_post (fun st => st_attns st = None)).
  { intros s st s' Hrun. now apply (scores_without_relative _ _ _ _ _ _ _ _ _ _ Hrel Hrun). }
  intros st Hst. rewrite Hst.
  repeat raises_step.
Qed.
End ReturnAtt.

Lemma return_att_needs_relative_attention_witness :
  always_raises (attention_forward Sample.xsoftmax Sample.plain_attention
                   Sample.hidden_states
                   (Sample.get_attention_mask Sample.attention_mask) true None None
                   None None None).
Proof.
  apply (return_att_needs_relative_attention Sample.xsoftmax Sample.plain_attention).
  reflexivity.
Defined.

(** ** The constructor of the attention module *)

Section Constructor.
Context {R : Type} `{Scalar R}.

Lemma mem_add_once_same (x : string) (l : list string) : mem x (add_once x l) = true.
Proof.
  unfold add_once. destruct (mem x l) eqn:Hx; [exact Hx |].
  unfold mem. apply bool_decide_eq_true. apply elem_of_app. right. constructor.
Qed.

Lemma mem_add_once_mono (x y : string) (l : list string) :
  mem x l = true -> mem x (add_once y l) = true.
Proof.
  unfold add_once. destruct (mem y l); [auto |].
  unfold mem. rewrite !bool_decide_eq_true. intros Hx. apply elem_of_app. now left.
Qed.

Lemma add_once_present (x : string) (l : list string) : mem x l = true -> add_once x l = l.
Proof. unfold add_once. now intros ->. Qed.

Lemma extended_pos_att_type_idem (attrs : gmap string (pyval R)) (pat : list string) :
  extended_pos_att_type attrs (extended_pos_att_type attrs pat)
  = extended_pos_att_type attrs pat.
Proof.
  unfold extended_pos_att_type. cbv zeta.
  destruct (truthy (getattr attrs "c2p_att_pp_enabled" (PBool false)));
  destruct (truthy (getattr attrs "p2c_att_pp_enabled" (PBool false)));
  destruct (truthy (getattr attrs "c2m" (PBool false)));
  destruct (truthy (getattr attrs "m2c" (PBool false)));
  repeat (rewrite add_once_present
            by (repeat first [apply mem_add_once_same | apply mem_add_once_mono]));
  reflexivity.
Qed.

(** What a successful [__init__] has done. *)
Lemma attention_init_inv (cfg : config R) (parts : AttentionParts R) s sa cfg' s' :
  attention_init cfg parts s = (Ok (sa, cfg'), s') ->
  heads_divide cfg
  /\ sa_pos_att_type sa = extended_pos_att_type (extra cfg) (default [] (pos_att_type cfg))
  /\ sa_num_attention_heads sa = Z.to_nat (num_attention_heads cfg)
  /\ sa_attention_head_size sa = Z.to_nat (hidden_size cfg ÷ num_attention_heads cfg)
  /\ sa_all_head_size sa = sa_num_attention_heads sa * sa_attention_head_size sa
  /\ cfg' = match pos_att_type cfg with
            | Some _ => set_pos_att_type cfg (sa_pos_att_type sa)
            | None => cfg
            end.
Proof.
  unfold attention_init.
  unfold bind at 1. bind_case; [| discriminate].
  unfold bind at 1. bind_case; [| discriminate].
  cbv zeta.
  unfold bind at 1. bind_case; [| discriminate].
  intros [= <- <- <-]. cbn.
  split; [| repeat split].
  match goal with Hc : check_heads cfg _ = _ |- _ => revert Hc end.
  unfold check_heads, heads_divide.
  destruct (Z.eqb_spec (num_attention_heads cfg) 0); [discriminate |].
  destruct (Z.eqb_spec (hidden_size cfg mod num_attention_heads cfg) 0); [| discriminate].
  auto.
Qed.

(** X7. After a successful [__init__] with a positive number of heads,
    [all_head_size] is [hidden_size]: the heads partition the hidden units. *)
Theorem attention_init_head_sizes (cfg : config R) (parts : AttentionParts R)
    (s s' : counters) (sa : SelfAttention R) (cfg' : config R) :
  (0 < num_attention_heads cfg)%Z -> (0 <= hidden_size cfg)%Z ->
  attention_init cfg parts s = (Ok (sa, cfg'), s') ->
  sa_all_head_size sa = Z.to_nat (hidden_size cfg)
  /\ sa_num_attention_heads sa * sa_attention_head_size sa = Z.to_nat (hidden_size cfg).
Proof.
  intros Hheads Hhid Hinit.
  destruct (attention_init_inv _ _ _ _ _ _ Hinit) as ([_ Hmod] & _ & Hn & Hsz & Hall & _).
  rewrite Hall, Hn, Hsz.
  assert (Heq : (Z.to_nat (num_attention_heads cfg)
                 * Z.to_nat (hidden_size cfg ÷ num_attention_heads cfg))%nat
                = Z.to_nat (hidden_size cfg)).
  { rewrite Z.quot_div_nonneg by lia.
    rewrite <- Z2Nat.inj_mul by (try apply Z.div_pos; lia).
    f_equal. pose proof (Z.div_mod (hidden_size cfg) (num_attention_heads cfg)). lia. }
  now rewrite Heq.
Qed.

End Constructor.

Lemma attention_init_head_sizes_witness :
  exists sa cfg' s',
    attention_init Sample.cfg Sample.attention_parts Sample.s0 = (Ok (sa, cfg'), s')
    /\ sa_all_head_size sa = 8 /\ sa_num_attention_heads sa * sa_attention_head_size sa = 8.
Proof.
  do 3 eexists. split; [reflexivity |].
  eapply (attention_init_head_sizes Sample.cfg Sample.attention_parts Sample.s0);
    [reflexivity | discriminate | reflexivity].
Defined.

(** ** The layers of one configuration *)

Section LayerStack.
Context {R : Type} `{Scalar R}.
Variable xsoftmax : tensor R -> tensor Z -> tensor R.

Lemma attention_init_config (cfg : config R) (parts : AttentionParts R) s sa cfg' s' :
  attention_init cfg parts s = (Ok (sa, cfg'), s') ->
  let pat := extended_pos_att_type (extra cfg) (default [] (pos_att_type cfg)) in
  sa_pos_att_type sa = pat
  /\ extra cfg' = extra cfg
  /\ pos_att_type cfg' = (match pos_att_type cfg with Some _ => Some pat | None => None end)
  /\ extended_pos_att_type (extra cfg') (default [] (pos_att_type cfg')) = pat.
Proof.
  intros Hinit pat.
  destruct (attention_init_inv _ _ _ _ _ _ Hinit) as (_ & Hpat & _ & _ & _ & ->).
  rewrite Hpat. fold pat.
  destruct (pos_att_type cfg) as [l |] eqn:Hl; cbn.
  - repeat split. subst pat. cbn. apply extended_pos_att_type_idem.
  - repeat split; [exact Hl |]. now rewrite Hl.
Qed.

Lemma layer_init_inv (cfg : config R) (parts : LayerParts R) s l cfg' s' :
  layer_init cfg parts s = (Ok (l, cfg'), s') ->
  attention_init cfg (lp_attention parts) s
  = (Ok (att_self (layer_attention l), cfg'), s').
Proof.
  unfold layer_init.
  unfold bind at 1. bind_case; [| discriminate]. destruct a as [sa cfg1].
  now intros [= <- <- <-].
Qed.

Lemma layers_init_config (parts : list (LayerParts R)) :
  forall (cfg : config R) s ls cfg' s',
    layers_init cfg parts s = (Ok (ls, cfg'), s') ->
    let pat := extended_pos_att_type (extra cfg) (default [] (pos_att_type cfg)) in
    (forall l, l ∈ ls -> sa_pos_att_type (att_self (layer_attention l)) = pat)
    /\ length ls = length parts
    /\ extra cfg' = extra cfg
    /\ extended_pos_att_type (extra cfg') (default [] (pos_att_type cfg')) = pat
    /\ (ls <> [] -> is_Some (pos_att_type cfg) -> pos_att_type cfg' = Some pat)
    /\ (is_Some (pos_att_type cfg') <-> is_Some (pos_att_type cfg)).
Proof.
  induction parts as [| p rest IH]; intros cfg s ls cfg' s'; cbn [layers_init].
  - unfold ret. intros [= <- <- <-]. repeat split; try tauto.
    intros l Hl. inversion Hl.
  - unfold bind at 1. bind_case; [| discriminate]. destruct a as [l cfg1].
    unfold bind at 1. bind_case; [| discriminate]. destruct a as [ls1 cfg2].
    unfold ret. intros [= <- <- <-].
    match goal with
    | Hl : layer_init _ _ _ = _, Hr : layers_init _ _ _ = _ |- _ =>
        apply layer_init_inv, attention_init_config in Hl;
        destruct Hl as (Hpat & Hextra & Hcfg & Hidem);
        destruct (IH _ _ _ _ _ Hr) as (Hall & Hlen & Hextra' & Hidem' & Hsome & Hiff)
    end.
    cbv zeta in *.
    set (pat := extended_pos_att_type (extra cfg) (default [] (pos_att_type cfg))) in *.
    rewrite Hidem in Hall, Hidem', Hsome.
    split; [| split; [| split; [| split; [| split]]]].
    + intros l' Hl'. apply elem_of_cons in Hl' as [-> | Hl']; [exact Hpat | now apply Hall].
    + cbn. now rewrite Hlen.
    + congruence.
    + exact Hidem'.
    + intros _ Hs. destruct ls1 as [| l1 ls1].
      * destruct rest; [| discriminate Hlen].
        cbn in *. match goal with Hr : ret _ _ = _ |- _ => injection Hr as <- <- end.
        rewrite Hcfg. destruct (pos_att_type cfg); [reflexivity | now destruct Hs].
      * apply Hsome; [discriminate |]. rewrite Hcfg.
        destruct (pos_att_type cfg); [eexists; reflexivity | now destruct Hs].
    + rewrite Hiff, Hcfg.
      destruct (pos_att_type cfg); [split; eauto | split; intros [x Hx]; discriminate].
Qed.

(** X8. All the layers built from one configuration hold the same
    [pos_att_type]: the names of the enabled extra terms, each appended once
    to the list of the configuration. The configuration comes back holding
    that extended list, and building further modules from it adds nothing. *)
Theorem layers_share_pos_att_type (cfg : config R) (parts : list (LayerParts R))
    (s s' : counters) (ls : list (Layer R)) (cfg' : config R) :
  layers_init cfg parts s = (Ok (ls, cfg'), s') ->
  let pat := extended_pos_att_type (extra cfg) (default [] (pos_att_type cfg)) in
  (forall l, l ∈ ls -> sa_pos_att_type (att_self (layer_attention l)) = pat)
  /\ (ls <> [] -> is_Some (pos_att_type cfg) -> pos_att_type cfg' = Some pat)
  /\ extended_pos_att_type (extra cfg') (default [] (pos_att_type cfg')) = pat.
Proof.
  intros Hinit pat.
  destruct (layers_init_config _ _ _ _ _ _ Hinit) as (Hall & _ & _ & Hidem & Hsome & _).
  auto.
Qed.

End LayerStack.

Lemma layers_share_pos_att_type_witness :
  exists ls cfg' s',
    layers_init Sample.pivot_cfg [Sample.layer_parts; Sample.layer_parts] Sample.s0
    = (Ok (ls, cfg'), s')
    /\ (forall l, l ∈ ls ->
          sa_pos_att_type (att_self (layer_attention l))
          = ["c2p"; "p2c"; "c2p_pp"; "p2c_pp"])
    /\ (ls <> [] -> is_Some (pos_att_type Sample.pivot_cfg) ->
        pos_att_type cfg' = Some ["c2p"; "p2c"; "c2p_pp"; "p2c_pp"])
    /\ extended_pos_att_type (extra cfg') (default [] (pos_att_type cfg'))
       = ["c2p"; "p2c"; "c2p_pp"; "p2c_pp"].
Proof.
  do 3 eexists. split; [reflexivity |].
  exact (layers_share_pos_att_type Sample.pivot_cfg
           [Sample.layer_parts; Sample.layer_parts] Sample.s0 _ _ _ eq_refl).
Defined.

(** ** Building and running the encoder *)

Section EncoderInit.
Context {R : Type} `{Scalar R}.
Variable xsoftmax : tensor R -> tensor Z -> tensor R.

(** What [add_extra_args] leaves in the attribute dictionary. *)
Lemma add_extra_args_extra (cfg : config R) (hparams : gmap string (pyval R)) s cfg1 s1 :
  add_extra_args cfg hparams s = (Ok cfg1, s1) ->
  is_Some (extra cfg1 !! "mark_embeddings")
  /\ forall name,
       name ∉ ["gamma"; "lr_adv"; "pivot_phrase_embeddings"; "c2p_att_pp_enabled";
               "p2c_att_pp_enabled"; "mark_embeddings"; "c2m"; "m2c"; "c2m_scalar";
               "m2c_scalar"; "mark_enhanced_classifier"] ->
       extra cfg1 !! name = extra cfg !! name.
Proof.
  unfold add_extra_args. cbv zeta.
  match goal with |- context [if ?b then _ else _] => destruct b end; [| discriminate].
  unfold ret. intros [= <- <-]. rewrite !extra_set_extra. split.
  - repeat first [rewrite lookup_insert_eq | rewrite lookup_insert_ne by done]. eauto.
  - intros name Hname.
    repeat (rewrite lookup_insert_ne;
            [| intros <-; apply Hname; apply (bool_decide_unpack _); vm_compute;
               exact Logic.I ]).
    reflexivity.
Qed.

Lemma encoder_init_inv (cfg : config R) (parts : EncoderParts R) s enc cfg' s' :
  encoder_init cfg parts s = (Ok (enc, cfg'), s') ->
  let relative := truthy (getattr (extra cfg) "relative_attention" (PBool false)) in
  enc_relative_attention enc = relative
  /\ enc_rel_embeddings enc = (if relative then Some (ep_rel_embeddings parts) else None)
  /\ enc_pivot_phrase_embeddings enc
     = (if relative && truthy (getattr (extra cfg) "pivot_phrase_embeddings" (PBool false))
        then Some (ep_pivot_phrase_embeddings parts) else None)
  /\ enc_mark_embeddings enc
     = (if relative && hasattr (extra cfg) "mark_embeddings"
        then Some (ep_mark_embeddings parts) else None)
  /\ length (enc_layer enc) = Nat.min (num_hidden_layers cfg) (length (ep_layers parts)).
Proof.
  unfold encoder_init.
  unfold bind at 1. bind_case; [| discriminate]. destruct a as [layers cfg1].
  cbv zeta.
  unfold bind at 1. bind_case; [| discriminate].
  unfold ret. intros [= <- <- <-]. cbn.
  match goal with
  | Hl : layers_init _ _ _ = _ |- _ =>
      destruct (layers_init_config _ _ _ _ _ _ Hl) as (_ & Hlen & Hextra & _)
  end.
  rewrite Hextra, Hlen, length_take. repeat split.
Qed.

(** X9. [add_extra_args] always sets the attribute [mark_embeddings] (to
    [None] by default), so an encoder built afterwards with relative
    attention owns a mark-embedding table, and its [forward] called without
    marks raises [TypeError] before any layer runs. *)
Theorem marks_required_after_add_extra_args (cfg cfg1 cfg2 : config R)
    (hparams : gmap string (pyval R)) (parts : EncoderParts R) (enc : Encoder R)
    (s0 s1 s2 s3 : counters) :
  truthy (getattr (extra cfg) "relative_attention" (PBool false)) = true ->
  add_extra_args cfg hparams s0 = (Ok cfg1, s1) ->
  encoder_init cfg1 parts s2 = (Ok (enc, cfg2), s3) ->
  forall hidden_states attention_mask output_hidden_states output_attentions
         query_states relative_pos s,
    encoder_forward xsoftmax enc hidden_states attention_mask output_hidden_states
      output_attentions query_states relative_pos None s
    = (Raise (TypeError "unsqueeze(): argument 'input' must be Tensor"), s).
Proof.
  intros Hrel Hadd Hinit.
  destruct (add_extra_args_extra _ _ _ _ _ Hadd) as [Hmark Hother].
  destruct (encoder_init_inv _ _ _ _ _ _ Hinit) as (Hr & _ & _ & Hm & _).
  assert (Hrel1 : truthy (getattr (extra cfg1) "relative_attention" (PBool false)) = true).
  { unfold getattr. rewrite Hother; [exact Hrel |].
    apply (bool_decide_unpack _). vm_compute. exact Logic.I. }
  rewrite Hrel1 in Hr, Hm. unfold hasattr in Hm.
  rewrite bool_decide_eq_true_2 in Hm by exact Hmark. cbn in Hm.
  intros h am ohs oa qs rp s.
  unfold encoder_forward. cbv zeta. rewrite Hm, Hr.
  reflexivity.
Qed.

(** X10. An encoder built from a configuration without relative attention,
    or with neither pivot-phrase embeddings nor a [mark_embeddings]
    attribute, raises [UnboundLocalError] on every [forward] once it has a
    layer: [mark_embeddings] is bound under those attributes only. *)
Theorem encoder_needs_mark_embeddings (cfg cfg' : config R) (parts : EncoderParts R)
    (enc : Encoder R) (s0 s1 : counters) :
  encoder_init cfg parts s0 = (Ok (enc, cfg'), s1) ->
  truthy (getattr (extra cfg) "relative_attention" (PBool false)) = false
  \/ (truthy (getattr (extra cfg) "pivot_phrase_embeddings" (PBool false)) = false
      /\ extra cfg !! "mark_embeddings" = None) ->
  enc_layer enc <> [] ->
  forall hidden_states attention_mask output_hidden_states output_attentions
         query_states relative_pos marks s,
    encoder_forward xsoftmax enc hidden_states attention_mask output_hidden_states
      output_attentions query_states relative_pos marks s
    = (Raise (UnboundLocalError "mark_embeddings"), s).
Proof.
  intros Hinit Hcfg Hlayers.
  destruct (encoder_init_inv _ _ _ _ _ _ Hinit) as (_ & _ & Hp & Hm & _).
  assert (Hnone : enc_pivot_phrase_embeddings enc = None /\ enc_mark_embeddings enc = None).
  { rewrite Hp, Hm. destruct Hcfg as [-> | [-> Hattr]]; [now split |].
    unfold hasattr. rewrite Hattr, bool_decide_eq_false_2 by (intros [x Hx]; discriminate).
    now rewrite !andb_false_r. }
  destruct Hnone as [Hp' Hm'].
  intros h am ohs oa qs rp mk s.
  unfold encoder_forward. cbv zeta. rewrite Hp', Hm'.
  destruct (enc_layer enc) as [| l ls]; [contradiction | reflexivity].
Qed.

Lemma encoder_loop_lists (layers : list (Layer R)) am ohs oa r re me mk :
  forall h kv qs ahs aas s h' ahs' aas' s',
    encoder_loop xsoftmax layers am ohs oa r re me mk h kv qs ahs aas s
    = (Ok (h', ahs', aas'), s') ->
    (ohs = true -> exists mid, ahs' ++ [h'] = ahs ++ h :: mid /\ length mid = length layers)
    /\ (ohs = false -> ahs' = ahs)
    /\ (oa = true -> length aas' = length aas + length layers)
    /\ (oa = false -> aas' = aas).
Proof.
  induction layers as [| x layers IH]; intros h kv qs ahs aas s h' ahs' aas' s';
    cbn [encoder_loop]; cbv zeta.
  - unfold ret. intros [= <- <- <- <-]. repeat split; try (cbn; lia).
    intros _. exists []. split; reflexivity.
  - unfold bind at 1. bind_case; [| discriminate].
    unfold bind at 1. bind_case; [| discriminate].
    destruct a0 as [h1 att].
    unfold bind at 1. bind_case; [| discriminate].
    intros Hrest. apply IH in Hrest as (Hh & Hh' & Ha & Ha').
    match goal with
    | Hatt : (if oa then _ else _) _ = (Ok ?a1, _) |- _ =>
        assert (Hlen : (oa = true -> length a1 = S (length aas))
                       /\ (oa = false -> a1 = aas));
        [ clear - Hatt; destruct oa;
          [ revert Hatt; unfold bind at 1; bind_case; [| discriminate];
            unfold ret; intros [= <- <-]; split; [intros _ | discriminate];
            rewrite length_app; cbn; lia
          | revert Hatt; unfold ret; intros [= <- <-]; split; [discriminate | reflexivity] ]
        | destruct Hlen as [Hlen Hlen'] ]
    end.
    repeat split.
    + intros ->. destruct (Hh eq_refl) as (mid & Hmid & Hl).
      exists (h1 :: mid). split; [| cbn; now rewrite Hl].
      now rewrite Hmid, <- app_assoc.
    + intros ->. now apply Hh'.
    + intros Hoa. rewrite Ha, Hlen by exact Hoa. cbn. lia.
    + intros Hoa. rewrite Ha', Hlen' by exact Hoa. reflexivity.
Qed.

(** X11. When [forward] returns, [all_hidden_states] is [None] unless
    [output_hidden_states] is set; then it holds the input followed by one
    entry per layer, the last one being the last hidden state. Likewise
    [all_attentions] holds one entry per layer when [output_attentions] is
    set and is [None] otherwise. *)
Theorem encoder_output_lists (self : Encoder R) (hidden_states : tensor R)
    (attention_mask : tensor Z) (output_hidden_states output_attentions : bool)
    (query_states : option (tensor R)) (relative_pos marks : option (tensor Z))
    (s s' : counters) (out : EncoderOutput R) :
  encoder_forward xsoftmax self hidden_states attention_mask output_hidden_states
    output_attentions query_states relative_pos marks s = (Ok out, s') ->
  (if output_hidden_states
   then exists mid,
          eo_all_hidden_states out = Some (hidden_states :: mid)
          /\ length mid = length (enc_layer self)
          /\ List.last (hidden_states :: mid) hidden_states = eo_hidden_states out
   else eo_all_hidden_states out = None)
  /\ (if output_attentions
      then exists a, eo_all_attentions out = Some a
                     /\ length a = length (enc_layer self)
      else eo_all_attentions out = None).
Proof.
  unfold encoder_forward. cbv zeta.
  unfold bind at 1. bind_case; [| discriminate].
  unfold bind at 1. bind_case; [| discriminate].
  destruct a0 as [[h' ahs] aas]. unfold ret. intros [= <- <-].
  cbn [eo_hidden_states eo_all_hidden_states eo_all_attentions].
  match goal with
  | Hloop : encoder_loop _ _ _ _ _ _ _ _ _ _ _ _ _ _ _ = _ |- _ =>
      destruct (encoder_loop_lists _ _ _ _ _ _ _ _ _ _ _ _ _ _ _ _ _ _ Hloop)
        as (Hh & _ & Ha & _)
  end.
  split.
  - destruct output_hidden_states; [| reflexivity].
    destruct (Hh eq_refl) as (mid & Hmid & Hl). cbn in Hmid.
    exists mid. split; [now rewrite Hmid | split; [exact Hl |]].
    rewrite <- Hmid. apply last_last.
  - destruct output_attentions; [| reflexivity].
    eexists. split; [reflexivity |]. now rewrite Ha.
Qed.

End EncoderInit.

Lemma marks_required_after_add_extra_args_witness :
  exists enc cfg2 s3,
    encoder_init Sample.default_cfg (mp_encoder Sample.model_parts) Sample.s0
    = (Ok (enc, cfg2), s3)
    /\ forall s,
         encoder_forward Sample.xsoftmax enc Sample.hidden_states Sample.attention_mask
           true false None None None s
         = (Raise (TypeError "unsqueeze(): argument 'input' must be Tensor"), s).
Proof.
  assert (Hadd : add_extra_args Sample.cfg ∅ Sample.s0
                 = (Ok Sample.default_cfg, Sample.s0)) by (vm_compute; reflexivity).
  do 3 eexists. split; [reflexivity |]. intros s.
  eapply (marks_required_after_add_extra_args Sample.xsoftmax Sample.cfg
            Sample.default_cfg _ ∅ (mp_encoder Sample.model_parts) _
            Sample.s0 Sample.s0 Sample.s0 _ eq_refl Hadd eq_refl).
Defined.

Lemma encoder_needs_mark_embeddings_witness :
  exists enc cfg' s1,
    encoder_init Sample.cfg (mp_encoder Sample.model_parts) Sample.s0 = (Ok (enc, cfg'), s1)
    /\ forall s,
         encoder_forward Sample.xsoftmax enc Sample.hidden_states Sample.attention_mask
           true false None None (Some Sample.marks) s
         = (Raise (UnboundLocalError "mark_embeddings"), s).
Proof.
  do 3 eexists. split; [reflexivity |]. intros s.
  eapply (encoder_needs_mark_embeddings Sample.xsoftmax Sample.cfg _
            (mp_encoder Sample.model_parts) _ Sample.s0 _ eq_refl).
  - right. split; reflexivity.
  - discriminate.
Defined.

Lemma encoder_output_lists_witness :
  match encoder_forward Sample.xsoftmax Sample.encoder Sample.hidden_states
          Sample.attention_mask true true None None (Some Sample.marks) Sample.s0 with
  | (Ok out, _) =>
      (exists mid,
         eo_all_hidden_states out = Some (Sample.hidden_states :: mid)
         /\ length mid = 1
         /\ List.last (Sample.hidden_states :: mid) Sample.hidden_states
            = eo_hidden_states out)
      /\ exists a, eo_all_attentions out = Some a /\ length a = 1
  | (Raise _, _) => False
  end.
Proof.
  assert (Hret : returns (encoder_forward Sample.xsoftmax Sample.encoder
                            Sample.hidden_states Sample.attention_mask true true None
                            None (Some Sample.marks)) Sample.s0 = true) by reflexivity.
  unfold returns in Hret.
  destruct (encoder_forward Sample.xsoftmax Sample.encoder Sample.hidden_states
              Sample.attention_mask true true None None (Some Sample.marks) Sample.s0)
    as [[out | e] s'] eqn:Hrun; [| discriminate Hret].
  exact (encoder_output_lists Sample.xsoftmax Sample.encoder Sample.hidden_states
           Sample.attention_mask true true None None (Some Sample.marks) Sample.s0 s' out
           Hrun).
Defined.

(** ** The mark embeddings of the encoder *)

Lemma pin_one (a : nat) : (if a =? 1 then 1 else a) = a.
Proof. now destruct (Nat.eqb_spec a 1). Qed.

Section MarkRows.
Context {R : Type} `{Scalar R}.
Variable xsoftmax : tensor R -> tensor Z -> tensor R.

Lemma get_mark_rows (w : tensor R) (marks : tensor Z) (B N Hd b n h : nat) :
  shape w = [2; Hd] -> shape marks = [B; N] -> b < B -> n < N -> h < Hd ->
  get (where_ (eq_scalar (unsqueeze (dim marks) marks) 0)
         (view (row w 0) [1; 1; size_at w 1]) (view (row w 1) [1; 1; size_at w 1]))
      [b; n; h]
  = if Z.eqb (get marks [b; n]) 0 then get w [0; h] else get w [1; h].
Proof.
  intros Hw Hm Hb Hn Hh.
  unfold where_, bget, eq_scalar, tmap, unsqueeze, view, row, dim, size_at.
  cbn [get shape]. rewrite Hw, Hm. cbn [length take drop app nth].
  unfold bidx. cbn [length Nat.sub drop zip_with].
  rewrite !(pin_lt _ _ Hb), !(pin_lt _ _ Hn), !(pin_lt _ _ Hh). cbn [Nat.eqb take drop app].
  unfold unravel, ravel, prod_list. cbn [foldr].
  replace (0 * (1 * (Hd * 1)) + (0 * (Hd * 1) + (h * 1 + 0))) with h by lia.
  rewrite Nat.div_1_r. reflexivity.
Qed.

Lemma shape_mark_rows (w : tensor R) (marks : tensor Z) (B N Hd : nat) :
  shape w = [2; Hd] -> shape marks = [B; N] ->
  shape (where_ (eq_scalar (unsqueeze (dim marks) marks) 0)
           (view (row w 0) [1; 1; size_at w 1]) (view (row w 1) [1; 1; size_at w 1]))
  = [B; N; Hd].
Proof.
  intros Hw Hm.
  unfold where_, eq_scalar, tmap, unsqueeze, view, dim, size_at. cbn [shape].
  rewrite Hw, Hm. cbn [length take drop app nth].
  rewrite bshape_same. unfold bshape, pad_left. cbn.
  now rewrite !pin_one.
Qed.

(** X12. With a mark table of two rows, the mark embeddings that [forward]
    hands to the layers are, token by token, row 0 of the table where the
    mark is 0 and row 1 for any other mark. *)
Theorem mark_embeddings_by_mark (self : Encoder R) (w : tensor R) (marks : tensor Z)
    (B N Hd : nat) :
  enc_relative_attention self = true ->
  enc_mark_embeddings self = Some w ->
  shape w = [2; Hd] -> shape marks = [B; N] ->
  exists mark_embeddings : tensor R,
    shape mark_embeddings = [B; N; Hd]
    /\ (forall b n h, b < B -> n < N -> h < Hd ->
          get mark_embeddings [b; n; h]
          = if Z.eqb (get marks [b; n]) 0 then get w [0; h] else get w [1; h])
    /\ forall hidden_states attention_mask output_hidden_states output_attentions
              query_states relative_pos s,
         encoder_forward xsoftmax self hidden_states attention_mask output_hidden_states
           output_attentions query_states relative_pos (Some marks) s
         = encoder_layers xsoftmax self (Some (Some mark_embeddings)) hidden_states
             attention_mask output_hidden_states output_attentions query_states
             relative_pos (Some marks) s.
Proof.
  intros Hrel Hm Hw Hmk.
  eexists. split; [| split].
  - apply (shape_mark_rows w marks B N Hd Hw Hmk).
  - intros b n h Hb Hn Hh. now apply (get_mark_rows w marks B N Hd).
  - intros hs am ohs oa qs rp s.
    unfold encoder_forward, encoder_layers. cbv zeta. rewrite Hm, Hrel.
    reflexivity.
Qed.

End MarkRows.

Lemma mark_embeddings_by_mark_witness :
  exists mark_embeddings : tensor Qc,
    shape mark_embeddings = [2; 4; 8]
    /\ (forall b n h, b < 2 -> n < 4 -> h < 8 ->
          get mark_embeddings [b; n; h]
          = if Z.eqb (get Sample.marks [b; n]) 0
            then get (Sample.ramp [2; 8] 1 0) [0; h]
            else get (Sample.ramp [2; 8] 1 0) [1; h])
    /\ forall hidden_states attention_mask output_hidden_states output_attentions
              query_states relative_pos s,
         encoder_forward Sample.xsoftmax Sample.encoder hidden_states attention_mask
           output_hidden_states output_attentions query_states relative_pos
           (Some Sample.marks) s
         = encoder_layers Sample.xsoftmax Sample.encoder (Some (Some mark_embeddings))
             hidden_states attention_mask output_hidden_states output_attentions
             query_states relative_pos (Some Sample.marks) s.
Proof.
  apply (mark_embeddings_by_mark Sample.xsoftmax Sample.encoder (Sample.ramp [2; 8] 1 0)
           Sample.marks 2 4 8); reflexivity.
Defined.

(** ** Heads and the two projection paths *)

Section HeadSplit.
Context {R : Type} `{Scalar R}.

(** X13. [transpose_for_scores] splits the last axis into heads: an input of
    shape [B; N; h * w] comes back with shape [B; h; N; w], and its entry
    [b; i; n; t] is the input entry [b; n; i * w + t]. *)
Theorem transpose_for_scores_entries (self : SelfAttention R) (x : tensor R)
    (B N w : nat) :
  let h := sa_num_attention_heads self in
  0 < h ->
  shape x = [B; N; h * w] ->
  shape (transpose_for_scores self x) = [B; h; N; w]
  /\ forall b i n t, n < N -> i < h -> t < w ->
       get (transpose_for_scores self x) [b; i; n; t] = get x [b; n; i * w + t].
Proof. intros h Hh Hx. now apply transpose_for_scores_get. Qed.

End HeadSplit.

Lemma transpose_for_scores_entries_witness :
  shape (transpose_for_scores Sample.standard_attention Sample.hidden_states) = [2; 2; 4; 4]
  /\ forall b i n t, n < 4 -> i < 2 -> t < 4 ->
       get (transpose_for_scores Sample.standard_attention Sample.hidden_states)
           [b; i; n; t]
       = get Sample.hidden_states [b; n; i * 4 + t].
Proof.
  apply (transpose_for_scores_entries Sample.standard_attention Sample.hidden_states 2 4 4);
    [cbn; lia | reflexivity].
Defined.

Section Projections.
Context {R : Type} `{Scalar R}.

Lemma get_linear_value (l : Linear R) (x : tensor R) (B N E b n o : nat) :
  bias l = None -> shape x = [B; N; E] ->
  get (linear_value l x) [b; n; o]
  = sum_upto E (fun k => fmul (get x [b; n; k]) (get (weight l) [o; k])).
Proof.
  intros Hb Hx. unfold linear_value, size_neg, dim. cbn [get]. rewrite Hb, Hx. reflexivity.
Qed.

Lemma shape_linear_value (l : Linear R) (x : tensor R) (B N E O : nat) :
  shape x = [B; N; E] -> size_at (weight l) 0 = O ->
  shape (linear_value l x) = [B; N; O].
Proof. intros Hx Hw. unfold linear_value, dim. cbn [shape]. now rewrite Hx, Hw. Qed.

Lemma get_chunk_last (t : tensor R) (B h N d c b i n u : nat) :
  shape t = [B; h; N; d * 3] ->
  get (chunk_last t 3 c) [b; i; n; u] = get t [b; i; n; c * d + u].
Proof.
  intros Ht. unfold chunk_last, size_neg, dim, set_last. cbn [get]. rewrite Ht.
  cbn [length Nat.leb Nat.sub nth take app List.last].
  now rewrite Nat.div_mul by lia.
Qed.

Lemma shape_chunk_last (t : tensor R) (B h N d c : nat) :
  shape t = [B; h; N; d * 3] -> shape (chunk_last t 3 c) = [B; h; N; d].
Proof.
  intros Ht. unfold chunk_last, size_neg, dim. cbn [shape]. rewrite Ht.
  cbn [length Nat.leb Nat.sub nth take app].
  now rewrite Nat.div_mul by lia.
Qed.

End Projections.

Section ProjectionPaths.
Context {R : Type} `{Scalar R}.

(** Entry of the fused projection, split into heads and cut into three. *)
Lemma get_fused_chunk (self : SelfAttention R) (x : tensor R) (B N E d c b i n t : nat) :
  let h := sa_num_attention_heads self in
  0 < h -> c < 3 ->
  bias (sa_in_proj self) = None ->
  shape (weight (sa_in_proj self)) = [h * (d * 3); E] ->
  shape x = [B; N; E] ->
  i < h -> n < N -> t < d ->
  shape (chunk_last (transpose_for_scores self (linear_value (sa_in_proj self) x)) 3 c)
  = [B; h; N; d]
  /\ get (chunk_last (transpose_for_scores self (linear_value (sa_in_proj self) x)) 3 c)
         [b; i; n; t]
     = sum_upto E (fun k => fmul (get x [b; n; k])
                                 (get (weight (sa_in_proj self)) [(i * 3 + c) * d + t; k])).
Proof.
  intros h Hh Hc Hb Hw Hx Hi Hn Ht.
  assert (Hlin : shape (linear_value (sa_in_proj self) x) = [B; N; h * (d * 3)]).
  { apply (shape_linear_value _ _ B N E); [exact Hx |]. unfold size_at. now rewrite Hw. }
  destruct (transpose_for_scores_get self _ B N (d * 3) Hh Hlin) as [Hs Hg].
  fold h in Hs, Hg.
  split; [now apply (shape_chunk_last _ B h N d) |].
  rewrite (get_chunk_last _ B h N d) by exact Hs.
  rewrite Hg by (try assumption; nia).
  rewrite (get_linear_value _ _ B N E) by assumption.
  apply sum_upto_ext. intros k _. do 3 f_equal. lia.
Qed.

Lemma shape_qkv_weight (self : SelfAttention R) (E d c : nat) :
  let h := sa_num_attention_heads self in
  0 < h ->
  shape (weight (sa_in_proj self)) = [h * (d * 3); E] ->
  shape (transpose_last2 (qkv_weight self c)) = [E; h * d].
Proof.
  intros h Hh Hw. unfold transpose_last2, qkv_weight, size_at. cbn [shape]. rewrite Hw.
  cbn [nth]. fold h.
  replace (h * (d * 3)) with (d * (h * 3)) by lia. rewrite Nat.div_mul by lia.
  reflexivity.
Qed.

(** Entry of one of the three separate projections, split into heads. *)
Lemma get_separate (self : SelfAttention R) (x : tensor R) (B N E d c b i n t : nat) :
  let h := sa_num_attention_heads self in
  0 < h ->
  shape (weight (sa_in_proj self)) = [h * (d * 3); E] ->
  shape x = [B; N; E] ->
  b < B -> i < h -> n < N -> t < d ->
  shape (transpose_for_scores self
           (matmul_value x (transpose_last2 (qkv_weight self c)))) = [B; h; N; d]
  /\ get (transpose_for_scores self
            (matmul_value x (transpose_last2 (qkv_weight self c)))) [b; i; n; t]
     = sum_upto E (fun k => fmul (get x [b; n; k])
                                 (get (weight (sa_in_proj self)) [(i * 3 + c) * d + t; k])).
Proof.
  intros h Hh Hw Hx Hb Hi Hn Ht.
  pose proof (shape_qkv_weight self E d c Hh Hw) as Hqw. fold h in Hqw.
  assert (Hmm : shape (matmul_value x (transpose_last2 (qkv_weight self c)))
                = [B; N; h * d]).
  { unfold matmul_value, batch_of, size_neg, dim. cbn [shape]. rewrite Hx, Hqw.
    cbn [length Nat.sub take Nat.leb nth]. unfold bshape, pad_left. cbn.
    now rewrite pin_one. }
  destruct (transpose_for_scores_get self _ B N d Hh Hmm) as [Hs Hg].
  fold h in Hs, Hg. split; [exact Hs |].
  rewrite Hg by assumption.
  unfold matmul_value at 1. cbn [get]. unfold batch_of, size_neg, dim. rewrite Hx, Hqw.
  cbn [length Nat.sub take Nat.leb nth]. unfold bidx. cbn [length Nat.sub drop zip_with app].
  rewrite (pin_lt _ _ Hb).
  apply sum_upto_ext. intros k _. f_equal.
  unfold transpose_last2, qkv_weight, size_at. cbn [get]. rewrite Hw. cbn [nth]. fold h.
  replace (h * (d * 3)) with (d * (h * 3)) by lia. rewrite Nat.div_mul by lia.
  cbn. rewrite div_row, mod_row by exact Ht. reflexivity.
Qed.

(** X14. The two projection paths of [forward] agree: with [query_states]
    equal to [hidden_states], the three separate products with the regrouped
    rows of [in_proj] give the query, key and value entries of the fused
    projection cut in three. The fused path performs one product, the
    separate path three. *)
Theorem qkv_projection_paths_agree (self : SelfAttention R) (x : tensor R)
    (B N E d : nat) (s : counters) :
  let h := sa_num_attention_heads self in
  0 < h ->
  bias (sa_in_proj self) = None ->
  shape (weight (sa_in_proj self)) = [h * (d * 3); E] ->
  shape x = [B; N; E] ->
  exists q k v q' k' v' s1 s2,
    qkv_projection self x None s = (Ok (q, k, v), s1)
    /\ qkv_projection self x (Some x) s = (Ok (q', k', v'), s2)
    /\ matmuls s1 = matmuls s + 1 /\ matmuls s2 = matmuls s + 3
    /\ forall b i n t, b < B -> i < h -> n < N -> t < d ->
         get q [b; i; n; t] = get q' [b; i; n; t]
         /\ get k [b; i; n; t] = get k' [b; i; n; t]
         /\ get v [b; i; n; t] = get v' [b; i; n; t].
Proof.
  intros h Hh Hb Hw Hx.
  unfold qkv_projection.
  cbv beta iota zeta delta [bind ret apply_linear matmul tick matmuls refinement_steps].
  do 8 eexists. split; [reflexivity |]. split; [reflexivity |].
  split; [cbn; lia |]. split; [cbn; lia |].
  intros b i n t Hlb Hi Hn Ht.
  assert (Hin : Forall2 lt [b; i; n; t] [B; h; N; d]) by (repeat constructor; assumption).
  destruct (get_fused_chunk self x B N E d 0 b i n t Hh ltac:(lia) Hb Hw Hx Hi Hn Ht)
    as [Hs0 Hg0].
  destruct (get_fused_chunk self x B N E d 1 b i n t Hh ltac:(lia) Hb Hw Hx Hi Hn Ht)
    as [Hs1 Hg1].
  destruct (get_fused_chunk self x B N E d 2 b i n t Hh ltac:(lia) Hb Hw Hx Hi Hn Ht)
    as [Hs2 Hg2].
  destruct (get_separate self x B N E d 0 b i n t Hh Hw Hx Hlb Hi Hn Ht) as [Ht0 Hh0].
  destruct (get_separate self x B N E d 1 b i n t Hh Hw Hx Hlb Hi Hn Ht) as [Ht1 Hh1].
  destruct (get_separate self x B N E d 2 b i n t Hh Hw Hx Hlb Hi Hn Ht) as [Ht2 Hh2].
  fold h in Hs0, Hs1, Hs2, Ht0, Ht1, Ht2.
  unfold tadd, tmap2. cbn [get].
  rewrite !(bget_in_range (chunk_last _ _ _)) by (rewrite ?Hs0, ?Hs1, ?Hs2; exact Hin).
  rewrite !(bget_in_range (transpose_for_scores self (matmul_value _ _)))
    by (rewrite ?Ht0, ?Ht1, ?Ht2; exact Hin).
  rewrite Hg0, Hg1, Hg2, Hh0, Hh1, Hh2.
  repeat split.
Qed.

End ProjectionPaths.

Lemma qkv_projection_paths_agree_witness :
  exists q k v q' k' v' s1 s2,
    qkv_projection Sample.standard_attention Sample.hidden_states None Sample.s0
    = (Ok (q, k, v), s1)
    /\ qkv_projection Sample.standard_attention Sample.hidden_states
         (Some Sample.hidden_states) Sample.s0 = (Ok (q', k', v'), s2)
    /\ matmuls s1 = matmuls Sample.s0 + 1 /\ matmuls s2 = matmuls Sample.s0 + 3
    /\ forall b i n t, b < 2 -> i < 2 -> n < 4 -> t < 4 ->
         get q [b; i; n; t] = get q' [b; i; n; t]
         /\ get k [b; i; n; t] = get k' [b; i; n; t]
         /\ get v [b; i; n; t] = get v' [b; i; n; t].
Proof.
  apply (qkv_projection_paths_agree Sample.standard_attention Sample.hidden_states
           2 4 8 4 Sample.s0); [cbn; lia | reflexivity | reflexivity | reflexivity].
Defined.

(** ** The embeddings of padding tokens *)

Lemma length_bshape (s1 s2 : list nat) :
  length (bshape s1 s2) = length s1 `max` length s2.
Proof.
  unfold bshape, pad_left. rewrite length_zip_with, !length_app, !length_replicate. lia.
Qed.

Lemma bind_inv {A B} (c : M A) (k : A -> M B) s b s' :
  bind c k s = (Ok b, s') -> exists a s1, c s = (Ok a, s1) /\ k a s1 = (Ok b, s').
Proof.
  unfold bind. destruct (c s) as [[a | e] s1]; [eauto | discriminate].
Qed.

Lemma ret_inv {A} (a b : A) s s' : ret a s = (Ok b, s') -> a = b /\ s = s'.
Proof. unfold ret. now intros [= <- <-]. Qed.

Lemma Qc_fmul_zero_r (x : Qc) : fmul x (of_Z 0) = f0.
Proof. exact (Qcmult_0_r x). Qed.

Lemma Qc_fmul_zero_l (c : Qc) : fmul f0 c = f0.
Proof. exact (Qcmult_0_l c). Qed.

Section PaddedEmbeddings.
Context {R : Type} `{Scalar R}.
Hypothesis fmul_zero_r : forall x : R, fmul x (of_Z 0) = f0.
Hypothesis fmul_zero_l : forall c : R, fmul f0 c = f0.

Lemma dim_tadd (a b : tensor R) : dim (tadd a b) = dim a `max` dim b.
Proof. unfold dim, tadd, tmap2. cbn [shape]. apply length_bshape. Qed.

Lemma dim_embedding_lookup (table : tensor R) (ids : tensor Z) :
  dim (embedding_lookup table ids) = S (dim ids).
Proof. unfold dim, embedding_lookup. cbn [shape]. rewrite length_app. cbn. lia. Qed.

Lemma dim_linear_value (l : Linear R) (x : tensor R) :
  0 < dim x -> dim (linear_value l x) = dim x.
Proof.
  intros Hx. unfold dim, linear_value in *. cbn [shape].
  rewrite length_app, length_take. cbn. unfold dim. lia.
Qed.

(** X15. In a number system where a product with zero is zero, the embedding
    of a token whose mask is 0 is zero in every component, with or without
    dropout, whatever the tables hold. *)
Theorem padding_embeddings_are_zero (self : Embeddings R) (input_ids : tensor Z)
    (token_type_ids position_ids : option (tensor Z)) (mask : tensor Z)
    (B N : nat) (s s' : counters) (out : tensor R) (ie : option (tensor R)) :
  (forall t, dim (emb_LayerNorm self t) = dim t) ->
  shape input_ids = [B; N] -> shape mask = [B; N] ->
  (forall t, token_type_ids = Some t -> dim t <= 2) ->
  (forall p, position_ids = Some p -> dim p <= 2) ->
  embeddings_forward self (Some input_ids) token_type_ids position_ids (Some mask) None s
  = (Ok (out, ie), s') ->
  forall b n h, b < B -> n < N -> get mask [b; n] = 0%Z -> get out [b; n; h] = f0.
Proof.
  intros Hln Hids Hmask Htt Hpos Hrun b n h Hb Hn Hz.
  unfold embeddings_forward in Hrun.
  apply bind_inv in Hrun as (input_shape & s1 & H1 & Hrun).
  apply ret_inv in H1 as [<- <-].
  apply bind_inv in Hrun as (seq_length & s1 & H2 & Hrun).
  rewrite Hids in H2. cbn in H2. apply ret_inv in H2 as [<- <-].
  cbv zeta in Hrun.
  apply bind_inv in Hrun as (e0 & s1 & H3 & Hrun).
  apply ret_inv in H3 as [<- <-].
  set (pids := default _ position_ids) in Hrun.
  set (tids := default _ token_type_ids) in Hrun.
  set (e0 := embedding_lookup (emb_word_embeddings self) input_ids) in Hrun.
  set (pe := match emb_position_embeddings self with Some _ => _ | None => _ end) in Hrun.
  set (e1 := if emb_position_biased_input self then _ else _) in Hrun.
  assert (He0 : dim e0 = 3).
  { subst e0. rewrite dim_embedding_lookup. unfold dim. now rewrite Hids. }
  assert (Hpids : dim pids <= 2).
  { subst pids. destruct position_ids as [p |]; cbn; [now apply Hpos | unfold dim; cbn; lia]. }
  assert (Htids : dim tids <= 2).
  { subst tids. destruct token_type_ids as [t |]; cbn; [now apply Htt |].
    unfold dim. cbn. rewrite Hids. cbn. lia. }
  assert (Hpe : dim pe <= 3).
  { subst pe. destruct (emb_position_embeddings self).
    - rewrite dim_embedding_lookup. lia.
    - unfold dim. cbn [shape]. fold (dim e0). lia. }
  assert (He1 : dim e1 = 3).
  { subst e1. destruct (emb_position_biased_input self); [| exact He0].
    rewrite dim_tadd. lia. }
  clearbody e1. clear e0 He0 pe Hpe pids Hpids.
  apply bind_inv in Hrun as (e2 & s1 & H4 & Hrun).
  assert (He2 : dim e2 = 3).
  { destruct (0 <? emb_type_vocab_size self)%Z.
    - apply bind_inv in H4 as (table & s2 & _ & H4). apply ret_inv in H4 as [<- _].
      rewrite dim_tadd, dim_embedding_lookup. lia.
    - now apply ret_inv in H4 as [<- _]. }
  clear H4 He1 e1.
  apply bind_inv in Hrun as (e3 & s2 & H5 & Hrun).
  assert (He3 : dim e3 = 3).
  { destruct (negb _).
    - apply bind_inv in H5 as (proj & s3 & _ & H5).
      unfold apply_linear in H5. apply bind_inv in H5 as ([] & s4 & _ & H5).
      apply ret_inv in H5 as [<- _]. rewrite dim_linear_value; lia.
    - now apply ret_inv in H5 as [<- _]. }
  clear H5 He2 e2.
  apply bind_inv in Hrun as (o1 & s3 & H6 & Hrun).
  apply bind_inv in Hrun as (o2 & s4 & H7 & Hrun).
  apply ret_inv in Hrun as [[= <- _] _].
  destruct o1 as [o1 |]; [| discriminate H7]. apply ret_inv in H7 as [<- _].
  revert H6. rewrite Hln, He3.
  assert (Hdm : dim mask = 2) by (unfold dim; now rewrite Hmask).
  rewrite Hdm. cbn [Nat.eqb negb].
  assert (Hentry : get (tmul (emb_LayerNorm self e3) (tmap of_Z (unsqueeze 2 mask)))
                     [b; n; h] = f0).
  { unfold tmul, tmap2, bget, tmap, unsqueeze. cbn [get shape]. rewrite Hmask.
    cbn [take drop app].
    replace (bidx [B; N; 1] [b; n; h]) with [b; n; 0]
      by (unfold bidx; cbn; now rewrite !pin_lt).
    cbn [take drop app]. now rewrite Hz, fmul_zero_r. }
  unfold apply_dropout. destruct (drop_active (emb_dropout self)).
  - intros Hd. apply bind_inv in Hd as (t & s5 & Ht & Hd).
    apply ret_inv in Ht as [<- _]. apply ret_inv in Hd as [[= <-] _].
    unfold drop_apply. cbn [get]. rewrite Hentry.
    now destruct (drop_mask _ _ _).
  - intros Hd. apply ret_inv in Hd as [[= <-] _]. exact Hentry.
Qed.
End PaddedEmbeddings.

Lemma padding_embeddings_are_zero_witness :
  match embeddings_forward Sample.embeddings (Some Sample.input_ids) None None
          (Some Sample.attention_mask) None Sample.s0 with
  | (Ok (out, _), _) => forall h, get out [1; 3; h] = f0
  | (Raise _, _) => False
  end.
Proof.
  assert (Hret : returns (embeddings_forward Sample.embeddings (Some Sample.input_ids)
                            None None (Some Sample.attention_mask) None) Sample.s0 = true)
    by reflexivity.
  unfold returns in Hret.
  destruct (embeddings_forward Sample.embeddings (Some Sample.input_ids) None None
              (Some Sample.attention_mask) None Sample.s0)
    as [[[out ie] | e] s'] eqn:Hrun; [| discriminate Hret].
  intros h.
  apply (padding_embeddings_are_zero Qc_fmul_zero_r Qc_fmul_zero_l
           Sample.embeddings Sample.input_ids None None Sample.attention_mask 2 4
           Sample.s0 s' out ie); try reflexivity; try lia; try discriminate.
  exact Hrun.
Defined.

(** ** The head: modes, arguments and outputs *)

Section HeadModes.
Context {R : Type} `{Scalar R}.
Variable xsoftmax : tensor R -> tensor Z -> tensor R.
Variable nll : list R -> Z -> R.
Variable autograd : (tensor R -> option R) -> tensor R -> tensor R.

(** X16. [VAT] and [mode] have no effect unless [VAT] is set and [mode] is
    ["train"]: any other combination runs exactly the call with [VAT=False]
    and no mode, a single pass whose perturbation is never added. *)
Theorem vat_only_in_training (self : Head R) (rand : list nat -> tensor R)
    (input_ids attention_mask token_type_ids position_ids : option (tensor Z))
    (inputs_embeds : option (tensor R)) (labels : option (tensor Z))
    (output_attentions output_hidden_states return_dict : option bool)
    (VAT : bool) (mode : option string) (marks : option (tensor Z)) (s : counters) :
  VAT = false \/ mode <> Some "train" ->
  head_forward xsoftmax nll autograd self rand input_ids attention_mask token_type_ids
    position_ids inputs_embeds labels output_attentions output_hidden_states return_dict
    VAT mode marks s
  = head_forward xsoftmax nll autograd self rand input_ids attention_mask token_type_ids
      position_ids inputs_embeds labels output_attentions output_hidden_states return_dict
      false None marks s.
Proof.
  intros Hoff.
  assert (Hcond : VAT && bool_decide (mode = Some "train") = false).
  { destruct Hoff as [-> | Hmode]; [reflexivity |].
    rewrite bool_decide_eq_false_2 by exact Hmode. apply andb_false_r. }
  unfold head_forward, vat_perturbation, second_pass, model_forward.
  rewrite Hcond. reflexivity.
Qed.

(** X17. The argument errors of the head, none of which performs any
    computation: VAT training without labels raises [AttributeError];
    otherwise, passing both [input_ids] and [inputs_embeds], or neither,
    raises the [ValueError] of the model, in VAT training as in the normal
    pass. *)
Theorem head_forward_rejects_arguments (self : Head R) (rand : list nat -> tensor R)
    (input_ids attention_mask token_type_ids position_ids : option (tensor Z))
    (inputs_embeds : option (tensor R)) (labels : option (tensor Z))
    (output_attentions output_hidden_states return_dict : option bool)
    (VAT : bool) (mode : option string) (marks : option (tensor Z)) (s : counters) :
  let call := head_forward xsoftmax nll autograd self rand input_ids attention_mask
                token_type_ids position_ids inputs_embeds labels output_attentions
                output_hidden_states return_dict VAT mode marks s in
  (VAT = true -> mode = Some "train" -> labels = None ->
   call = (Raise (AttributeError "'bool' object has no attribute 'to'"), s))
  /\ ((VAT = true -> mode = Some "train" -> exists l, labels = Some l /\ dim l = 2) ->
      (is_Some input_ids -> is_Some inputs_embeds ->
       call = (Raise (ValueError
                 "You cannot specify both input_ids and inputs_embeds at the same time"), s))
      /\ (input_ids = None -> inputs_embeds = None ->
          call = (Raise (ValueError
                    "You have to specify either input_ids or inputs_embeds"), s))).
Proof.
  intros call. subst call. split.
  - intros -> -> ->. reflexivity.
  - intros Hlabels.
    assert (Hl : VAT && bool_decide (mode = Some "train") = true -> is_Some labels).
    { intros Hc. apply andb_true_iff in Hc as [-> Hm].
      apply bool_decide_eq_true in Hm. destruct (Hlabels eq_refl Hm) as (l & -> & _). eauto. }
    clear Hlabels. split.
    + intros [ids ->] [e ->].
      unfold head_forward, vat_perturbation.
      destruct (VAT && bool_decide (mode = Some "train")) eqn:Hc.
      * destruct (Hl eq_refl) as [l ->]. reflexivity.
      * reflexivity.
    + intros -> ->.
      unfold head_forward, vat_perturbation.
      destruct (VAT && bool_decide (mode = Some "train")) eqn:Hc.
      * destruct (Hl eq_refl) as [l ->]. reflexivity.
      * reflexivity.
Qed.

(** X18. A head with the mark-enhanced classifier cannot return without
    marks: whatever the other arguments, the call raises. *)
Theorem mark_enhanced_classifier_needs_marks (self : Head R) (classifier : Linear R)
    (rand : list nat -> tensor R)
    (input_ids attention_mask token_type_ids position_ids : option (tensor Z))
    (inputs_embeds : option (tensor R)) (labels : option (tensor Z))
    (output_attentions output_hidden_states return_dict : option bool)
    (VAT : bool) (mode : option string) :
  h_mark_enhanced_classifier self = Some classifier ->
  always_raises
    (head_forward xsoftmax nll autograd self rand input_ids attention_mask token_type_ids
       position_ids inputs_embeds labels output_attentions output_hidden_states
       return_dict VAT mode None).
Proof.
  intros Hc. unfold head_forward. cbv zeta.
  apply always_raises_bind_r. intros [p ie].
  unfold second_pass. rewrite Hc.
  do 4 (apply always_raises_bind_r; intros ?; split_pairs).
  apply always_raises_bind_l. repeat raises_step.
Qed.

End HeadModes.

Lemma vat_only_in_training_witness :
  head_forward Sample.xsoftmax Sample.nll Sample.autograd Sample.head Sample.rand
    (Some Sample.input_ids) (Some Sample.attention_mask) None None None
    (Some Sample.labels) None None None true (Some "eval") (Some Sample.marks) Sample.s0
  = head_forward Sample.xsoftmax Sample.nll Sample.autograd Sample.head Sample.rand
      (Some Sample.input_ids) (Some Sample.attention_mask) None None None
      (Some Sample.labels) None None None false None (Some Sample.marks) Sample.s0.
Proof.
  apply (vat_only_in_training Sample.xsoftmax Sample.nll Sample.autograd Sample.head).
  right. discriminate.
Defined.

Lemma head_forward_rejects_arguments_witness :
  head_forward Sample.xsoftmax Sample.nll Sample.autograd Sample.head Sample.rand
    (Some Sample.input_ids) (Some Sample.attention_mask) None None
    (Some Sample.hidden_states) (Some Sample.labels) None None None true (Some "train")
    (Some Sample.marks) Sample.s0
  = (Raise (ValueError
       "You cannot specify both input_ids and inputs_embeds at the same time"), Sample.s0).
Proof.
  apply (head_forward_rejects_arguments Sample.xsoftmax Sample.nll Sample.autograd
           Sample.head Sample.rand (Some Sample.input_ids) (Some Sample.attention_mask)
           None None (Some Sample.hidden_states) (Some Sample.labels) None None None
           true (Some "train") (Some Sample.marks) Sample.s0).
  - intros _ _. exists Sample.labels. split; reflexivity.
  - eexists. reflexivity.
  - eexists. reflexivity.
Defined.

Lemma mark_enhanced_classifier_needs_marks_witness :
  always_raises
    (head_forward Sample.xsoftmax Sample.nll Sample.autograd Sample.marks_head
       Sample.rand (Some Sample.input_ids) (Some Sample.attention_mask) None None None
       (Some Sample.labels) None None None false None None).
Proof.
  apply (mark_enhanced_classifier_needs_marks Sample.xsoftmax Sample.nll Sample.autograd
           Sample.marks_head (Sample.lin 3 9 1 0)).
  reflexivity.
Defined.

Section ModelOutputs.
Context {R : Type} `{Scalar R}.
Variable xsoftmax : tensor R -> tensor Z -> tensor R.
Variable nll : list R -> Z -> R.
Variable autograd : (tensor R -> option R) -> tensor R -> tensor R.

(** What a call of [CustomDebertaModel.forward] that returns has done. *)
Lemma model_forward_inv (self : Model R) ids am tt pos ie oa ohs rd VAT p mode mk s out ie' s' :
  model_forward xsoftmax self ids am tt pos ie oa ohs rd VAT p mode mk s
  = (Ok (out, ie'), s') ->
  exists input_shape emb s1 emb' s2 enc s3 hs last,
    let am' := default (Tensor input_shape (fun _ => 1%Z)) am in
    let tt' := default (Tensor input_shape (fun _ => 0%Z)) tt in
    input_shape = match ids, ie with
                  | Some i, _ => shape i
                  | None, Some e => take (dim e - 1) (shape e)
                  | None, None => []
                  end
    /\ embeddings_forward (m_embeddings self) ids (Some tt') pos (Some am') ie s
       = (Ok (emb, ie'), s1)
    /\ encoder_forward xsoftmax (m_encoder self) emb' am' true
         (default (cfg_output_attentions (m_config self)) oa) None None mk s2
       = (Ok enc, s3)
    /\ eo_all_hidden_states enc = Some hs
    /\ out = [ITensor last]
             ++ (if default (cfg_output_hidden_states (m_config self)) ohs
                 then [IHidden hs] else [])
             ++ match eo_all_attentions enc with
                | Some a => [IAttentions a]
                | None => []
                end.
Proof.
  unfold model_forward. cbv zeta. intros Hrun.
  apply bind_inv in Hrun as (input_shape & s0 & Hshape & Hrun).
  assert (Hin : input_shape = match ids, ie with
                               | Some i, _ => shape i
                               | None, Some e => take (dim e - 1) (shape e)
                               | None, None => []
                               end /\ s0 = s).
  { destruct ids, ie; try discriminate Hshape; now apply ret_inv in Hshape as [<- <-]. }
  destruct Hin as [Hin ->]. clear Hshape.
  apply bind_inv in Hrun as ([emb ie1] & s1 & Hemb & Hrun).
  apply bind_inv in Hrun as (emb' & s2 & _ & Hrun).
  apply bind_inv in Hrun as (enc & s3 & Henc & Hrun).
  apply bind_inv in Hrun as (hs & s4 & Hhs & Hrun).
  apply bind_inv in Hrun as ([] & s5 & _ & Hrun).
  apply bind_inv in Hrun as (last & s6 & _ & Hrun).
  apply ret_inv in Hrun as [[= <- <-] _].
  destruct (eo_all_hidden_states enc) as [hs' |] eqn:Hall; [| discriminate Hhs].
  apply ret_inv in Hhs as [-> _].
  exists input_shape, emb, s1, emb', s2, enc, s3, hs, last. cbv zeta.
  repeat split; assumption.
Qed.

Lemma encoder_forward_attentions (self : Encoder R) h am ohs oa qs r mk s enc s' :
  encoder_forward xsoftmax self h am ohs oa qs r mk s = (Ok enc, s') ->
  if oa then is_Some (eo_all_attentions enc) else eo_all_attentions enc = None.
Proof.
  unfold encoder_forward. cbv zeta. intros Hrun.
  apply bind_inv in Hrun as (me & s1 & _ & Hrun).
  apply bind_inv in Hrun as ([[h' ahs] aas] & s2 & _ & Hrun).
  apply ret_inv in Hrun as [<- _]. cbn. destruct oa; eauto.
Qed.

(** X19. The layout of the tuple that the head returns: the loss when labels
    are given, the logits, the hidden states when they are requested (by the
    argument, or else by the configuration of the model), the attentions
    when they are requested. *)
Theorem head_output_layout (self : Head R) (rand : list nat -> tensor R)
    (input_ids attention_mask token_type_ids position_ids : option (tensor Z))
    (inputs_embeds : option (tensor R)) (labels : option (tensor Z))
    (output_attentions output_hidden_states return_dict : option bool)
    (VAT : bool) (mode : option string) (marks : option (tensor Z))
    (s s' : counters) (out : list (item R)) :
  head_forward xsoftmax nll autograd self rand input_ids attention_mask token_type_ids
    position_ids inputs_embeds labels output_attentions output_hidden_states return_dict
    VAT mode marks s = (Ok out, s') ->
  let cfg := m_config (h_deberta self) in
  exists logits hidden attentions,
    let rest :=
      ITensor logits
      :: (if default (cfg_output_hidden_states cfg) output_hidden_states
          then [IHidden hidden] else [])
      ++ (if default (cfg_output_attentions cfg) output_attentions
          then [IAttentions attentions] else []) in
    match labels with
    | Some _ => exists loss, out = ILoss loss :: rest
    | None => out = rest
    end.
Proof.
  unfold head_forward. cbv zeta. intros Hrun.
  apply bind_inv in Hrun as ([p ie] & s1 & _ & Hrun).
  unfold second_pass in Hrun.
  apply bind_inv in Hrun as ([outputs ie'] & s2 & Hmodel & Hrun).
  apply model_forward_inv in Hmodel
    as (ish & emb & s3 & emb' & s4 & enc & s5 & hs & last & _ & _ & Henc & _ & ->).
  apply encoder_forward_attentions in Henc.
  apply bind_inv in Hrun as (so & s6 & _ & Hrun).
  apply bind_inv in Hrun as (so1 & s7 & _ & Hrun).
  apply bind_inv in Hrun as (so2 & s8 & _ & Hrun).
  apply bind_inv in Hrun as (logits & s9 & _ & Hrun).
  cbv zeta in Hrun. cbn [app drop] in Hrun.
  assert (Hatt : exists a,
            match eo_all_attentions enc with Some a => [IAttentions a] | None => [] end
            = if default (cfg_output_attentions (m_config (h_deberta self))) output_attentions
              then [IAttentions a] else []).
  { destruct (default _ output_attentions).
    - destruct Henc as [a ->]. now exists a.
    - rewrite Henc. now exists []. }
  destruct Hatt as [a Ha]. rewrite Ha in Hrun.
  exists logits, hs, a. cbv zeta.
  destruct labels as [l |].
  - apply bind_inv in Hrun as (loss & s10 & _ & Hrun).
    apply ret_inv in Hrun as [<- _]. now exists loss.
  - now apply ret_inv in Hrun as [<- _].
Qed.

End ModelOutputs.

Lemma head_output_layout_witness :
  match head_forward Sample.xsoftmax Sample.nll Sample.autograd Sample.head Sample.rand
          (Some Sample.input_ids) (Some Sample.attention_mask) None None None
          (Some Sample.labels) (Some true) None None true (Some "train")
          (Some Sample.marks) Sample.s0 with
  | (Ok out, _) =>
      exists logits attentions loss,
        out = [ILoss loss; ITensor logits; IAttentions attentions]
  | (Raise _, _) => False
  end.
Proof.
  assert (Hret : returns (head_forward Sample.xsoftmax Sample.nll Sample.autograd
                            Sample.head Sample.rand (Some Sample.input_ids)
                            (Some Sample.attention_mask) None None None
                            (Some Sample.labels) (Some true) None None true
                            (Some "train") (Some Sample.marks)) Sample.s0 = true)
    by reflexivity.
  unfold returns in Hret.
  destruct (head_forward Sample.xsoftmax Sample.nll Sample.autograd Sample.head
              Sample.rand (Some Sample.input_ids) (Some Sample.attention_mask) None None
              None (Some Sample.labels) (Some true) None None true (Some "train")
              (Some Sample.marks) Sample.s0) as [[out | e] s'] eqn:Hrun;
    [| discriminate Hret].
  destruct (head_output_layout Sample.xsoftmax Sample.nll Sample.autograd Sample.head
              Sample.rand (Some Sample.input_ids) (Some Sample.attention_mask) None None
              None (Some Sample.labels) (Some true) None None true (Some "train")
              (Some Sample.marks) Sample.s0 s' out Hrun)
    as (logits & hidden & attentions & loss & Hout).
  exists logits, attentions, loss. exact Hout.
Defined.

Section SharedEmbeddings.
Context {R : Type} `{Scalar R}.
Variable xsoftmax : tensor R -> tensor Z -> tensor R.
Variable nll : list R -> Z -> R.
Variable autograd : (tensor R -> option R) -> tensor R -> tensor R.

(** The caller's [inputs_embeds] after the embedding layer has run on it. *)
Lemma embeddings_forward_caller (self : Embeddings R) (table : tensor R) tt pos mask
    (e : tensor R) (B N E : nat) s out ie s' :
  emb_position_biased_input self = true ->
  emb_position_embeddings self = Some table ->
  (emb_type_vocab_size self <= 0)%Z ->
  shape e = [B; N; E] ->
  embeddings_forward self None tt pos mask (Some e) s = (Ok (out, ie), s') ->
  ie = Some (tadd e (embedding_lookup table
                       (default (Tensor [1; N] (fun idx => get (emb_position_ids self) idx))
                                pos))).
Proof.
  intros Hbiased Htable Hvocab He. unfold embeddings_forward. intros Hrun.
  apply bind_inv in Hrun as (input_shape & s1 & H1 & Hrun).
  apply ret_inv in H1 as [<- <-].
  apply bind_inv in Hrun as (seq_length & s1 & H2 & Hrun).
  unfold dim in H2. rewrite He in H2. cbn in H2. apply ret_inv in H2 as [<- <-].
  cbv zeta in Hrun.
  apply bind_inv in Hrun as (e0 & s1 & H3 & Hrun).
  apply ret_inv in H3 as [<- <-].
  rewrite Hbiased, Htable in Hrun.
  assert (Hv : (0 <? emb_type_vocab_size self)%Z = false) by (apply Z.ltb_ge; lia).
  rewrite Hv in Hrun.
  apply bind_inv in Hrun as (e2 & s1 & H4 & Hrun).
  apply ret_inv in H4 as [<- <-].
  apply bind_inv in Hrun as (e3 & s2 & _ & Hrun).
  apply bind_inv in Hrun as (o1 & s3 & _ & Hrun).
  apply bind_inv in Hrun as (o2 & s4 & _ & Hrun).
  now apply ret_inv in Hrun as [[= _ <-] _].
Qed.

(** X20. The embedding layer adds the position embeddings in place. In VAT
    training on [inputs_embeds], the tensor that the second pass receives is
    therefore not the caller's input but the input plus the position
    embeddings, as the first pass left it. *)
Theorem vat_second_pass_gets_modified_embeddings (self : Head R)
    (rand : list nat -> tensor R) (table : tensor R)
    (attention_mask token_type_ids position_ids : option (tensor Z))
    (e : tensor R) (labels : option (tensor Z))
    (output_attentions output_hidden_states return_dict : option bool)
    (marks : option (tensor Z)) (B N E : nat)
    (s s1 : counters) (perturbation : tval R) (ie : option (tensor R)) :
  let emb := m_embeddings (h_deberta self) in
  let rd := default (use_return_dict (h_config self)) return_dict in
  emb_position_biased_input emb = true ->
  emb_position_embeddings emb = Some table ->
  (emb_type_vocab_size emb <= 0)%Z ->
  shape e = [B; N; E] ->
  vat_perturbation xsoftmax nll autograd self rand None attention_mask token_type_ids
    position_ids (Some e) labels output_attentions output_hidden_states rd
    true (Some "train") marks s = (Ok (perturbation, ie), s1) ->
  ie = Some (tadd e (embedding_lookup table
                       (default (Tensor [1; N] (fun idx => get (emb_position_ids emb) idx))
                                position_ids)))
  /\ head_forward xsoftmax nll autograd self rand None attention_mask token_type_ids
       position_ids (Some e) labels output_attentions output_hidden_states return_dict
       true (Some "train") marks s
     = second_pass xsoftmax nll self None attention_mask token_type_ids position_ids ie
         labels output_attentions output_hidden_states rd true (Some "train") marks
         perturbation s1.
Proof.
  intros emb rd Hbiased Htable Hvocab He Hvat. split.
  - unfold vat_perturbation in Hvat. cbn [andb] in Hvat.
    rewrite bool_decide_eq_true_2 in Hvat by reflexivity.
    apply bind_inv in Hvat as (l & s2 & _ & Hvat).
    apply bind_inv in Hvat as ([[loss ie0] grad] & s3 & Hfb & Hvat).
    apply bind_inv in Hvat as (lr & s4 & _ & Hvat).
    apply bind_inv in Hvat as (lr' & s5 & _ & Hvat).
    apply ret_inv in Hvat as [[= _ <-] _].
    unfold forward_backward in Hfb.
    match type of Hfb with
    | match ?c with _ => _ end = _ => destruct c as [[[loss' ie1] | ex] s6] eqn:Hpass
    end; [| discriminate].
    injection Hfb as _ <- _ _.
    unfold first_pass in Hpass.
    apply bind_inv in Hpass as ([outputs ie2] & s7 & Hmodel & Hpass).
    apply bind_inv in Hpass as (so & s8 & _ & Hpass).
    apply bind_inv in Hpass as (so1 & s9 & _ & Hpass).
    apply bind_inv in Hpass as (so2 & s10 & _ & Hpass).
    apply bind_inv in Hpass as (logits & s11 & _ & Hpass).
    apply bind_inv in Hpass as (loss2 & s12 & _ & Hpass).
    apply ret_inv in Hpass as [[= _ <-] _].
    apply model_forward_inv in Hmodel
      as (ish & em & s13 & em' & s14 & enc & s15 & hs & last & _ & Hemb & _).
    cbv zeta in Hemb.
    exact (embeddings_forward_caller _ table _ _ _ e B N E _ _ _ _
             Hbiased Htable Hvocab He Hemb).
  - unfold head_forward. cbv zeta. fold rd.
    unfold bind at 1. now rewrite Hvat.
Qed.

End SharedEmbeddings.

Lemma vat_second_pass_gets_modified_embeddings_witness :
  match vat_perturbation Sample.xsoftmax Sample.nll Sample.autograd Sample.position_head
          Sample.rand None (Some Sample.attention_mask) None None
          (Some Sample.hidden_states) (Some Sample.labels) None None true
          true (Some "train") (Some Sample.marks) Sample.s0 with
  | (Ok (perturbation, ie), s1) =>
      ie = Some (tadd Sample.hidden_states
                   (embedding_lookup (Sample.ramp [16; 8] 1 1)
                      (Tensor [1; 4]
                         (fun idx => get (emb_position_ids Sample.position_embeddings) idx))))
      /\ head_forward Sample.xsoftmax Sample.nll Sample.autograd Sample.position_head
           Sample.rand None (Some Sample.attention_mask) None None
           (Some Sample.hidden_states) (Some Sample.labels) None None None
           true (Some "train") (Some Sample.marks) Sample.s0
         = second_pass Sample.xsoftmax Sample.nll Sample.position_head None
             (Some Sample.attention_mask) None None ie (Some Sample.labels) None None
             true true (Some "train") (Some Sample.marks) perturbation s1
  | (Raise _, _) => False
  end.
Proof.
  assert (Hret : returns (vat_perturbation Sample.xsoftmax Sample.nll Sample.autograd
                            Sample.position_head Sample.rand None
                            (Some Sample.attention_mask) None None
                            (Some Sample.hidden_states) (Some Sample.labels) None None
                            true true (Some "train") (Some Sample.marks)) Sample.s0 = true)
    by reflexivity.
  unfold returns in Hret.
  destruct (vat_perturbation Sample.xsoftmax Sample.nll Sample.autograd
              Sample.position_head Sample.rand None (Some Sample.attention_mask) None
              None (Some Sample.hidden_states) (Some Sample.labels) None None true
              true (Some "train") (Some Sample.marks) Sample.s0)
    as [[[p ie] | e] s1] eqn:Hrun; [| discriminate Hret].
  assert (Hvocab : (emb_type_vocab_size Sample.position_embeddings <= 0)%Z)
    by discriminate.
  exact (vat_second_pass_gets_modified_embeddings Sample.xsoftmax Sample.nll
           Sample.autograd Sample.position_head Sample.rand (Sample.ramp [16; 8] 1 1)
           (Some Sample.attention_mask) None None Sample.hidden_states
           (Some Sample.labels) None None None (Some Sample.marks) 2 4 8 Sample.s0 s1 p ie
           eq_refl eq_refl Hvocab eq_refl Hrun).
Defined.

(** ** The pivot-phrase table *)

Section PivotTable.
Context {R : Type} `{Scalar R}.
Variable xsoftmax : tensor R -> tensor Z -> tensor R.

Lemma add_extra_args_pivot_flag (cfg : config R) (hparams : gmap string (pyval R))
    s cfg1 s1 :
  add_extra_args cfg hparams s = (Ok cfg1, s1) ->
  getattr (extra cfg1) "pivot_phrase_embeddings" (PBool false)
  = getattr hparams "pivot_phrase_embeddings" (PBool false).
Proof.
  unfold add_extra_args. cbv zeta.
  match goal with |- context [if ?b then _ else _] => destruct b end; [| discriminate].
  unfold ret. intros [= <- <-]. rewrite !extra_set_extra.
  rewrite !getattr_set_ne by discriminate. apply getattr_set_eq.
Qed.

(** X21. Once [add_extra_args] has run, the pivot-phrase embedding table has
    no effect. With the hyper-parameter [pivot_phrase_embeddings] set, the
    encoder built under relative attention owns the table; it also owns a
    mark table, whose rows replace the pivot-phrase table before the layers
    run. Two encoders built alike but for that table own different tables
    and return the same result on every input. *)
Theorem pivot_phrase_table_never_used (cfg cfg1 cfg2 : config R)
    (hparams : gmap string (pyval R)) (parts : EncoderParts R) (enc : Encoder R)
    (table : tensor R) (s0 s1 s2 s3 : counters) :
  truthy (getattr (extra cfg) "relative_attention" (PBool false)) = true ->
  add_extra_args cfg hparams s0 = (Ok cfg1, s1) ->
  encoder_init cfg1 parts s2 = (Ok (enc, cfg2), s3) ->
  exists enc',
    encoder_init cfg1
      {| ep_layers := ep_layers parts;
         ep_rel_embeddings := ep_rel_embeddings parts;
         ep_pivot_phrase_embeddings := table;
         ep_mark_embeddings := ep_mark_embeddings parts;
         ep_get_attention_mask := ep_get_attention_mask parts;
         ep_get_rel_pos := ep_get_rel_pos parts |} s2 = (Ok (enc', cfg2), s3)
    /\ (flag hparams "pivot_phrase_embeddings" ->
        enc_pivot_phrase_embeddings enc = Some (ep_pivot_phrase_embeddings parts)
        /\ enc_pivot_phrase_embeddings enc' = Some table)
    /\ forall hidden_states attention_mask output_hidden_states output_attentions
              query_states relative_pos marks s,
         encoder_forward xsoftmax enc' hidden_states attention_mask output_hidden_states
           output_attentions query_states relative_pos marks s
         = encoder_forward xsoftmax enc hidden_states attention_mask output_hidden_states
             output_attentions query_states relative_pos marks s.
Proof.
  intros Hrel Hadd Hinit.
  destruct (add_extra_args_extra _ _ _ _ _ Hadd) as [Hmark Hother].
  pose proof (add_extra_args_pivot_flag _ _ _ _ _ Hadd) as Hflag.
  assert (Hrel1 : truthy (getattr (extra cfg1) "relative_attention" (PBool false)) = true).
  { unfold getattr. rewrite Hother; [exact Hrel |].
    apply (bool_decide_unpack _). vm_compute. exact Logic.I. }
  unfold encoder_init in *. cbn [ep_layers ep_rel_embeddings ep_pivot_phrase_embeddings
    ep_mark_embeddings ep_get_attention_mask ep_get_rel_pos].
  apply bind_inv in Hinit as ([layers cfgL] & s4 & Hlayers & Hinit).
  cbv zeta in Hinit.
  apply bind_inv in Hinit as (max_rel & s5 & Hmax & Hinit).
  apply ret_inv in Hinit as [[= <- <-] <-].
  rewrite (bind_ok _ _ _ _ _ Hlayers). cbv zeta.
  rewrite (bind_ok _ _ _ _ _ Hmax).
  eexists. split; [reflexivity |].
  destruct (layers_init_config _ _ _ _ _ _ Hlayers) as (_ & _ & Hextra & _).
  split.
  - unfold flag. intros Hon. cbn [enc_pivot_phrase_embeddings].
    rewrite Hextra, Hrel1, Hflag, Hon. split; reflexivity.
  - intros h am ohs oa qs rp mk s.
    unfold encoder_forward, get_rel_embedding. cbn.
    rewrite Hextra, Hrel1. unfold hasattr.
    rewrite bool_decide_eq_true_2 by exact Hmark. cbn.
    reflexivity.
Qed.

End PivotTable.

(** With the hyper-parameter set, the two encoders own different tables, the
    forward pass returns, and it returns the same for both. *)
Lemma pivot_phrase_table_never_used_witness :
  exists enc cfg2 s3 enc',
    encoder_init Sample.pivot_table_cfg (mp_encoder Sample.model_parts) Sample.s0
    = (Ok (enc, cfg2), s3)
    /\ encoder_init Sample.pivot_table_cfg
         {| ep_layers := ep_layers (mp_encoder Sample.model_parts);
            ep_rel_embeddings := ep_rel_embeddings (mp_encoder Sample.model_parts);
            ep_pivot_phrase_embeddings := Sample.ramp [32; 8] 7 3;
            ep_mark_embeddings := ep_mark_embeddings (mp_encoder Sample.model_parts);
            ep_get_attention_mask := ep_get_attention_mask (mp_encoder Sample.model_parts);
            ep_get_rel_pos := ep_get_rel_pos (mp_encoder Sample.model_parts) |} Sample.s0
       = (Ok (enc', cfg2), s3)
    /\ enc_pivot_phrase_embeddings enc = Some (Sample.ramp [32; 8] 2 5)
    /\ enc_pivot_phrase_embeddings enc' = Some (Sample.ramp [32; 8] 7 3)
    /\ returns (encoder_forward Sample.xsoftmax enc Sample.hidden_states
                  Sample.attention_mask true false None None (Some Sample.marks))
               Sample.s0 = true
    /\ forall s,
         encoder_forward Sample.xsoftmax enc' Sample.hidden_states Sample.attention_mask
           true false None None (Some Sample.marks) s
         = encoder_forward Sample.xsoftmax enc Sample.hidden_states Sample.attention_mask
             true false None None (Some Sample.marks) s.
Proof.
  assert (Hadd : add_extra_args Sample.cfg Sample.hparams_pivot_table Sample.s0
                 = (Ok Sample.pivot_table_cfg, Sample.s0)) by (vm_compute; reflexivity).
  do 3 eexists.
  destruct (pivot_phrase_table_never_used Sample.xsoftmax Sample.cfg Sample.pivot_table_cfg
              _ Sample.hparams_pivot_table (mp_encoder Sample.model_parts) _
              (Sample.ramp [32; 8] 7 3)
              Sample.s0 Sample.s0 Sample.s0 _ eq_refl Hadd eq_refl)
    as (enc' & Hinit & Htables & Hsame).
  exists enc'. split; [reflexivity |]. split; [exact Hinit |].
  destruct (Htables eq_refl) as [Hown Hown'].
  split; [exact Hown |]. split; [exact Hown' |].
  split; [reflexivity |].
  intros s. apply Hsame.
Defined.
